(** * timer_streamlit: the virtual-clock mapper and its shared record

    Shallow embedding of [timer_streamli.py].  The script keeps one
    configuration (real base, virtual base, speed, adjustment) in the
    Streamlit session, maps the wall clock to a virtual clock with
    [compute_virtual], and mirrors the configuration in a single row of a
    remote table ([load_remote_state], [save_remote_state],
    [apply_remote_state]).

    Python values are modelled as follows.
    - [timedelta]: its exact number of microseconds, a [Z]; constructors
      check the range of the type and raise [OverflowError] outside it.
    - [datetime]: every datetime of the script carries the same [tzinfo]
      object [SEOUL], so comparison, subtraction and [replace] work on the
      wall-clock fields alone.  A datetime is its wall-clock microsecond
      count since 0001-01-01T00:00:00 together with the [fold] flag.
    - [float]: IEEE-754 binary64.  Every finite binary64 number is an
      integer multiple of 2^-1074, so a finite float is the [Z] that counts
      these units; arithmetic rounds to nearest, ties to even.
    - exceptions: an [outcome] is either [Returns v] or [Raises e]. *)

From Stdlib Require Import ZArith Lia Bool List String Ascii DecimalString.
Import ListNotations.
Local Open Scope Z_scope.

(** ** Exceptions *)

Inductive exn : Type :=
| OverflowError
| ValueError
| TypeError
| KeyError
| APIError.

Inductive outcome (A : Type) : Type :=
| Returns (a : A)
| Raises (e : exn).

Arguments Returns {A} a.
Arguments Raises {A} e.

Definition bind {A B : Type} (c : outcome A) (k : A -> outcome B) : outcome B :=
  match c with
  | Returns a => k a
  | Raises e => Raises e
  end.

Notation "x <- c ;; k" := (bind c (fun x => k))
  (at level 61, c at next level, right associativity).

(** ** Settings (lines 22-27) *)

Record hms : Type := { h : Z; m : Z; s : Z }.

Definition REAL_BASE_HMS : hms := {| h := 20; m := 0; s := 0 |}.
Definition VIRT_BASE_HMS : hms := {| h := 9; m := 0; s := 0 |}.
Definition DEFAULT_SPEED : Z := 3.
Definition ROW_ID : Z := 1.

(** ** timedelta *)

Definition US_PER_SECOND : Z := 1000000.
Definition US_PER_DAY : Z := 86400 * US_PER_SECOND.

Definition timedelta : Type := Z.

(** [timedelta.min] is -999999999 days, [timedelta.max] is one microsecond
    short of 10^9 days. *)
Definition TD_MIN : Z := - 999999999 * US_PER_DAY.
Definition TD_MAX : Z := 1000000000 * US_PER_DAY - 1.

Definition td_in_range (us : Z) : bool := (TD_MIN <=? us) && (us <=? TD_MAX).

(** Normalisation of a microsecond count into a timedelta: the constructor
    refuses a day count beyond 999999999 in magnitude. *)
Definition microseconds_to_delta (us : Z) : outcome timedelta :=
  if td_in_range us then Returns us else Raises OverflowError.

Definition td_days (d : Z) : outcome timedelta := microseconds_to_delta (d * US_PER_DAY).
Definition td_hours (n : Z) : outcome timedelta := microseconds_to_delta (n * 3600 * US_PER_SECOND).
Definition td_minutes (n : Z) : outcome timedelta := microseconds_to_delta (n * 60 * US_PER_SECOND).

(** [timedelta(seconds=n)] for an [int] n. *)
Definition td_seconds_int (n : Z) : outcome timedelta := microseconds_to_delta (n * US_PER_SECOND).

(** [td * n] for an [int] n: exact integer arithmetic. *)
Definition td_mul_int (td : timedelta) (n : Z) : outcome timedelta :=
  microseconds_to_delta (td * n).

Definition td_add (a b : timedelta) : outcome timedelta := microseconds_to_delta (a + b).
Definition td_neg (a : timedelta) : outcome timedelta := microseconds_to_delta (- a).

(** ** datetime *)

Record datetime : Type := { wall : Z; fold : bool }.

(** [date.max.toordinal()] = 3652059: the type holds the years 1 to 9999. *)
Definition MAXORDINAL : Z := 3652059.
Definition MAX_WALL : Z := MAXORDINAL * US_PER_DAY.

Definition wall_in_range (w : Z) : bool := (0 <=? w) && (w <? MAX_WALL).

Definition valid_datetime (dt : datetime) : Prop := 0 <= wall dt < MAX_WALL.

(** Calendar day (ordinal - 1) and time of day in microseconds. *)
Definition date_of (dt : datetime) : Z := wall dt / US_PER_DAY.
Definition time_of_day (dt : datetime) : Z := wall dt mod US_PER_DAY.

Definition hms_us (t : hms) : Z := ((h t * 60 + m t) * 60 + s t) * US_PER_SECOND.

(** [dt.replace(hour=.., minute=.., second=.., microsecond=0)]: the date and
    [fold] are kept. *)
Definition replace_hms (dt : datetime) (t : hms) : datetime :=
  {| wall := date_of dt * US_PER_DAY + hms_us t; fold := fold dt |}.

(** [dt.replace(microsecond=0)]. *)
Definition replace_microsecond0 (dt : datetime) : datetime :=
  {| wall := wall dt - wall dt mod US_PER_SECOND; fold := fold dt |}.

(** [a < b] and [a - b] on datetimes with the same tzinfo: the wall-clock
    fields decide, [fold] is ignored.  The difference always fits a
    timedelta. *)
Definition dt_ltb (a b : datetime) : bool := wall a <? wall b.
Definition dt_sub (a b : datetime) : timedelta := wall a - wall b.

(** [dt + td]: a new datetime with [fold = 0], [OverflowError] outside the
    years 1..9999. *)
Definition dt_add (dt : datetime) (td : timedelta) : outcome datetime :=
  let w := wall dt + td in
  if wall_in_range w then Returns {| wall := w; fold := false |}
  else Raises OverflowError.

Definition dt_sub_td (dt : datetime) (td : timedelta) : outcome datetime :=
  dt_add dt (- td).

(** ** float (binary64) *)

(** Number of units of 2^-1074 in 1.0. *)
Definition UNIT : Z := 2 ^ 1074.

(** Largest finite binary64 number, (2^53 - 1) * 2^971, in units. *)
Definition F64_MAX : Z := (2 ^ 53 - 1) * 2 ^ (971 + 1074).

Inductive float : Type :=
| Finite (u : Z)
| Infinite (negative : bool).

(** Quotient [a / q] rounded to the nearest integer, ties to even
    (0 <= a, 0 < q). *)
Definition div_half_even (a q : Z) : Z :=
  let d := a / q in
  let r := a mod q in
  if 2 * r <? q then d
  else if q <? 2 * r then d + 1
  else if Z.even d then d else d + 1.

(** The rational [a / q] (0 <= a, 0 < q), measured in units, rounded to a
    53-bit significand.  Below 2^53 units the spacing of binary64 is one
    unit (subnormals and the first binade); above, the spacing is
    2^(log2 - 52). *)
Definition round_pos (a q : Z) : Z :=
  let t := a / q in
  if t <? 2 ^ 53 then div_half_even a q
  else
    let k := Z.log2 t - 52 in
    div_half_even a (q * 2 ^ k) * 2 ^ k.

Definition round_ne (p q : Z) : Z := Z.sgn p * round_pos (Z.abs p) q.

(** A rounded magnitude beyond [F64_MAX] is an infinity. *)
Definition to_float (u : Z) : float :=
  if Z.abs u <=? F64_MAX then Finite u else Infinite (u <? 0).

(** [a / b] on [int]s (true division, correctly rounded), 0 < b. *)
Definition int_true_div (a b : Z) : outcome float :=
  match to_float (round_ne (a * UNIT) b) with
  | Finite u => Returns (Finite u)
  | Infinite _ => Raises OverflowError
  end.

(** Conversion of an [int] operand to [float] ([PyLong_AsDouble]). *)
Definition float_of_int (n : Z) : outcome float :=
  int_true_div n 1.

(** [x * y] on floats.  Both operands are finite wherever the script
    multiplies, so no NaN arises; the cases with an infinity follow the
    sign rule. *)
Definition float_mul (x y : float) : float :=
  match x, y with
  | Finite a, Finite b => to_float (round_ne (a * b) UNIT)
  | Finite a, Infinite n => Infinite (xorb (a <? 0) n)
  | Infinite n, Finite b => Infinite (xorb n (b <? 0))
  | Infinite n1, Infinite n2 => Infinite (xorb n1 n2)
  end.

(** [f * n] with [n] an [int]: [n] is converted first. *)
Definition float_mul_int (f : float) (n : Z) : outcome float :=
  y <- float_of_int n ;;
  Returns (float_mul f y).

(** C [modf]: integral part (an integer) and fractional part (in units),
    both with the sign of the argument. *)
Definition modf_int (u : Z) : Z := Z.quot u UNIT.
Definition modf_frac (u : Z) : Z := Z.rem u UNIT.

(** C [round] on a float in units: nearest integer, ties away from zero. *)
Definition c_round (u : Z) : Z :=
  Z.sgn u * ((2 * Z.abs u + UNIT) / (2 * UNIT)).

(** [int(f)]: truncation toward zero. *)
Definition int_of_float (f : float) : outcome Z :=
  match f with
  | Finite u => Returns (Z.quot u UNIT)
  | Infinite _ => Raises OverflowError
  end.

(** [td.total_seconds()]: the microsecond count divided by 10^6 as a true
    division.  The quotient is far below [F64_MAX] for every timedelta. *)
Definition total_seconds (td : timedelta) : float :=
  to_float (round_ne (td * UNIT) US_PER_SECOND).

(** [timedelta(seconds=f)] for a [float] f, following [delta_new] and
    [accum] of the C implementation: the integral part of f is scaled
    exactly; the fractional part is multiplied by 10^6 in float arithmetic
    and split again; what is left over is rounded to a whole microsecond,
    ties to the even total. *)
Definition leftover_round (leftover x : Z) : Z :=
  let whole_us := c_round leftover in
  if Z.abs (whole_us * UNIT - leftover) =? UNIT / 2 then
    let x_is_odd := if Z.odd x then 1 else 0 in
    2 * c_round ((leftover + x_is_odd * UNIT) / 2) - x_is_odd
  else whole_us.

Definition accum_seconds (u : Z) : Z * Z :=
  let intpart := modf_int u in
  let fracpart := modf_frac u in
  let sum := intpart * US_PER_SECOND in
  if fracpart =? 0 then (sum, 0)
  else
    (* 10^6 as a float times a fraction below 1: finite *)
    let dnum := round_ne (US_PER_SECOND * UNIT * fracpart) UNIT in
    (sum + modf_int dnum, modf_frac dnum).

Definition td_seconds_float (f : float) : outcome timedelta :=
  match f with
  | Infinite _ => Raises OverflowError
  | Finite u =>
      let '(x, leftover_us) := accum_seconds u in
      let x' := if leftover_us =? 0 then x else x + leftover_round leftover_us x in
      microseconds_to_delta x'
  end.

(** ** Session state *)

Record session : Type := {
  real_base : datetime;
  virt_base : datetime;
  real_base_init : datetime;
  virt_base_init : datetime;
  virt_adjust : timedelta;
  speed : Z;
  last_loaded_at : option string;
  last_saved_at : option string
}.

(** ** Utilities (lines 80-97) *)

Definition get_default_real_base (now : datetime) : outcome datetime :=
  let base := replace_hms now REAL_BASE_HMS in
  if dt_ltb now base then
    d <- td_days 1 ;; dt_sub_td base d
  else Returns base.

Definition get_default_virt_base (real_base : datetime) : datetime :=
  replace_hms real_base VIRT_BASE_HMS.

(** [timedelta(seconds=elapsed.total_seconds() * speed)]. *)
Definition scaled_elapsed (elapsed : timedelta) (speed : Z) : outcome timedelta :=
  x <- float_mul_int (total_seconds elapsed) speed ;;
  td_seconds_float x.

Definition compute_virtual (st : session) (now : datetime) : outcome datetime :=
  let rb := real_base st in
  let vb := virt_base st in
  let speed := speed st in
  let adj := virt_adjust st in
  let elapsed := dt_sub now rb in
  d <- scaled_elapsed elapsed speed ;;
  v1 <- dt_add vb d ;;
  vn <- dt_add v1 adj ;;
  Returns (replace_microsecond0 vn).


(** ** Remote state I/O (lines 101-150) *)

(** The time zone [SEOUL = ZoneInfo("Asia/Seoul")].  Its transition table
    is data of the tz database, not of the script, so the zone is a
    parameter of everything that converts between zones: [utcoffset w f] is
    the offset (in microseconds) of the wall time [w] with fold [f], and
    [fromutc u] gives the offset in force at the UTC instant [u] together
    with the fold of the resulting wall time.  Offsets of a zone are
    strictly shorter than a day. *)
Record tzinfo : Type := {
  utcoffset : Z -> bool -> Z;
  fromutc : Z -> Z * bool;
  utcoffset_range : forall w f, Z.abs (utcoffset w f) < US_PER_DAY
}.

(** Asia/Seoul as it has been since 1988: a fixed offset of nine hours. *)
Definition KST : tzinfo :=
  {| utcoffset := fun _ _ => 9 * 3600 * US_PER_SECOND;
     fromutc := fun _ => (9 * 3600 * US_PER_SECOND, false);
     utcoffset_range := fun _ _ => eq_refl |}.

(** The text of an ISO-8601 column, by what [datetime.fromisoformat] makes
    of it: the empty string, a text it rejects, a wall time without offset,
    or a wall time with a fixed UTC offset. *)
Inductive iso_text : Type :=
| IsoEmpty
| IsoMalformed
| IsoNaive (w : Z)
| IsoAware (w : Z) (off : Z).

(** [dt.isoformat()] of an aware datetime, and [datetime.fromisoformat]:
    the pair (wall time, offset) is printed and read back unchanged; a text
    whose fields are outside the type, or whose offset is a day or more, is
    rejected. *)
Definition isoformat (tz : tzinfo) (dt : datetime) : iso_text :=
  IsoAware (wall dt) (utcoffset tz (wall dt) (fold dt)).

Definition fromisoformat (t : iso_text) : outcome (datetime * option Z) :=
  match t with
  | IsoEmpty | IsoMalformed => Raises ValueError
  | IsoNaive w =>
      if wall_in_range w then Returns ({| wall := w; fold := false |}, None)
      else Raises ValueError
  | IsoAware w off =>
      if wall_in_range w && (Z.abs off <? US_PER_DAY)
      then Returns ({| wall := w; fold := false |}, Some off)
      else Raises ValueError
  end.

(** [ZoneInfo.fromutc]: add the offset in force and set [fold]. *)
Definition zone_fromutc (tz : tzinfo) (utc : datetime) : outcome datetime :=
  let '(off, fl) := fromutc tz (wall utc) in
  r <- dt_add utc off ;;
  Returns {| wall := wall r; fold := fl |}.

(** [dt.astimezone(SEOUL)] for a datetime with a fixed offset: subtract the
    offset, then let the zone convert from UTC. *)
Definition astimezone_from_offset (tz : tzinfo) (dt : datetime) (off : Z) : outcome datetime :=
  utc <- dt_sub_td dt off ;;
  zone_fromutc tz utc.

Section Zone.

Variable SEOUL : tzinfo.

(** [dt.astimezone(SEOUL)] on a datetime that already carries [SEOUL]
    returns the datetime itself. *)
Definition to_iso (dt : datetime) : iso_text := isoformat SEOUL dt.

(** A naive result gets [SEOUL] attached and is then left alone by
    [astimezone]; an aware one is converted. *)
Definition from_iso (s : iso_text) : outcome datetime :=
  p <- fromisoformat s ;;
  match snd p with
  | None => Returns (fst p)
  | Some off => astimezone_from_offset SEOUL (fst p) off
  end.

End Zone.

(** A key of the row dict is missing, holds [None] (SQL NULL), or holds a
    value of the column's type. *)
Inductive field (A : Type) : Type :=
| Missing
| Null
| Value (a : A).

Arguments Missing {A}.
Arguments Null {A}.
Arguments Value {A} a.

(** One row of [timer_state] (columns of the SQL at lines 352-359). *)
Record row : Type := {
  row_id : field Z;
  row_real_base_iso : field iso_text;
  row_virt_base_iso : field iso_text;
  row_virt_adjust_sec : field Z;
  row_speed : field Z;
  row_updated_at : field string
}.

(** [row.get(k)], [row.get(k, default)] and [row[k]]. *)
Definition get {A : Type} (f : field A) : option A :=
  match f with
  | Value a => Some a
  | _ => None
  end.

Definition subscript {A : Type} (f : field A) : outcome (option A) :=
  match f with
  | Missing => Raises KeyError
  | Null => Returns None
  | Value a => Returns (Some a)
  end.

Definition get_default {A : Type} (f : field A) (default : A) : option A :=
  match f with
  | Missing => Some default
  | Null => None
  | Value a => Some a
  end.

(** Truth value of a text-or-None. *)
Definition truthy (v : option iso_text) : bool :=
  match v with
  | None | Some IsoEmpty => false
  | Some _ => true
  end.

(** [int(v)] on an int-or-None. *)
Definition py_int (v : option Z) : outcome Z :=
  match v with
  | Some n => Returns n
  | None => Raises TypeError
  end.

(** Truth value of the dict itself: false only when it has no key. *)
Definition is_missing {A : Type} (f : field A) : bool :=
  match f with
  | Missing => true
  | _ => false
  end.

Definition row_truthy (r : row) : bool :=
  negb (is_missing (row_id r) && is_missing (row_real_base_iso r)
        && is_missing (row_virt_base_iso r) && is_missing (row_virt_adjust_sec r)
        && is_missing (row_speed r) && is_missing (row_updated_at r)).

Definition opt_string_eqb (a b : option string) : bool :=
  match a, b with
  | None, None => true
  | Some x, Some y => String.eqb x y
  | _, _ => false
  end.

(** Field updates of the session. *)
Definition set_real_base (v : datetime) (st : session) : session :=
  {| real_base := v; virt_base := virt_base st;
     real_base_init := real_base_init st; virt_base_init := virt_base_init st;
     virt_adjust := virt_adjust st; speed := speed st;
     last_loaded_at := last_loaded_at st; last_saved_at := last_saved_at st |}.

Definition set_virt_base (v : datetime) (st : session) : session :=
  {| real_base := real_base st; virt_base := v;
     real_base_init := real_base_init st; virt_base_init := virt_base_init st;
     virt_adjust := virt_adjust st; speed := speed st;
     last_loaded_at := last_loaded_at st; last_saved_at := last_saved_at st |}.

Definition set_virt_adjust (v : timedelta) (st : session) : session :=
  {| real_base := real_base st; virt_base := virt_base st;
     real_base_init := real_base_init st; virt_base_init := virt_base_init st;
     virt_adjust := v; speed := speed st;
     last_loaded_at := last_loaded_at st; last_saved_at := last_saved_at st |}.

Definition set_speed (v : Z) (st : session) : session :=
  {| real_base := real_base st; virt_base := virt_base st;
     real_base_init := real_base_init st; virt_base_init := virt_base_init st;
     virt_adjust := virt_adjust st; speed := v;
     last_loaded_at := last_loaded_at st; last_saved_at := last_saved_at st |}.

Definition set_last_loaded_at (v : option string) (st : session) : session :=
  {| real_base := real_base st; virt_base := virt_base st;
     real_base_init := real_base_init st; virt_base_init := virt_base_init st;
     virt_adjust := virt_adjust st; speed := speed st;
     last_loaded_at := v; last_saved_at := last_saved_at st |}.

Definition set_last_saved_at (v : option string) (st : session) : session :=
  {| real_base := real_base st; virt_base := virt_base st;
     real_base_init := real_base_init st; virt_base_init := virt_base_init st;
     virt_adjust := virt_adjust st; speed := speed st;
     last_loaded_at := last_loaded_at st; last_saved_at := v |}.

(** Statements on the session: the state when the statement ends, and the
    exception if it ended by raising.  Assignments made before a raise
    stay. *)
Definition stmt : Type := session -> session * option exn.

Definition skip : stmt := fun st => (st, None).

Definition seq (a b : stmt) : stmt :=
  fun st =>
    match a st with
    | (st1, None) => b st1
    | (st1, Some e) => (st1, Some e)
    end.

Notation "a ;;; b" := (seq a b) (at level 62, right associativity).

Definition assign {A : Type} (set : A -> session -> session) (e : outcome A) : stmt :=
  fun st =>
    match e with
    | Returns v => (set v st, None)
    | Raises x => (st, Some x)
    end.

Definition when (c : bool) (body : stmt) : stmt := if c then body else skip.

(** [try: body / except Exception: pass]. *)
Definition try_except_pass (body : stmt) (st : session) : session := fst (body st).

(** [try: body / except Exception: handler] on a computation. *)
Definition try_except {A : Type} (body : outcome A) (handler : exn -> outcome A) : outcome A :=
  match body with
  | Returns a => Returns a
  | Raises e => handler e
  end.

(** [load_remote_state]: [supabase] tells whether the client exists, [resp]
    is what [....execute()] does: it raises, or returns a response whose
    [data] is None or a list of rows. *)
Definition load_remote_state (supabase : bool) (resp : outcome (option (list row)))
  : outcome (option row) :=
  if negb supabase then Returns None
  else
    try_except
      (data <- resp ;;
       let rows := match data with Some l => l | None => [] end in
       Returns (match rows with r :: _ => Some r | [] => None end))
      (fun _ => Returns None).

Section Store.

Variable SEOUL : tzinfo.

(** The payload of [save_remote_state]; [now_iso] is
    [datetime.now(SEOUL).isoformat()]. *)
Definition save_payload (st : session) (now_iso : string) : outcome row :=
  sec <- int_of_float (total_seconds (virt_adjust st)) ;;
  Returns {| row_id := Value ROW_ID;
             row_real_base_iso := Value (to_iso SEOUL (real_base st));
             row_virt_base_iso := Value (to_iso SEOUL (virt_base st));
             row_virt_adjust_sec := Value sec;
             row_speed := Value (speed st);
             row_updated_at := Value now_iso |}.

(** [save_remote_state]: [upsert] is what [....upsert(payload).execute()]
    does.  The payload is built outside the [try]; the warning of the
    handler only draws on the page. *)
Definition save_remote_state (supabase : bool) (now_iso : string)
    (upsert : row -> outcome unit) (st : session) : outcome session :=
  if negb supabase then Returns st
  else
    payload <- save_payload st now_iso ;;
    try_except
      (_ <- upsert payload ;;
       Returns (set_last_saved_at (get (row_updated_at payload)) st))
      (fun _ => Returns st).

(** [from_iso] applied to what a subscript returned: [None] is not a
    string. *)
Definition from_iso_value (v : option iso_text) : outcome datetime :=
  match v with
  | Some t => from_iso SEOUL t
  | None => Raises TypeError
  end.

Definition apply_remote_state_body (r : row) : stmt :=
  when (truthy (get (row_real_base_iso r)))
    (assign set_real_base
       (v <- subscript (row_real_base_iso r) ;; from_iso_value v)) ;;;
  when (truthy (get (row_virt_base_iso r)))
    (assign set_virt_base
       (v <- subscript (row_virt_base_iso r) ;; from_iso_value v)) ;;;
  assign set_virt_adjust
    (n <- py_int (get_default (row_virt_adjust_sec r) 0) ;; td_seconds_int n) ;;;
  assign set_speed (py_int (get_default (row_speed r) DEFAULT_SPEED)) ;;;
  assign set_last_loaded_at (Returns (get (row_updated_at r))).

Definition apply_remote_state (r : row) (st : session) : session :=
  try_except_pass (apply_remote_state_body r) st.

End Store.

(** ** Initialisation and remote pull (lines 153-183) *)

Section Script.

Variable SEOUL : tzinfo.

(** What the table service does during one run of the script: whether the
    client could be built, what a select returns, what an upsert does, and
    the clock text written into [updated_at]. *)
Record environment : Type := {
  supabase : bool;
  select_response : outcome (option (list row));
  upsert_response : row -> outcome unit;
  now_iso : string
}.

Definition save (env : environment) (st : session) : outcome session :=
  save_remote_state SEOUL (supabase env) (now_iso env) (upsert_response env) st.

Definition load (env : environment) : outcome (option row) :=
  load_remote_state (supabase env) (select_response env).

Definition initial_session (now0 : datetime) : outcome session :=
  real_base <- get_default_real_base now0 ;;
  let virt_base := get_default_virt_base real_base in
  Returns {| real_base := real_base; virt_base := virt_base;
             real_base_init := real_base; virt_base_init := virt_base;
             virt_adjust := 0; speed := DEFAULT_SPEED;
             last_loaded_at := None; last_saved_at := None |}.

Definition initialize (env : environment) (now0 : datetime) : outcome session :=
  st <- initial_session now0 ;;
  r <- load env ;;
  match r with
  | None => if supabase env then save env st else Returns st
  | Some r => Returns (apply_remote_state SEOUL r st)
  end.

Definition remote_pull (env : environment) (st : session) : outcome session :=
  if supabase env then
    r <- load env ;;
    match r with
    | Some r =>
        if row_truthy r && negb (opt_string_eqb (get (row_updated_at r)) (last_loaded_at st))
        then Returns (apply_remote_state SEOUL r st)
        else Returns st
    | None => Returns st
    end
  else Returns st.

(** ** Adjustment panels (lines 221-344) *)

Inductive base_button : Type :=
| Plus1Day | Minus1Day | Plus1Hour | Minus1Hour | ResetBase | Plus1Min | Minus1Min.

Definition base_button_apply (b : base_button) (cur init : datetime) : outcome datetime :=
  match b with
  | Plus1Day => d <- td_days 1 ;; dt_add cur d
  | Minus1Day => d <- td_days 1 ;; dt_sub_td cur d
  | Plus1Hour => d <- td_hours 1 ;; dt_add cur d
  | Minus1Hour => d <- td_hours 1 ;; dt_sub_td cur d
  | ResetBase => Returns init
  | Plus1Min => d <- td_minutes 1 ;; dt_add cur d
  | Minus1Min => d <- td_minutes 1 ;; dt_sub_td cur d
  end.

(** The deltas of the list [btns], in order. *)
Definition btns : list timedelta :=
  [ US_PER_DAY; - US_PER_DAY; 3600 * US_PER_SECOND; - (3600 * US_PER_SECOND);
    600 * US_PER_SECOND; 60 * US_PER_SECOND; - (60 * US_PER_SECOND) ].

(** The speeds offered by the speed buttons. *)
Definition speed_choices : list Z := [1; 2; 3; 4; 6; 9].

Definition adjust_button (delta : timedelta) (st : session) : outcome session :=
  a <- td_add (virt_adjust st) delta ;;
  Returns (set_virt_adjust a st).

Definition set_to_target (target nowx : datetime) (st : session) : outcome session :=
  e <- td_mul_int (dt_sub nowx (real_base st)) (speed st) ;;
  base_no_adj <- dt_add (virt_base st) e ;;
  Returns (set_virt_adjust (dt_sub target base_no_adj) st).

Definition reset_adjust (st : session) : session := set_virt_adjust 0 st.

Definition speed_button (sp : Z) (st : session) : session := set_speed sp st.

Definition reset_all (env : environment) (nowx : datetime) (st : session)
  : session * option exn :=
  (assign set_real_base (get_default_real_base nowx) ;;;
   (fun st => assign set_virt_base (Returns (get_default_virt_base (real_base st))) st) ;;;
   (fun st =>
      ({| real_base := real_base st; virt_base := virt_base st;
          real_base_init := real_base st; virt_base_init := virt_base st;
          virt_adjust := 0; speed := DEFAULT_SPEED;
          last_loaded_at := last_loaded_at st; last_saved_at := last_saved_at st |},
       None)) ;;;
   (fun st =>
      match save env st with
      | Returns st' => (st', None)
      | Raises e => (st, Some e)
      end)) st.

(** One press.  The session holds the state reached when the handler ends
    or raises; a press of the panels is followed by [save_remote_state]. *)
Inductive click : Type :=
| ClickRealBase (b : base_button)
| ClickVirtBase (b : base_button)
| ClickAdjust (i : nat)
| ClickSetTarget (target : datetime)
| ClickResetAdjust
| ClickSpeed (i : nat)
| ClickResetAll.

Definition then_save (env : environment) (r : outcome session) (st : session)
  : session * option exn :=
  match r with
  | Raises e => (st, Some e)
  | Returns st1 =>
      match save env st1 with
      | Returns st2 => (st2, None)
      | Raises e => (st1, Some e)
      end
  end.

Definition handle_click (env : environment) (nowx : datetime) (c : click) (st : session)
  : session * option exn :=
  match c with
  | ClickRealBase b =>
      then_save env
        (v <- base_button_apply b (real_base st) (real_base_init st) ;;
         Returns (set_real_base v st)) st
  | ClickVirtBase b =>
      then_save env
        (v <- base_button_apply b (virt_base st) (virt_base_init st) ;;
         Returns (set_virt_base v st)) st
  | ClickAdjust i =>
      match nth_error btns i with
      | Some delta => then_save env (adjust_button delta st) st
      | None => (st, None)
      end
  | ClickSetTarget target => then_save env (set_to_target target nowx st) st
  | ClickResetAdjust => then_save env (Returns (reset_adjust st)) st
  | ClickSpeed i =>
      match nth_error speed_choices i with
      | Some sp => then_save env (Returns (speed_button sp st)) st
      | None => (st, None)
      end
  | ClickResetAll => reset_all env nowx st
  end.

End Script.

(** ** Clients around one table *)

(** Several sessions run the script against the same single-row table.  A
    [system] is the table (the row with [id = ROW_ID], if any) and the
    sessions that exist.  The step relation allows every effect one run of
    the script can have: the select either raises or returns the stored
    row, and a successful upsert stores the payload, whose [updated_at] the
    service may render differently. *)
Record system : Type := {
  table : option row;
  clients : list session
}.

Definition rows_of (t : option row) : list row :=
  match t with
  | Some r => [r]
  | None => []
  end.

Definition restamp (stamp : field string) (r : row) : row :=
  {| row_id := row_id r;
     row_real_base_iso := row_real_base_iso r;
     row_virt_base_iso := row_virt_base_iso r;
     row_virt_adjust_sec := row_virt_adjust_sec r;
     row_speed := row_speed r;
     row_updated_at := stamp |}.

Fixpoint replace_nth {A : Type} (i : nat) (x : A) (l : list A) : list A :=
  match l, i with
  | [], _ => []
  | _ :: l', O => x :: l'
  | y :: l', S i' => y :: replace_nth i' x l'
  end.

Definition row_speed_ok (r : row) : Prop :=
  match row_speed r with
  | Value n => 1 <= n
  | _ => True
  end.

Definition table_ok (t : option row) : Prop :=
  match t with
  | Some r => row_speed_ok r
  | None => True
  end.

Section System.

Variable SEOUL : tzinfo.

Definition serves (t : option row) (env : environment) : Prop :=
  (exists e, select_response env = Raises e)
  \/ select_response env = Returns (Some (rows_of t)).

(** The table after a run that ended in session state [st']: unchanged, or
    the payload of that state. *)
Definition may_write (env : environment) (st' : session) (t t' : option row) : Prop :=
  t' = t
  \/ (supabase env = true
      /\ exists p stamp,
           save_payload SEOUL st' (now_iso env) = Returns p /\ t' = Some (restamp stamp p)).

Inductive step : system -> system -> Prop :=
| step_open (sys : system) (env : environment) (now0 : datetime) (st : session)
    (t' : option row) :
    serves (table sys) env ->
    initialize SEOUL env now0 = Returns st ->
    may_write env st (table sys) t' ->
    step sys {| table := t'; clients := st :: clients sys |}
| step_pull (sys : system) (env : environment) (i : nat) (st st' : session) :
    nth_error (clients sys) i = Some st ->
    serves (table sys) env ->
    remote_pull SEOUL env st = Returns st' ->
    step sys {| table := table sys; clients := replace_nth i st' (clients sys) |}
| step_click (sys : system) (env : environment) (nowx : datetime) (c : click)
    (i : nat) (st : session) (t' : option row) :
    nth_error (clients sys) i = Some st ->
    may_write env (fst (handle_click SEOUL env nowx c st)) (table sys) t' ->
    step sys {| table := t';
                clients := replace_nth i (fst (handle_click SEOUL env nowx c st))
                             (clients sys) |}.

Inductive reachable : system -> Prop :=
| reach_start (t : option row) :
    table_ok t -> reachable {| table := t; clients := [] |}
| reach_step (sys sys' : system) :
    reachable sys -> step sys sys' -> reachable sys'.

End System.

(** Well-formed values of the Python types. *)
Definition valid_timedelta (td : timedelta) : Prop := TD_MIN <= td <= TD_MAX.

(** Below this many microseconds of scaled elapsed time (a little over 71
    years) the float arithmetic of [scaled_elapsed] is exact. *)
Definition EXACT_BOUND : Z := 2 ^ 51 - 2 ^ 21.

(** The mapping as the specification words it: virtual base plus real
    elapsed time times speed plus adjustment, in exact integer arithmetic,
    and its truncation to whole seconds. *)
Definition spec_virtual_now (st : session) (real_now : datetime) : Z :=
  wall (virt_base st) + (wall real_now - wall (real_base st)) * speed st + virt_adjust st.

Definition truncate_seconds (w : Z) : Z := w - w mod US_PER_SECOND.

(** The datetime at [hh:mm:ss] on the day with index [day] (day 0 is
    0001-01-01). *)
Definition datetime_at (day hh mm ss : Z) : datetime :=
  {| wall := day * US_PER_DAY + hms_us {| h := hh; m := mm; s := ss |}; fold := false |}.

(** ** Sample configurations *)

(** The configuration a session starts from on the day with index [day]:
    bases at 20:00 and 09:00, speed 3, no adjustment. *)
Definition default_session (day : Z) : session :=
  {| real_base := datetime_at day 20 0 0; virt_base := datetime_at day 9 0 0;
     real_base_init := datetime_at day 20 0 0; virt_base_init := datetime_at day 9 0 0;
     virt_adjust := 0; speed := DEFAULT_SPEED;
     last_loaded_at := None; last_saved_at := None |}.

(** Day indices of 2025-01-01 and 2025-01-24, 1930-01-01, 2000-01-01,
    2300-01-01 and 2285-03-13. *)
Definition DAY_2025_01_01 : Z := 739251.
Definition DAY_2025_01_24 : Z := 739274.
Definition DAY_1930_01_01 : Z := 704552.
Definition DAY_2000_01_01 : Z := 730119.
Definition DAY_2300_01_01 : Z := 839692.
Definition DAY_2285_03_13 : Z := 834285.

(** A configuration whose real base lies 95 years back: real base
    1930-01-01T00:00:00, virtual base 2000-01-01T00:00:00, speed 3. *)
Definition old_base_session (adj : timedelta) : session :=
  {| real_base := datetime_at DAY_1930_01_01 0 0 0;
     virt_base := datetime_at DAY_2000_01_01 0 0 0;
     real_base_init := datetime_at DAY_1930_01_01 0 0 0;
     virt_base_init := datetime_at DAY_2000_01_01 0 0 0;
     virt_adjust := adj; speed := DEFAULT_SPEED;
     last_loaded_at := None; last_saved_at := None |}.

(** 2025-01-24T05:20:00 plus [us] microseconds. *)
Definition late_now (us : Z) : datetime :=
  {| wall := wall (datetime_at DAY_2025_01_24 5 20 0) + us; fold := false |}.

(** ** Rows and zones used in the statements *)

(** The wall time [dt] survives the conversion to UTC and back: the
    subtraction of its offset stays inside the type and the zone maps the
    UTC instant back to the same wall time and fold.  A wall time inside a
    daylight-saving gap does not. *)
Definition survives_utc (tz : tzinfo) (dt : datetime) : Prop :=
  0 <= wall dt - utcoffset tz (wall dt) (fold dt) < MAX_WALL
  /\ fromutc tz (wall dt - utcoffset tz (wall dt) (fold dt))
     = (utcoffset tz (wall dt) (fold dt), fold dt).

(** What an ISO column gives for a base: the converted text when the column
    holds a non-empty text, the current local value when it is missing,
    null or empty. *)
Definition column_gives (tz : tzinfo) (f : field iso_text) (cur v : datetime) : Prop :=
  if truthy (get f) then exists t, f = Value t /\ from_iso tz t = Returns v
  else v = cur.

(** The row that the SQL of lines 352-361 inserts: only the id is given,
    the integer columns take their defaults and [updated_at] the time of
    the insert. *)
Definition seed_row (stamp : string) : row :=
  {| row_id := Value ROW_ID;
     row_real_base_iso := Null;
     row_virt_base_iso := Null;
     row_virt_adjust_sec := Value 0;
     row_speed := Value 3;
     row_updated_at := Value stamp |}.

(** A row whose [virt_base_iso] is not ISO text. *)
Definition unreadable_row (stamp : string) : row :=
  {| row_id := Value ROW_ID;
     row_real_base_iso := Value (IsoAware (wall (datetime_at DAY_2025_01_24 20 0 0))
                                   (9 * 3600 * US_PER_SECOND));
     row_virt_base_iso := Value IsoMalformed;
     row_virt_adjust_sec := Value 60;
     row_speed := Value 6;
     row_updated_at := Value stamp |}.

(** A row with speed zero. *)
Definition stopped_row (stamp : string) : row :=
  {| row_id := Value ROW_ID;
     row_real_base_iso := Null;
     row_virt_base_iso := Null;
     row_virt_adjust_sec := Value 0;
     row_speed := Value 0;
     row_updated_at := Value stamp |}.

(** A row whose [updated_at] is null: one minute of adjustment, speed 6. *)
Definition unstamped_row : row :=
  {| row_id := Value ROW_ID;
     row_real_base_iso := Null;
     row_virt_base_iso := Null;
     row_virt_adjust_sec := Value 60;
     row_speed := Value 6;
     row_updated_at := Null |}.

(** A table service that answers every select with [rows] and accepts
    every upsert. *)
Definition serving (rows : list row) (stamp : string) : environment :=
  {| supabase := true;
     select_response := Returns (Some rows);
     upsert_response := fun _ => Returns tt;
     now_iso := stamp |}.

Definition speed_ok (st : session) : Prop := 1 <= speed st.

(** A table holding the seed row and one client that has just started at
    2025-01-01T21:00:00. *)
Definition seeded_system : system :=
  {| table := Some (seed_row "2025-01-01T00:00:00+00:00");
     clients := [apply_remote_state KST (seed_row "2025-01-01T00:00:00+00:00")
                   (default_session DAY_2025_01_01)] |}.

(** ** Formatting (lines 62-78) *)

(** [str(n)] for an [int]: decimal digits, a minus sign before a negative
    number. *)
Definition py_str (n : Z) : string := NilZero.string_of_int (Z.to_int n).

Fixpoint zeros (k : nat) : string :=
  match k with
  | O => EmptyString
  | S k' => String "0" (zeros k')
  end.

(** [s.zfill(width)]: zeros on the left up to [width] characters, placed
    after a leading sign. *)
Definition zfill (width : nat) (s : string) : string :=
  let len := String.length s in
  if (width <=? len)%nat then s
  else
    match s with
    | String c rest =>
        if Ascii.eqb c "+" || Ascii.eqb c "-"
        then String c (String.append (zeros (width - len)) rest)
        else String.append (zeros (width - len)) s
    | EmptyString => zeros width
    end.

Definition pad (n : Z) : string := zfill 2 (py_str n).

(** [dt.hour], [dt.minute] and [dt.second]. *)
Definition hour (dt : datetime) : Z := time_of_day dt / (3600 * US_PER_SECOND).
Definition minute (dt : datetime) : Z := time_of_day dt / (60 * US_PER_SECOND) mod 60.
Definition second (dt : datetime) : Z := time_of_day dt / US_PER_SECOND mod 60.

Definition fmt_hms (dt : datetime) : string :=
  String.append (pad (hour dt))
    (String.append ":" (String.append (pad (minute dt))
       (String.append ":" (pad (second dt))))).

(** The numbers [fmt_adj] prints: whether the sign is "+", then days,
    hours, minutes and seconds of the magnitude. *)
Record adj_parts : Type := {
  adj_plus : bool;
  adj_d : Z;
  adj_h : Z;
  adj_m : Z;
  adj_s : Z
}.

Definition fmt_adj_parts (td : timedelta) : outcome adj_parts :=
  total <- int_of_float (total_seconds td) ;;
  let a := Z.abs total in
  let d := a / 86400 in
  let rem := a mod 86400 in
  let h := rem / 3600 in
  let rem := rem mod 3600 in
  let m := rem / 60 in
  let s := rem mod 60 in
  Returns {| adj_plus := 0 <=? total; adj_d := d; adj_h := h; adj_m := m; adj_s := s |}.

Definition fmt_adj (td : timedelta) : outcome string :=
  p <- fmt_adj_parts td ;;
  Returns
    (String.append (if adj_plus p then "+" else "-")
       (String.append (py_str (adj_d p))
          (String.append "일 "
             (String.append (pad (adj_h p))
                (String.append ":" (String.append (pad (adj_m p))
                   (String.append ":" (pad (adj_s p))))))))).

(** ** Conditions used in the statements *)

(** The instant [real_now] lies where the float arithmetic of the mapper
    is exact and its sums stay inside the datetime type. *)
Definition exact_range (st : session) (real_now : datetime) : Prop :=
  valid_datetime real_now /\ valid_datetime (real_base st)
  /\ Z.abs (speed st) < 2 ^ 53
  /\ Z.abs (dt_sub real_now (real_base st) * speed st) <= EXACT_BOUND
  /\ 0 <= wall (virt_base st) + dt_sub real_now (real_base st) * speed st < MAX_WALL
  /\ 0 <= spec_virtual_now st real_now < MAX_WALL.

(** Buttons of a base panel that undo each other. *)
Definition opposite (b b' : base_button) : bool :=
  match b, b' with
  | Plus1Day, Minus1Day | Minus1Day, Plus1Day
  | Plus1Hour, Minus1Hour | Minus1Hour, Plus1Hour
  | Plus1Min, Minus1Min | Minus1Min, Plus1Min => true
  | _, _ => false
  end.

(** The target of a set-to-target press is a datetime of the type. *)
Definition click_valid (c : click) : Prop :=
  match c with
  | ClickSetTarget target => valid_datetime target
  | _ => True
  end.

(** The amount of a base button in seconds (the reset button has none). *)
Definition button_seconds (b : base_button) : Z :=
  match b with
  | Plus1Day => 86400
  | Minus1Day => -86400
  | Plus1Hour => 3600
  | Minus1Hour => -3600
  | Plus1Min => 60
  | Minus1Min => -60
  | ResetBase => 0
  end.

(** One press of an adjustment button as the script runs it (lines
    290-317): the adjustment is changed, then the live display is computed
    at [now_live] for the legend and the date and time inputs, and only
    then the record is saved.  An exception of the display computation ends
    the run with the adjustment changed and nothing saved. *)
Definition adjust_press (tz : tzinfo) (env : environment) (now_live : datetime)
    (delta : timedelta) (st : session) : session * option exn :=
  match adjust_button delta st with
  | Raises e => (st, Some e)
  | Returns st1 =>
      match compute_virtual st1 now_live with
      | Raises e => (st1, Some e)
      | Returns _ => then_save tz env (Returns st1) st
      end
  end.

(** A row as a client writes it: bases 20:00 and 09:00 of 2025-01-24 in
    +09:00, one minute of adjustment, speed 6. *)
Definition written_row (stamp : string) : row :=
  {| row_id := Value ROW_ID;
     row_real_base_iso := Value (to_iso KST (datetime_at DAY_2025_01_24 20 0 0));
     row_virt_base_iso := Value (to_iso KST (datetime_at DAY_2025_01_24 9 0 0));
     row_virt_adjust_sec := Value 60;
     row_speed := Value 6;
     row_updated_at := Value stamp |}.

(** The two decimal digits of a number below 100. *)
Definition digit (d : Z) : ascii := ascii_of_nat (48 + Z.to_nat d).

Definition two_digits (n : Z) : string :=
  String (digit (n / 10)) (String (digit (n mod 10)) EmptyString).

(** Seconds since midnight. *)
Definition second_of_day (dt : datetime) : Z := time_of_day dt / US_PER_SECOND.

(** Two sessions hold the same configuration. *)
Definition same_config (a b : session) : Prop :=
  real_base a = real_base b /\ virt_base a = virt_base b
  /\ virt_adjust a = virt_adjust b /\ speed a = speed b.

(** * Properties *)

(** ** Integer rounding *)

Lemma div_half_even_error (a q : Z) :
  0 < q -> - q <= 2 * (div_half_even a q * q - a) <= q.
Proof.
  intros Hq. unfold div_half_even.
  pose proof (Z.div_mod a q ltac:(lia)) as E.
  pose proof (Z.mod_pos_bound a q Hq) as B.
  destruct (Z.ltb_spec (2 * (a mod q)) q); [nia|].
  destruct (Z.ltb_spec q (2 * (a mod q))); [nia|].
  destruct (Z.even (a / q)); nia.
Qed.

Lemma div_half_even_nearest (a q z : Z) :
  0 < q -> 2 * Z.abs (a - q * z) < q -> div_half_even a q = z.
Proof.
  intros Hq Hn. unfold div_half_even.
  pose proof (Z.div_mod a q ltac:(lia)) as E.
  pose proof (Z.mod_pos_bound a q Hq) as B.
  assert (C : a / q = z \/ a / q = z - 1) by nia.
  destruct (Z.ltb_spec (2 * (a mod q)) q).
  - destruct C as [C|C]; [exact C|nia].
  - destruct (Z.ltb_spec q (2 * (a mod q))).
    + destruct C as [C|C]; nia.
    + destruct C as [C|C]; nia.
Qed.

Lemma div_half_even_exact (q z : Z) : 0 < q -> div_half_even (q * z) q = z.
Proof.
  intros Hq. apply div_half_even_nearest; [exact Hq|].
  replace (q * z - q * z) with 0 by ring. simpl. lia.
Qed.

Lemma div_half_even_mono (a b q : Z) :
  0 < q -> a <= b -> div_half_even a q <= div_half_even b q.
Proof.
  intros Hq Hab.
  pose proof (Z.div_le_mono a b q Hq Hab) as D.
  pose proof (Z.div_mod a q ltac:(lia)) as Ea.
  pose proof (Z.div_mod b q ltac:(lia)) as Eb.
  pose proof (Z.mod_pos_bound a q Hq) as Ba.
  pose proof (Z.mod_pos_bound b q Hq) as Bb.
  assert (C : a / q = b / q \/ a / q + 1 <= b / q) by lia.
  unfold div_half_even.
  destruct C as [C|C].
  - rewrite C in *.
    assert (a mod q <= b mod q) by nia.
    destruct (Z.ltb_spec (2 * (a mod q)) q);
      destruct (Z.ltb_spec (2 * (b mod q)) q); try lia;
      destruct (Z.ltb_spec q (2 * (a mod q)));
      destruct (Z.ltb_spec q (2 * (b mod q))); try lia;
      destruct (Z.even (b / q)); lia.
  - destruct (Z.ltb_spec (2 * (a mod q)) q);
      destruct (Z.ltb_spec (2 * (b mod q)) q); try lia;
      try (destruct (Z.ltb_spec q (2 * (a mod q))));
      try (destruct (Z.ltb_spec q (2 * (b mod q)))); try lia;
      destruct (Z.even (a / q)); destruct (Z.even (b / q)); lia.
Qed.

(** ** Rounding to binary64 *)

Lemma round_pos_cases (a q : Z) :
  0 <= a -> 0 < q ->
  (a / q < 2 ^ 53 /\ round_pos a q = div_half_even a q)
  \/ (exists k, 1 <= k /\ 2 ^ (52 + k) <= a / q < 2 ^ (53 + k)
                /\ round_pos a q = div_half_even a (q * 2 ^ k) * 2 ^ k).
Proof.
  intros Ha Hq. unfold round_pos.
  destruct (Z.ltb_spec (a / q) (2 ^ 53)) as [L|L]; [left; split; [exact L|reflexivity]|].
  right. exists (Z.log2 (a / q) - 52).
  assert (P : 0 < a / q) by (pose proof (Z.pow_pos_nonneg 2 53); lia).
  pose proof (Z.log2_spec (a / q) P) as S.
  assert (K : 53 <= Z.log2 (a / q)).
  { rewrite <- (Z.log2_pow2 53) by lia. apply Z.log2_le_mono. exact L. }
  replace (52 + (Z.log2 (a / q) - 52)) with (Z.log2 (a / q)) by lia.
  replace (53 + (Z.log2 (a / q) - 52)) with (Z.succ (Z.log2 (a / q))) by lia.
  repeat split; try lia.
Qed.

(** Comparing a quotient with a constant. *)
Lemma div_ge_iff (a q c : Z) : 0 < q -> (c <= a / q <-> c * q <= a).
Proof.
  intros Hq. split; intros H.
  - pose proof (Z.mul_div_le a q Hq). nia.
  - apply Z.div_le_lower_bound; lia.
Qed.

Lemma div_lt_iff (a q c : Z) : 0 < q -> (a / q < c <-> a < c * q).
Proof.
  intros Hq. split; intros H.
  - apply Z.nle_gt. intros C. apply (div_ge_iff a q c Hq) in C. lia.
  - apply Z.div_lt_upper_bound; lia.
Qed.

Lemma round_pos_nonneg (a q : Z) : 0 <= a -> 0 < q -> 0 <= round_pos a q.
Proof.
  intros Ha Hq.
  assert (D : forall q', 0 < q' -> 0 <= div_half_even a q').
  { intros q' Hq'. rewrite <- (div_half_even_exact q' 0 Hq').
    apply div_half_even_mono; lia. }
  destruct (round_pos_cases a q Ha Hq) as [[_ E]|[k [Hk [_ E]]]]; rewrite E.
  - apply D; exact Hq.
  - pose proof (Z.pow_pos_nonneg 2 k). specialize (D (q * 2 ^ k)). nia.
Qed.

(** Relative error of a rounding in the normal range. *)
Lemma round_pos_error (a q : Z) :
  0 <= a -> 0 < q -> 2 ^ 52 * q <= a ->
  Z.abs (round_pos a q * q - a) * 2 ^ 53 <= a.
Proof.
  intros Ha Hq Hn.
  destruct (round_pos_cases a q Ha Hq) as [[_ E]|[k [Hk [[B1 B2] E]]]]; rewrite E.
  - pose proof (div_half_even_error a q Hq). change (2 ^ 53) with (2 * 2 ^ 52). lia.
  - assert (P : 0 < 2 ^ k) by (apply Z.pow_pos_nonneg; lia).
    pose proof (div_half_even_error a (q * 2 ^ k) ltac:(nia)) as D.
    apply div_ge_iff in B1; [|exact Hq].
    rewrite Z.pow_add_r in B1 by lia.
    change (2 ^ 53) with (2 * 2 ^ 52).
    remember (div_half_even a (q * 2 ^ k)) as r.
    remember (2 ^ k) as K. remember (2 ^ 52) as C.
    assert (0 < C) by (subst C; lia).
    nia.
Qed.

Lemma round_pos_small (z q : Z) :
  0 <= z < 2 ^ 53 -> 0 < q -> round_pos (q * z) q = z.
Proof.
  intros Hz Hq. unfold round_pos.
  replace (q * z / q) with z by (rewrite Z.mul_comm, Z.div_mul; lia).
  destruct (Z.ltb_spec z (2 ^ 53)); [|lia].
  apply div_half_even_exact; exact Hq.
Qed.

Lemma round_pos_int_error (z q : Z) :
  0 <= z -> 0 < q -> Z.abs (round_pos (q * z) q - z) * 2 ^ 53 <= z.
Proof.
  intros Hz Hq.
  destruct (Z.lt_ge_cases z (2 ^ 53)) as [L|L].
  - rewrite round_pos_small by lia. replace (z - z) with 0 by ring. simpl. lia.
  - pose proof (round_pos_error (q * z) q ltac:(nia) Hq ltac:(nia)) as E.
    replace (round_pos (q * z) q * q - q * z)
      with (q * (round_pos (q * z) q - z)) in E by ring.
    rewrite Z.abs_mul, (Z.abs_eq q) in E by lia.
    nia.
Qed.

Lemma round_pos_exact (q c j : Z) :
  0 < q -> 0 <= c < 2 ^ 53 -> 0 <= j ->
  round_pos (q * (c * 2 ^ j)) q = c * 2 ^ j.
Proof.
  intros Hq Hc Hj.
  assert (Pj : 0 < 2 ^ j) by (apply Z.pow_pos_nonneg; lia).
  destruct (round_pos_cases (q * (c * 2 ^ j)) q ltac:(nia) Hq)
    as [[_ E]|[k [Hk [[B1 B2] E]]]]; rewrite E.
  - apply div_half_even_exact; exact Hq.
  - replace (q * (c * 2 ^ j) / q) with (c * 2 ^ j) in B1, B2
      by (rewrite (Z.mul_comm q), Z.div_mul; lia).
    assert (Hkj : k <= j).
    { apply Z.nlt_ge. intros C.
      assert (2 ^ (53 + j) <= 2 ^ (52 + k)) by (apply Z.pow_le_mono_r; lia).
      rewrite Z.pow_add_r in H by lia. nia. }
    replace j with (k + (j - k)) at 1 by ring.
    rewrite Z.pow_add_r by lia.
    replace (q * (c * (2 ^ k * 2 ^ (j - k)))) with (q * 2 ^ k * (c * 2 ^ (j - k))) by ring.
    assert (Pk : 0 < 2 ^ k) by (apply Z.pow_pos_nonneg; lia).
    rewrite div_half_even_exact by nia.
    replace j with (k + (j - k)) at 2 by ring.
    rewrite Z.pow_add_r by lia. ring.
Qed.

Lemma div_half_even_range (a q lo hi : Z) :
  0 < q -> lo * q <= a <= hi * q -> lo <= div_half_even a q <= hi.
Proof.
  intros Hq [L H]. split.
  - rewrite <- (div_half_even_exact q lo Hq). apply div_half_even_mono; lia.
  - rewrite <- (div_half_even_exact q hi Hq). apply div_half_even_mono; lia.
Qed.

Lemma round_pos_mono (a b q : Z) :
  0 <= a -> 0 < q -> a <= b -> round_pos a q <= round_pos b q.
Proof.
  intros Ha Hq Hab.
  pose proof (Z.div_le_mono a b q Hq Hab) as D.
  destruct (round_pos_cases a q Ha Hq) as [[A1 EA]|[k [Hk [[A1 A2] EA]]]];
    destruct (round_pos_cases b q ltac:(lia) Hq) as [[B1 EB]|[l [Hl [[B1 B2] EB]]]];
    rewrite EA, EB.
  - apply div_half_even_mono; assumption.
  - (* a below 2^53, b in binade l *)
    assert (Pl : 0 < 2 ^ l) by (apply Z.pow_pos_nonneg; lia).
    apply div_lt_iff in A1; [|exact Hq].
    apply div_ge_iff in B1; [|exact Hq].
    rewrite Z.pow_add_r in B1 by lia.
    pose proof (div_half_even_range a q 0 (2 ^ 53) Hq ltac:(lia)) as R1.
    pose proof (div_half_even_range b (q * 2 ^ l) (2 ^ 52) (2 ^ 52 * (b / q + 1))
                  ltac:(nia)) as R2.
    assert (b < (b / q + 1) * q).
    { pose proof (Z.div_mod b q ltac:(lia)). pose proof (Z.mod_pos_bound b q Hq). nia. }
    specialize (R2 ltac:(nia)).
    change (2 ^ 53) with (2 * 2 ^ 52) in *.
    assert (2 <= 2 ^ l).
    { change 2 with (2 ^ 1) at 1. apply Z.pow_le_mono_r; lia. }
    nia.
  - exfalso.
    assert (2 ^ 53 <= 2 ^ (52 + k)) by (apply Z.pow_le_mono_r; lia). lia.
  - assert (Pk : 0 < 2 ^ k) by (apply Z.pow_pos_nonneg; lia).
    assert (Pl : 0 < 2 ^ l) by (apply Z.pow_pos_nonneg; lia).
    assert (Hkl : k <= l).
    { apply Z.nlt_ge. intros C.
      assert (2 ^ (53 + l) <= 2 ^ (52 + k)) by (apply Z.pow_le_mono_r; lia). lia. }
    destruct (Z.eq_dec k l) as [->|N].
    + apply Z.mul_le_mono_nonneg_r; [lia|].
      apply div_half_even_mono; [nia|exact Hab].
    + (* a rounds to at most 2^(53+k), b to at least 2^(52+l) *)
      apply div_lt_iff in A2; [|exact Hq].
      apply div_ge_iff in B1; [|exact Hq].
      rewrite Z.pow_add_r in A2, B1 by lia.
      pose proof (div_half_even_range a (q * 2 ^ k) 0 (2 ^ 53) ltac:(nia) ltac:(nia)) as R1.
      assert (R2 : 2 ^ 52 <= div_half_even b (q * 2 ^ l)).
      { rewrite <- (div_half_even_exact (q * 2 ^ l) (2 ^ 52)) by nia.
        apply div_half_even_mono; nia. }
      assert (2 ^ (k + 1) <= 2 ^ l) by (apply Z.pow_le_mono_r; lia).
      rewrite Z.pow_add_r in H by lia. change (2 ^ 1) with 2 in H.
      change (2 ^ 53) with (2 * 2 ^ 52) in *.
      nia.
Qed.

Lemma UNIT_quarter : UNIT = 4 * 2 ^ 1072.
Proof. reflexivity. Qed.

Lemma UNIT_pos : 0 < UNIT.
Proof. reflexivity. Qed.

Lemma c_round_small (u : Z) :
  - UNIT < u < UNIT ->
  c_round u = if 2 * Z.abs u <? UNIT then 0 else Z.sgn u.
Proof.
  intros Hu. unfold c_round. pose proof UNIT_pos as P.
  destruct (Z.ltb_spec (2 * Z.abs u) UNIT) as [L|L].
  - rewrite Z.div_small by lia. lia.
  - replace ((2 * Z.abs u + UNIT) / (2 * UNIT)) with 1; [lia|].
    apply Z.div_unique with (r := 2 * Z.abs u - UNIT); lia.
Qed.

Lemma leftover_round_spec (x lo : Z) :
  - UNIT < lo < UNIT -> lo <> 0 ->
  x + leftover_round lo x = div_half_even (x * UNIT + lo) UNIT.
Proof.
  intros Hlo N. pose proof UNIT_quarter as Q4.
  assert (PQ : 0 < 2 ^ 1072) by reflexivity.
  unfold leftover_round, div_half_even.
  rewrite (c_round_small lo Hlo).
  replace (UNIT / 2) with (2 * 2 ^ 1072)
    by (rewrite Q4; apply Z.div_unique with (r := 0); lia).
  assert (D : (x * UNIT + lo) / UNIT = if lo <? 0 then x - 1 else x).
  { destruct (Z.ltb_spec lo 0).
    - symmetry. apply Z.div_unique with (r := lo + UNIT); lia.
    - symmetry. apply Z.div_unique with (r := lo); lia. }
  assert (M : (x * UNIT + lo) mod UNIT = if lo <? 0 then lo + UNIT else lo).
  { destruct (Z.ltb_spec lo 0).
    - symmetry. apply Z.mod_unique with (q := x - 1); lia.
    - symmetry. apply Z.mod_unique with (q := x); lia. }
  rewrite D, M. clear D M.
  assert (OE : forall y, Z.even (y - 1) = Z.odd y).
  { intros y. rewrite Z.even_sub. rewrite <- Z.negb_odd.
    destruct (Z.odd y); reflexivity. }
  destruct (Z.ltb_spec (2 * Z.abs lo) UNIT) as [L|L].
  - (* nearer to x *)
    replace (Z.abs (0 * UNIT - lo) =? 2 * 2 ^ 1072) with false
      by (symmetry; apply Z.eqb_neq; lia).
    destruct (Z.ltb_spec lo 0).
    + destruct (Z.ltb_spec (2 * (lo + UNIT)) UNIT); [lia|].
      destruct (Z.ltb_spec UNIT (2 * (lo + UNIT))); lia.
    + destruct (Z.ltb_spec (2 * lo) UNIT); lia.
  - destruct (Z.eqb_spec (Z.abs (Z.sgn lo * UNIT - lo)) (2 * 2 ^ 1072)) as [T|T].
    + (* tie *)
      assert (A : Z.abs lo = 2 * 2 ^ 1072) by lia.
      destruct (Z.ltb_spec lo 0) as [S|S].
      * assert (lo = - (2 * 2 ^ 1072)) by lia. subst lo.
        destruct (Z.ltb_spec (2 * (- (2 * 2 ^ 1072) + UNIT)) UNIT); [lia|].
        destruct (Z.ltb_spec UNIT (2 * (- (2 * 2 ^ 1072) + UNIT))); [lia|].
        rewrite OE.
        destruct (Z.odd x); cbv iota.
        -- replace ((- (2 * 2 ^ 1072) + 1 * UNIT) / 2) with (2 ^ 1072)
             by (apply Z.div_unique with (r := 0); lia).
           rewrite c_round_small by lia.
           destruct (Z.ltb_spec (2 * Z.abs (2 ^ 1072)) UNIT); lia.
        -- replace ((- (2 * 2 ^ 1072) + 0 * UNIT) / 2) with (- 2 ^ 1072)
             by (apply Z.div_unique with (r := 0); lia).
           rewrite c_round_small by lia.
           destruct (Z.ltb_spec (2 * Z.abs (- 2 ^ 1072)) UNIT); lia.
      * assert (lo = 2 * 2 ^ 1072) by lia. subst lo.
        destruct (Z.ltb_spec (2 * (2 * 2 ^ 1072)) UNIT); [lia|].
        destruct (Z.ltb_spec UNIT (2 * (2 * 2 ^ 1072))); [lia|].
        rewrite <- (Z.negb_odd x).
        destruct (Z.odd x); simpl negb; cbv iota.
        -- replace ((2 * 2 ^ 1072 + 1 * UNIT) / 2) with (3 * 2 ^ 1072)
             by (apply Z.div_unique with (r := 0); lia).
           rewrite c_round_small by lia.
           destruct (Z.ltb_spec (2 * Z.abs (3 * 2 ^ 1072)) UNIT); lia.
        -- replace ((2 * 2 ^ 1072 + 0 * UNIT) / 2) with (2 ^ 1072)
             by (apply Z.div_unique with (r := 0); lia).
           rewrite c_round_small by lia.
           destruct (Z.ltb_spec (2 * Z.abs (2 ^ 1072)) UNIT); lia.
    + (* nearer to the neighbour *)
      destruct (Z.ltb_spec lo 0).
      * destruct (Z.ltb_spec (2 * (lo + UNIT)) UNIT); lia.
      * destruct (Z.ltb_spec (2 * lo) UNIT); [lia|].
        destruct (Z.ltb_spec UNIT (2 * lo)); lia.
Qed.

Lemma round_ne_0 (q : Z) : round_ne 0 q = 0.
Proof. reflexivity. Qed.

Lemma round_ne_opp (p q : Z) : round_ne (- p) q = - round_ne p q.
Proof. unfold round_ne. rewrite Z.sgn_opp, Z.abs_opp. ring. Qed.

Lemma round_ne_pos (p q : Z) : 0 <= p -> 0 < q -> round_ne p q = round_pos p q.
Proof.
  intros H Hq. unfold round_ne. rewrite Z.abs_eq by lia.
  destruct (Z.eq_dec p 0) as [->|N].
  - pose proof (round_pos_small 0 q ltac:(lia) Hq) as E.
    rewrite Z.mul_0_r in E. rewrite E. reflexivity.
  - rewrite Z.sgn_pos by lia. ring.
Qed.

Lemma round_ne_neg (p q : Z) : p <= 0 -> 0 < q -> round_ne p q = - round_pos (- p) q.
Proof.
  intros H Hq. rewrite <- (Z.opp_involutive p) at 1.
  rewrite round_ne_opp, round_ne_pos by lia. reflexivity.
Qed.

Lemma round_ne_mono (p1 p2 q : Z) :
  0 < q -> p1 <= p2 -> round_ne p1 q <= round_ne p2 q.
Proof.
  intros Hq H.
  destruct (Z.le_ge_cases 0 p1) as [S1|S1]; destruct (Z.le_ge_cases 0 p2) as [S2|S2].
  - rewrite !round_ne_pos by lia. apply round_pos_mono; lia.
  - assert (p1 = p2) by lia. subst. lia.
  - rewrite round_ne_neg, round_ne_pos by lia.
    pose proof (round_pos_nonneg (- p1) q ltac:(lia) Hq).
    pose proof (round_pos_nonneg p2 q ltac:(lia) Hq). lia.
  - rewrite !round_ne_neg by lia.
    pose proof (round_pos_mono (- p2) (- p1) q ltac:(lia) Hq ltac:(lia)). lia.
Qed.

Lemma round_ne_exact (q c j : Z) :
  0 < q -> Z.abs c < 2 ^ 53 -> 0 <= j -> round_ne (q * (c * 2 ^ j)) q = c * 2 ^ j.
Proof.
  intros Hq Hc Hj.
  assert (Pj : 0 < 2 ^ j) by (apply Z.pow_pos_nonneg; lia).
  destruct (Z.le_ge_cases 0 c) as [S|S].
  - rewrite round_ne_pos by nia. apply round_pos_exact; lia.
  - rewrite round_ne_neg by nia.
    replace (- (q * (c * 2 ^ j))) with (q * (- c * 2 ^ j)) by ring.
    rewrite round_pos_exact by lia. ring.
Qed.

Lemma round_ne_error (p q : Z) :
  0 < q -> 2 ^ 52 * q <= Z.abs p ->
  Z.abs (round_ne p q * q - p) * 2 ^ 53 <= Z.abs p.
Proof.
  intros Hq Hn.
  destruct (Z.le_ge_cases 0 p) as [S|S].
  - rewrite round_ne_pos by lia. rewrite (Z.abs_eq p) in * by lia.
    apply round_pos_error; lia.
  - rewrite round_ne_neg by lia. rewrite (Z.abs_neq p) in * by lia.
    replace (- round_pos (- p) q * q - p) with (- (round_pos (- p) q * q - - p)) by ring.
    rewrite Z.abs_opp. apply round_pos_error; lia.
Qed.

Lemma round_ne_int_error (z q : Z) :
  0 < q -> Z.abs (round_ne (q * z) q - z) * 2 ^ 53 <= Z.abs z.
Proof.
  intros Hq.
  destruct (Z.le_ge_cases 0 z) as [S|S].
  - rewrite round_ne_pos by nia. rewrite (Z.abs_eq z) by lia.
    apply round_pos_int_error; lia.
  - rewrite round_ne_neg by nia. rewrite (Z.abs_neq z) by lia.
    replace (- (q * z)) with (q * - z) by ring.
    replace (- round_pos (q * - z) q - z) with (- (round_pos (q * - z) q - - z)) by ring.
    rewrite Z.abs_opp. apply round_pos_int_error; lia.
Qed.

Lemma round_ne_sign (p q : Z) : 0 < q -> 0 <= p -> 0 <= round_ne p q.
Proof.
  intros Hq Hp. rewrite round_ne_pos by lia. apply round_pos_nonneg; lia.
Qed.

(** The microsecond count of [timedelta(seconds=f)], before the range
    check. *)
Lemma td_seconds_float_spec (u : Z) :
  td_seconds_float (Finite u)
  = microseconds_to_delta
      (div_half_even
         (modf_int u * US_PER_SECOND * UNIT
          + round_ne (US_PER_SECOND * UNIT * modf_frac u) UNIT) UNIT).
Proof.
  pose proof UNIT_pos as P.
  unfold td_seconds_float, accum_seconds.
  destruct (Z.eqb_spec (modf_frac u) 0) as [E|E].
  - rewrite E.
    replace (US_PER_SECOND * UNIT * 0) with 0 by ring.
    rewrite round_ne_0.
    replace (modf_int u * US_PER_SECOND * UNIT + 0)
      with (UNIT * (modf_int u * US_PER_SECOND)) by ring.
    rewrite div_half_even_exact by exact P. reflexivity.
  - set (dnum := round_ne (US_PER_SECOND * UNIT * modf_frac u) UNIT).
    set (sum := modf_int u * US_PER_SECOND).
    assert (Q : sum * UNIT + dnum = (sum + modf_int dnum) * UNIT + modf_frac dnum).
    { unfold modf_int, modf_frac. pose proof (Z.quot_rem' dnum UNIT). lia. }
    rewrite Q.
    destruct (Z.eqb_spec (modf_frac dnum) 0) as [F|F].
    + rewrite F, Z.add_0_r.
      replace ((sum + modf_int dnum) * UNIT) with (UNIT * (sum + modf_int dnum)) by ring.
      rewrite div_half_even_exact by exact P. reflexivity.
    + rewrite leftover_round_spec; [reflexivity| |exact F].
      unfold modf_frac. pose proof (Z.rem_bound_abs dnum UNIT ltac:(lia)). lia.
Qed.

Lemma abs_round_ne (p q : Z) : 0 < q -> Z.abs (round_ne p q) = round_pos (Z.abs p) q.
Proof.
  intros Hq. destruct (Z.le_ge_cases 0 p) as [S|S].
  - rewrite round_ne_pos, (Z.abs_eq p) by lia.
    apply Z.abs_eq. apply round_pos_nonneg; lia.
  - rewrite round_ne_neg, (Z.abs_neq p) by lia.
    rewrite Z.abs_opp. apply Z.abs_eq. apply round_pos_nonneg; lia.
Qed.

(** A rounded value stays below a representable bound of its argument. *)
Lemma round_ne_bound (p q j : Z) :
  0 < q -> 0 <= j -> Z.abs p <= q * (2 ^ 52 * 2 ^ j) ->
  Z.abs (round_ne p q) <= 2 ^ 52 * 2 ^ j.
Proof.
  intros Hq Hj Hb. rewrite abs_round_ne by exact Hq.
  rewrite <- (round_pos_exact q (2 ^ 52) j) by lia.
  apply round_pos_mono; lia.
Qed.

Lemma to_float_finite (u j : Z) :
  0 <= j <= 2045 -> Z.abs u <= 2 ^ 52 * 2 ^ j -> to_float u = Finite u.
Proof.
  intros Hj Hu. unfold to_float.
  destruct (Z.leb_spec (Z.abs u) F64_MAX) as [L|L]; [reflexivity|exfalso].
  assert (2 ^ j <= 2 ^ 2045) by (apply Z.pow_le_mono_r; lia).
  assert (E : F64_MAX = (2 ^ 53 - 1) * 2 ^ 2045) by reflexivity.
  assert (0 < 2 ^ 2045) by reflexivity.
  change (2 ^ 53 - 1) with 9007199254740991 in E.
  change (2 ^ 52) with 4503599627370496 in Hu.
  nia.
Qed.

Lemma total_seconds_finite (td : timedelta) :
  Z.abs td <= 2 ^ 70 ->
  total_seconds td = Finite (round_ne (td * UNIT) US_PER_SECOND).
Proof.
  intros H. unfold total_seconds.
  apply to_float_finite with (j := 1092); [lia|].
  apply round_ne_bound; [reflexivity|lia|].
  rewrite Z.abs_mul, (Z.abs_eq UNIT) by (pose proof UNIT_pos; lia).
  assert (E : 2 ^ 70 * UNIT <= US_PER_SECOND * (2 ^ 52 * 2 ^ 1092)) by (vm_compute; discriminate).
  pose proof UNIT_pos. nia.
Qed.

Lemma float_of_int_exact (n : Z) :
  Z.abs n < 2 ^ 53 -> float_of_int n = Returns (Finite (n * UNIT)).
Proof.
  intros H. unfold float_of_int, int_true_div.
  replace (n * UNIT) with (1 * (n * 2 ^ 1074)) at 1 by (unfold UNIT; ring).
  rewrite round_ne_exact by lia.
  change (2 ^ 1074) with UNIT.
  rewrite to_float_finite with (j := 1075); [reflexivity|lia|].
  rewrite Z.abs_mul, (Z.abs_eq UNIT) by (pose proof UNIT_pos; lia).
  assert (E : 2 ^ 52 * 2 ^ 1075 = 2 ^ 53 * UNIT) by reflexivity.
  rewrite E. pose proof UNIT_pos. nia.
Qed.

Lemma error_budget (U N s f1 f2 fr I dnum : Z) :
  0 < U ->
  Z.abs (f1 * 1000000 - N * U) * 2 ^ 53 <= Z.abs N * U ->
  Z.abs (f2 - f1 * s) * 2 ^ 53 <= Z.abs (f1 * s) ->
  f2 = U * I + fr -> Z.abs fr < U ->
  Z.abs (dnum - 1000000 * fr) * 2 ^ 53 <= Z.abs (1000000 * fr) ->
  Z.abs (N * s) <= 2 ^ 51 - 2 ^ 21 ->
  2 * Z.abs (I * 1000000 * U + dnum - U * (N * s)) < U.
Proof.
  intros HU K1 K2 Ef Hfr K3 HB.
  change (2 ^ 53) with 9007199254740992 in *.
  change (2 ^ 51 - 2 ^ 21) with 2251799811588096 in HB.
  set (e1 := f1 * 1000000 - N * U) in *.
  set (e2 := f2 - f1 * s) in *.
  set (e3 := dnum - 1000000 * fr) in *.
  replace (I * 1000000 * U + dnum - U * (N * s))
    with (1000000 * e2 + s * e1 + e3) by (unfold e1, e2, e3; rewrite Ef; ring).
  assert (T : Z.abs (1000000 * e2 + s * e1 + e3)
              <= 1000000 * Z.abs e2 + Z.abs s * Z.abs e1 + Z.abs e3).
  { pose proof (Z.abs_triangle (1000000 * e2 + s * e1) e3).
    pose proof (Z.abs_triangle (1000000 * e2) (s * e1)).
    rewrite !Z.abs_mul in *. change (Z.abs 1000000) with 1000000 in *. lia. }
  assert (F : 1000000 * Z.abs f1 <= Z.abs N * U + Z.abs e1).
  { replace (1000000 * Z.abs f1) with (Z.abs (N * U + e1)).
    - pose proof (Z.abs_triangle (N * U) e1).
      rewrite Z.abs_mul, (Z.abs_eq U) in H by lia. exact H.
    - unfold e1. replace (N * U + (f1 * 1000000 - N * U)) with (1000000 * f1) by ring.
      rewrite Z.abs_mul. reflexivity. }
  enough (2 * (1000000 * Z.abs e2 + Z.abs s * Z.abs e1 + Z.abs e3) < U) by lia.
  clear T.
  rewrite !Z.abs_mul in *. change (Z.abs 1000000) with 1000000 in *.
  remember (Z.abs e1) as a1. remember (Z.abs e2) as a2. remember (Z.abs e3) as a3.
  remember (Z.abs N) as n. remember (Z.abs s) as t. remember (Z.abs f1) as g.
  remember (Z.abs fr) as r.
  assert (0 <= a1 /\ 0 <= a2 /\ 0 <= a3 /\ 0 <= n /\ 0 <= t /\ 0 <= g /\ 0 <= r) by lia.
  clear Heqa1 Heqa2 Heqa3 Heqn Heqt Heqg Heqr e1 e2 e3 Ef.
  (* scaled by 2^53 twice *)
  assert (A2 : 1000000 * a2 * 9007199254740992 <= (n * U + a1) * t) by nia.
  assert (A2' : 1000000 * a2 * 9007199254740992 * 9007199254740992
                <= n * t * U * 9007199254740993) by nia.
  assert (A1 : t * a1 * 9007199254740992 * 9007199254740992
               <= n * t * U * 9007199254740992) by nia.
  assert (A3 : a3 * 9007199254740992 * 9007199254740992
               <= 1000000 * U * 9007199254740992) by nia.
  remember (n * t) as mm.
  assert (S : (1000000 * a2 + t * a1 + a3) * 9007199254740992 * 9007199254740992
              <= U * (mm * 18014398509481985 + 1000000 * 9007199254740992)) by nia.
  assert (C : 2 * (mm * 18014398509481985 + 1000000 * 9007199254740992)
              < 9007199254740992 * 9007199254740992) by lia.
  nia.
Qed.

Lemma microseconds_to_delta_ok (us : Z) :
  TD_MIN <= us <= TD_MAX -> microseconds_to_delta us = Returns us.
Proof.
  intros [L H]. unfold microseconds_to_delta, td_in_range.
  apply Z.leb_le in L, H. rewrite L, H. reflexivity.
Qed.

Lemma scaled_elapsed_exact (N sp : Z) :
  Z.abs N <= 2 ^ 70 -> Z.abs sp < 2 ^ 53 -> Z.abs (N * sp) <= EXACT_BOUND ->
  scaled_elapsed N sp = Returns (N * sp).
Proof.
  intros HN Hs HM. pose proof UNIT_pos as PU.
  unfold scaled_elapsed, float_mul_int.
  rewrite total_seconds_finite by exact HN.
  rewrite float_of_int_exact by exact Hs.
  cbn [bind float_mul].
  set (f1 := round_ne (N * UNIT) US_PER_SECOND).
  replace (f1 * (sp * UNIT)) with (UNIT * (f1 * sp)) by ring.
  set (f2 := round_ne (UNIT * (f1 * sp)) UNIT).
  assert (B1 : Z.abs f1 <= 2 ^ 52 * 2 ^ 1092).
  { apply round_ne_bound; [reflexivity|lia|].
    rewrite Z.abs_mul, (Z.abs_eq UNIT) by lia.
    assert (E : 2 ^ 70 * UNIT <= US_PER_SECOND * (2 ^ 52 * 2 ^ 1092))
      by (vm_compute; discriminate).
    nia. }
  assert (K1 : Z.abs (f1 * 1000000 - N * UNIT) * 2 ^ 53 <= Z.abs N * UNIT).
  { destruct (Z.eq_dec N 0) as [->|NZ].
    - assert (Z : f1 = 0) by (unfold f1; rewrite Z.mul_0_l; apply round_ne_0).
      rewrite Z. simpl. lia.
    - rewrite <- (Z.abs_eq UNIT) at 2 by lia. rewrite <- Z.abs_mul.
      apply (round_ne_error (N * UNIT) US_PER_SECOND); [reflexivity|].
      rewrite Z.abs_mul, (Z.abs_eq UNIT) by lia.
      assert (E : 2 ^ 52 * US_PER_SECOND <= UNIT) by (vm_compute; discriminate).
      nia. }
  assert (K2 : Z.abs (f2 - f1 * sp) * 2 ^ 53 <= Z.abs (f1 * sp))
    by (apply round_ne_int_error; exact PU).
  assert (F2 : to_float f2 = Finite f2).
  { apply to_float_finite with (j := 1146); [lia|].
    assert (Z.abs f2 <= 2 * Z.abs (f1 * sp)).
    { pose proof (Z.abs_triangle (f2 - f1 * sp) (f1 * sp)) as T.
      replace (f2 - f1 * sp + f1 * sp) with f2 in T by ring.
      change (2 ^ 53) with 9007199254740992 in K2. lia. }
    rewrite Z.abs_mul in H.
    assert (E : 2 * (2 ^ 52 * 2 ^ 1092 * 2 ^ 53) = 2 ^ 52 * 2 ^ 1146) by reflexivity.
    assert (Z.abs f1 * Z.abs sp <= 2 ^ 52 * 2 ^ 1092 * 2 ^ 53).
    { apply Z.mul_le_mono_nonneg; lia. }
    lia. }
  rewrite F2. rewrite td_seconds_float_spec.
  replace (US_PER_SECOND * UNIT * modf_frac f2)
    with (UNIT * (1000000 * modf_frac f2)) by (unfold US_PER_SECOND; ring).
  rewrite (div_half_even_nearest _ UNIT (N * sp)); [|exact PU|].
  - apply microseconds_to_delta_ok.
    assert (EXACT_BOUND <= TD_MAX /\ TD_MIN <= - EXACT_BOUND) by (vm_compute; split; discriminate).
    lia.
  - apply (error_budget UNIT N sp f1 f2 (modf_frac f2) (modf_int f2)); try assumption.
    + unfold modf_int, modf_frac. apply Z.quot_rem'.
    + unfold modf_frac. apply Z.rem_bound_abs. lia.
    + apply round_ne_int_error; exact PU.
Qed.

Lemma to_float_cases (u : Z) :
  to_float u = Finite u \/ exists b, to_float u = Infinite b.
Proof.
  unfold to_float. destruct (Z.abs u <=? F64_MAX); [left; reflexivity|right; eauto].
Qed.

Lemma frac_scaled_bounds (fr : Z) :
  Z.abs fr < UNIT ->
  - (US_PER_SECOND * UNIT) <= round_ne (US_PER_SECOND * UNIT * fr) UNIT
                            <= US_PER_SECOND * UNIT
  /\ (0 <= fr -> 0 <= round_ne (US_PER_SECOND * UNIT * fr) UNIT)
  /\ (fr <= 0 -> round_ne (US_PER_SECOND * UNIT * fr) UNIT <= 0).
Proof.
  intros H. pose proof UNIT_pos as PU.
  assert (PS : 0 < US_PER_SECOND) by reflexivity.
  assert (E : round_ne (UNIT * (US_PER_SECOND * 2 ^ 1074)) UNIT = US_PER_SECOND * UNIT).
  { rewrite round_ne_exact; [reflexivity|exact PU|vm_compute; reflexivity|lia]. }
  assert (E' : round_ne (- (UNIT * (US_PER_SECOND * 2 ^ 1074))) UNIT
               = - (US_PER_SECOND * UNIT)).
  { rewrite round_ne_opp, E. reflexivity. }
  change (2 ^ 1074) with UNIT in E, E'.
  repeat split.
  - rewrite <- E'. apply round_ne_mono; [exact PU|]. nia.
  - rewrite <- E. apply round_ne_mono; [exact PU|]. nia.
  - intros S. apply round_ne_sign; [exact PU|nia].
  - intros S. rewrite <- (round_ne_0 UNIT). apply round_ne_mono; [exact PU|nia].
Qed.

Lemma accum_mono (u u' : Z) :
  u <= u' ->
  modf_int u * US_PER_SECOND * UNIT + round_ne (US_PER_SECOND * UNIT * modf_frac u) UNIT
  <= modf_int u' * US_PER_SECOND * UNIT
     + round_ne (US_PER_SECOND * UNIT * modf_frac u') UNIT.
Proof.
  intros H. pose proof UNIT_pos as PU.
  assert (PS : 0 < US_PER_SECOND) by reflexivity.
  unfold modf_int, modf_frac.
  pose proof (Z.quot_le_mono u u' UNIT PU H) as Q.
  pose proof (Z.quot_rem' u UNIT) as D. pose proof (Z.quot_rem' u' UNIT) as D'.
  pose proof (Z.rem_bound_abs u UNIT ltac:(lia)) as R.
  pose proof (Z.rem_bound_abs u' UNIT ltac:(lia)) as R'.
  rewrite (Z.abs_eq UNIT) in R, R' by lia.
  destruct (frac_scaled_bounds (Z.rem u UNIT) R) as [[L1 L2] [L3 L4]].
  destruct (frac_scaled_bounds (Z.rem u' UNIT) R') as [[L1' L2'] [L3' L4']].
  assert (C : Z.quot u UNIT = Z.quot u' UNIT \/ Z.quot u UNIT + 1 <= Z.quot u' UNIT) by lia.
  destruct C as [C|C].
  - rewrite C in *.
    assert (Z.rem u UNIT <= Z.rem u' UNIT) by lia.
    pose proof (round_ne_mono (US_PER_SECOND * UNIT * Z.rem u UNIT)
                  (US_PER_SECOND * UNIT * Z.rem u' UNIT) UNIT PU ltac:(nia)).
    lia.
  - destruct (Z.le_gt_cases 0 u') as [S|S].
    + pose proof (Z.rem_nonneg u' UNIT ltac:(lia) S). specialize (L3' ltac:(lia)). nia.
    + pose proof (Z.rem_nonpos u UNIT ltac:(lia) ltac:(lia)). specialize (L4 ltac:(lia)). nia.
Qed.

Lemma scaled_elapsed_mono (N1 N2 sp d1 d2 : Z) :
  0 < sp -> N1 <= N2 ->
  scaled_elapsed N1 sp = Returns d1 -> scaled_elapsed N2 sp = Returns d2 ->
  d1 <= d2.
Proof.
  intros Hs HN. pose proof UNIT_pos as PU.
  unfold scaled_elapsed, float_mul_int, float_of_int, int_true_div, total_seconds.
  destruct (to_float_cases (round_ne (sp * UNIT) 1)) as [Y|[b Y]]; rewrite Y;
    [|discriminate].
  assert (PY : 0 <= round_ne (sp * UNIT) 1) by (apply round_ne_sign; nia).
  set (y := round_ne (sp * UNIT) 1) in *.
  pose proof (round_ne_mono (N1 * UNIT) (N2 * UNIT) US_PER_SECOND
                ltac:(reflexivity) ltac:(nia)) as M1.
  set (a1 := round_ne (N1 * UNIT) US_PER_SECOND) in *.
  set (a2 := round_ne (N2 * UNIT) US_PER_SECOND) in *.
  cbn [bind].
  destruct (to_float_cases a1) as [A1|[b1 A1]]; rewrite A1; [|discriminate].
  destruct (to_float_cases a2) as [A2|[b2 A2]]; rewrite A2; [|discriminate].
  cbn [float_mul].
  pose proof (round_ne_mono (a1 * y) (a2 * y) UNIT PU ltac:(nia)) as M2.
  destruct (to_float_cases (round_ne (a1 * y) UNIT)) as [F1|[c1 F1]]; rewrite F1;
    [|discriminate].
  destruct (to_float_cases (round_ne (a2 * y) UNIT)) as [F2|[c2 F2]]; rewrite F2;
    [|discriminate].
  rewrite !td_seconds_float_spec.
  pose proof (accum_mono _ _ M2) as M3.
  pose proof (div_half_even_mono _ _ UNIT PU M3) as M4.
  unfold microseconds_to_delta.
  destruct (td_in_range _); [|discriminate].
  destruct (td_in_range _); [|discriminate].
  intros E1 E2. injection E1 as <-. injection E2 as <-. exact M4.
Qed.

(** Known binary64 values: 1e-6 is 0x1.0c6f7a0b5ed8dp-20, 1/10 is
    0x1.999999999999ap-4, and 3000000000.333333 * 3 is
    0x1.0c388d0080000p+33, which is 9000000001.0 and not
    9000000000.999999. *)
Example total_seconds_one_microsecond :
  total_seconds 1 = Finite (4722366482869645 * 2 ^ 1002).
Proof. vm_compute. reflexivity. Qed.

Example one_tenth : int_true_div 1 10 = Returns (Finite (7205759403792794 * 2 ^ 1018)).
Proof. vm_compute. reflexivity. Qed.

Example ninety_five_years_times_three :
  float_mul_int (total_seconds 3000000000333333) 3
  = Returns (Finite (4718592000524288 * 2 ^ 1055)).
Proof. vm_compute. reflexivity. Qed.

(** ** The time mapper *)

Lemma wall_in_range_true (w : Z) : 0 <= w < MAX_WALL -> wall_in_range w = true.
Proof.
  intros [L H]. unfold wall_in_range.
  apply Z.leb_le in L. apply Z.ltb_lt in H. rewrite L, H. reflexivity.
Qed.

Lemma wall_in_range_inv (w : Z) : wall_in_range w = true -> 0 <= w < MAX_WALL.
Proof.
  unfold wall_in_range. intros H. apply andb_prop in H as [L H].
  apply Z.leb_le in L. apply Z.ltb_lt in H. lia.
Qed.

Lemma dt_add_ok (dt : datetime) (td : Z) :
  0 <= wall dt + td < MAX_WALL ->
  dt_add dt td = Returns {| wall := wall dt + td; fold := false |}.
Proof.
  intros H. unfold dt_add. rewrite wall_in_range_true by exact H. reflexivity.
Qed.

Lemma dt_add_inv (dt v : datetime) (td : Z) :
  dt_add dt td = Returns v -> wall v = wall dt + td /\ valid_datetime v.
Proof.
  unfold dt_add. destruct (wall_in_range (wall dt + td)) eqn:E; [|discriminate].
  intros H. injection H as <-. apply wall_in_range_inv in E.
  split; [reflexivity|exact E].
Qed.

Lemma elapsed_bound (a b : datetime) :
  valid_datetime a -> valid_datetime b -> Z.abs (dt_sub a b) <= 2 ^ 70.
Proof.
  unfold valid_datetime, dt_sub. intros Ha Hb.
  assert (E : MAX_WALL <= 2 ^ 70) by (vm_compute; discriminate). lia.
Qed.

(** Where the scaled elapsed time is exact and both sums stay inside the
    datetime type, the mapper returns the specified formula, truncated. *)
Lemma compute_virtual_exact (st : session) (real_now : datetime) :
  valid_datetime real_now -> valid_datetime (real_base st) ->
  Z.abs (speed st) < 2 ^ 53 ->
  Z.abs (dt_sub real_now (real_base st) * speed st) <= EXACT_BOUND ->
  0 <= wall (virt_base st) + dt_sub real_now (real_base st) * speed st < MAX_WALL ->
  0 <= spec_virtual_now st real_now < MAX_WALL ->
  compute_virtual st real_now
  = Returns {| wall := truncate_seconds (spec_virtual_now st real_now); fold := false |}.
Proof.
  intros Vn Vr Hs Hb R1 R2. unfold compute_virtual.
  rewrite scaled_elapsed_exact by (auto using elapsed_bound).
  cbn [bind]. rewrite dt_add_ok by exact R1. cbn [bind].
  rewrite dt_add_ok by exact R2. reflexivity.
Qed.

(** C3.  With a fixed configuration of positive speed, the mapper is
    monotonic in the real timestamp: for now1 <= now2 the value returned for
    now1 is not later than the value returned for now2. *)
Theorem compute_virtual_monotonic (st : session) (now1 now2 v1 v2 : datetime) :
  0 < speed st -> wall now1 <= wall now2 ->
  compute_virtual st now1 = Returns v1 -> compute_virtual st now2 = Returns v2 ->
  wall v1 <= wall v2.
Proof.
  intros Hs Hn. unfold compute_virtual.
  destruct (scaled_elapsed (dt_sub now1 (real_base st)) (speed st)) as [d1|] eqn:E1;
    [|discriminate].
  destruct (scaled_elapsed (dt_sub now2 (real_base st)) (speed st)) as [d2|] eqn:E2;
    [|discriminate].
  assert (D : d1 <= d2).
  { apply (scaled_elapsed_mono (dt_sub now1 (real_base st)) (dt_sub now2 (real_base st))
             (speed st) d1 d2 Hs); [unfold dt_sub; lia|exact E1|exact E2]. }
  cbn [bind].
  destruct (dt_add (virt_base st) d1) as [a1|] eqn:A1; [|discriminate].
  destruct (dt_add (virt_base st) d2) as [a2|] eqn:A2; [|discriminate].
  cbn [bind].
  destruct (dt_add a1 (virt_adjust st)) as [b1|] eqn:B1; [|discriminate].
  destruct (dt_add a2 (virt_adjust st)) as [b2|] eqn:B2; [|discriminate].
  cbn [bind]. intros H1 H2. injection H1 as <-. injection H2 as <-.
  apply dt_add_inv in A1 as [A1 _], A2 as [A2 _], B1 as [B1 _], B2 as [B2 _].
  unfold replace_microsecond0. cbn [wall].
  assert (W : wall b1 <= wall b2) by lia.
  assert (PS : 0 < US_PER_SECOND) by reflexivity.
  pose proof (Z.div_le_mono _ _ US_PER_SECOND PS W) as Q.
  pose proof (Z.div_mod (wall b1) US_PER_SECOND ltac:(lia)).
  pose proof (Z.div_mod (wall b2) US_PER_SECOND ltac:(lia)).
  nia.
Qed.

Lemma compute_virtual_monotonic_witness :
  wall (datetime_at DAY_2025_01_01 9 30 0) <= wall (datetime_at DAY_2025_01_01 10 0 0).
Proof.
  apply (compute_virtual_monotonic (default_session DAY_2025_01_01)
           (datetime_at DAY_2025_01_01 20 10 0) (datetime_at DAY_2025_01_01 20 20 0)
           (datetime_at DAY_2025_01_01 9 30 0) (datetime_at DAY_2025_01_01 10 0 0)).
  - reflexivity.
  - vm_compute. discriminate.
  - vm_compute. reflexivity.
  - vm_compute. reflexivity.
Defined.

(** C1.  The mapper does not always return
    virt_base + (real_now - real_base) * speed + virt_adjust truncated to
    whole seconds, as its docstring says.  With the real base 95 years
    before now (1930-01-01T00:00:00 against 2025-01-24T05:20:00.333333),
    virtual base 2000-01-01, speed 3 and no adjustment, the float product
    of line 95 is 9000000001.000000 s where the exact product, which line
    307 computes as [timedelta * int], is 9000000000.999999 s: the mapper
    returns 2285-03-13T16:00:01 where the formula gives 16:00:00.999999,
    truncated 16:00:00. *)
Theorem compute_virtual_formula_fails :
  compute_virtual (old_base_session 0) (late_now 333333)
  = Returns (datetime_at DAY_2285_03_13 16 0 1)
  /\ truncate_seconds (spec_virtual_now (old_base_session 0) (late_now 333333))
     = wall (datetime_at DAY_2285_03_13 16 0 0)
  /\ scaled_elapsed (dt_sub (late_now 333333) (real_base (old_base_session 0)))
       (speed (old_base_session 0)) = Returns 9000000001000000
  /\ td_mul_int (dt_sub (late_now 333333) (real_base (old_base_session 0)))
       (speed (old_base_session 0)) = Returns 9000000000999999.
Proof. repeat split; vm_compute; reflexivity. Qed.

(** Inside the range where the scaled elapsed time is exact, the mapper
    after the reset-adjustment action returns
    virt_base + (now - real_base) * speed truncated to whole seconds. *)
Theorem reset_adjust_restores_formula (st : session) (real_now : datetime) :
  valid_datetime real_now -> valid_datetime (real_base st) ->
  Z.abs (speed st) < 2 ^ 53 ->
  Z.abs (dt_sub real_now (real_base st) * speed st) <= EXACT_BOUND ->
  0 <= wall (virt_base st) + dt_sub real_now (real_base st) * speed st < MAX_WALL ->
  virt_adjust (reset_adjust st) = 0
  /\ compute_virtual (reset_adjust st) real_now
     = Returns {| wall := truncate_seconds
                            (wall (virt_base st)
                             + (wall real_now - wall (real_base st)) * speed st);
                  fold := false |}.
Proof.
  intros Vn Vr Hs Hb R1. split; [reflexivity|].
  rewrite (compute_virtual_exact (reset_adjust st) real_now); try assumption.
  - unfold spec_virtual_now, reset_adjust. cbn [virt_base real_base speed virt_adjust set_virt_adjust].
    rewrite Z.add_0_r. reflexivity.
  - unfold spec_virtual_now, reset_adjust. cbn [virt_base real_base speed virt_adjust set_virt_adjust].
    rewrite Z.add_0_r. exact R1.
Qed.

Lemma reset_adjust_restores_formula_witness :
  virt_adjust (reset_adjust (old_base_session 7000000)) = 0
  /\ compute_virtual (reset_adjust (old_base_session 7000000))
       (datetime_at DAY_1930_01_01 0 0 5)
     = Returns (datetime_at DAY_2000_01_01 0 0 15).
Proof.
  apply (reset_adjust_restores_formula (old_base_session 7000000)
           (datetime_at DAY_1930_01_01 0 0 5));
    vm_compute; repeat split; (reflexivity || discriminate).
Defined.

(** C7.  After the reset-adjustment action the mapper does not always
    return the unadjusted formula.  Real base 1930-01-01, virtual base
    2000-01-01, speed 3 and an adjustment of seven seconds: the action sets
    the adjustment to zero, and the mapper at 2025-01-24T05:20:00.333333
    returns 2285-03-13T16:00:01, one second more than
    virt_base + (now - real_base) * speed truncated, which is 16:00:00.
    The float product of line 95 is one microsecond above the exact
    product. *)
Theorem reset_adjust_formula_fails :
  virt_adjust (reset_adjust (old_base_session 7000000)) = 0
  /\ compute_virtual (reset_adjust (old_base_session 7000000)) (late_now 333333)
     = Returns (datetime_at DAY_2285_03_13 16 0 1)
  /\ truncate_seconds
       (wall (virt_base (old_base_session 7000000))
        + (wall (late_now 333333) - wall (real_base (old_base_session 7000000)))
          * speed (old_base_session 7000000))
     = wall (datetime_at DAY_2285_03_13 16 0 0).
Proof. repeat split; vm_compute; reflexivity. Qed.

(** C8.  With real base 20:00 and virtual base 09:00 of the same day,
    speed 3 and no adjustment, the mapper evaluated at 20:10 of that day
    returns 09:30 of that day. *)
Theorem compute_virtual_example (st : session) (real_now : datetime) (day : Z) :
  0 <= day < MAXORDINAL ->
  wall (real_base st) = wall (datetime_at day 20 0 0) ->
  wall (virt_base st) = wall (datetime_at day 9 0 0) ->
  speed st = 3 -> virt_adjust st = 0 ->
  wall real_now = wall (datetime_at day 20 10 0) ->
  compute_virtual st real_now = Returns (datetime_at day 9 30 0).
Proof.
  intros Hd Hr Hv Hs Ha Hn. unfold compute_virtual.
  assert (E : dt_sub real_now (real_base st) = 600000000).
  { unfold dt_sub. rewrite Hn, Hr. unfold datetime_at, hms_us, US_PER_SECOND.
    cbn [wall h m s]. lia. }
  rewrite E, Hs, Ha.
  assert (X : scaled_elapsed 600000000 3 = Returns 1800000000) by (vm_compute; reflexivity).
  rewrite X. cbn [bind].
  assert (W : wall (virt_base st) + 1800000000 = wall (datetime_at day 9 30 0)).
  { rewrite Hv. unfold datetime_at, hms_us, US_PER_SECOND. cbn [wall h m s]. ring. }
  assert (R : 0 <= wall (datetime_at day 9 30 0) < MAX_WALL).
  { unfold datetime_at, hms_us, MAX_WALL, MAXORDINAL, US_PER_DAY, US_PER_SECOND in *.
    cbn [wall h m s]. lia. }
  rewrite dt_add_ok by (rewrite W; exact R). cbn [bind].
  rewrite dt_add_ok by (cbn [wall]; rewrite Z.add_0_r, W; exact R). cbn [bind].
  unfold replace_microsecond0. cbn [wall fold]. rewrite Z.add_0_r, W.
  unfold datetime_at. f_equal. f_equal. cbn [wall].
  assert (M : (day * US_PER_DAY + hms_us {| h := 9; m := 30; s := 0 |}) mod US_PER_SECOND = 0).
  { unfold hms_us, US_PER_DAY. cbn [h m s].
    replace (day * (86400 * US_PER_SECOND) + ((9 * 60 + 30) * 60 + 0) * US_PER_SECOND)
      with ((day * 86400 + 34200) * US_PER_SECOND) by ring.
    apply Z.mod_mul. unfold US_PER_SECOND. lia. }
  rewrite M. ring.
Qed.

Lemma compute_virtual_example_witness :
  compute_virtual (default_session DAY_2025_01_01) (datetime_at DAY_2025_01_01 20 10 0)
  = Returns (datetime_at DAY_2025_01_01 9 30 0).
Proof.
  apply (compute_virtual_example (default_session DAY_2025_01_01)
           (datetime_at DAY_2025_01_01 20 10 0) DAY_2025_01_01);
    vm_compute; repeat split; (reflexivity || discriminate).
Defined.

(** Inside the range where the scaled elapsed time is exact, the
    set-to-target action at real time nowx sets
    virt_adjust = target - (virt_base + (nowx - real_base) * speed), and
    the mapper at the same nowx returns the target truncated to whole
    seconds. *)
Theorem set_to_target_hits_target (st : session) (target nowx : datetime) :
  valid_datetime target -> valid_datetime nowx -> valid_datetime (real_base st) ->
  Z.abs (speed st) < 2 ^ 53 ->
  Z.abs (dt_sub nowx (real_base st) * speed st) <= EXACT_BOUND ->
  0 <= wall (virt_base st) + dt_sub nowx (real_base st) * speed st < MAX_WALL ->
  exists st',
    set_to_target target nowx st = Returns st'
    /\ virt_adjust st'
       = wall target - (wall (virt_base st) + (wall nowx - wall (real_base st)) * speed st)
    /\ compute_virtual st' nowx
       = Returns {| wall := truncate_seconds (wall target); fold := false |}.
Proof.
  intros Vt Vn Vr Hs Hb R1.
  assert (B : EXACT_BOUND <= TD_MAX /\ TD_MIN <= - EXACT_BOUND)
    by (vm_compute; split; discriminate).
  unfold set_to_target, td_mul_int.
  rewrite microseconds_to_delta_ok by lia. cbn [bind].
  rewrite dt_add_ok by exact R1. cbn [bind].
  eexists. split; [reflexivity|]. split; [reflexivity|].
  set (st' := set_virt_adjust _ st).
  assert (S : spec_virtual_now st' nowx = wall target).
  { unfold spec_virtual_now, st', dt_sub.
    cbn [virt_base real_base speed virt_adjust set_virt_adjust wall]. lia. }
  rewrite (compute_virtual_exact st' nowx); try assumption.
  - rewrite S. reflexivity.
  - rewrite S. exact Vt.
Qed.

Lemma set_to_target_hits_target_witness :
  exists st',
    set_to_target (datetime_at DAY_2025_01_01 12 0 0) (datetime_at DAY_2025_01_01 21 0 0)
      (default_session DAY_2025_01_01) = Returns st'
    /\ virt_adjust st' = 0
    /\ compute_virtual st' (datetime_at DAY_2025_01_01 21 0 0)
       = Returns (datetime_at DAY_2025_01_01 12 0 0).
Proof.
  apply (set_to_target_hits_target (default_session DAY_2025_01_01)
           (datetime_at DAY_2025_01_01 12 0 0) (datetime_at DAY_2025_01_01 21 0 0));
    vm_compute; repeat split; (reflexivity || discriminate).
Defined.

(** C10.  The set-to-target action does not always make the mapper show
    the target.  Real base 1930-01-01, virtual base 2000-01-01, speed 3,
    now 2025-01-24T05:20:00.000003 and target 2300-01-01T12:00:00: the
    action stores target - (virt_base + (nowx - real_base) * speed) with
    the exact product 9000000000.000009 s of line 307, the float product
    of line 95 is 9000000000.000008 s, and the mapper at the same nowx
    returns 2300-01-01T11:59:59. *)
Theorem set_to_target_misses_target :
  exists st',
    set_to_target (datetime_at DAY_2300_01_01 12 0 0) (late_now 3) (old_base_session 0)
    = Returns st'
    /\ virt_adjust st'
       = wall (datetime_at DAY_2300_01_01 12 0 0)
         - (wall (virt_base (old_base_session 0))
            + (wall (late_now 3) - wall (real_base (old_base_session 0)))
              * speed (old_base_session 0))
    /\ compute_virtual st' (late_now 3) = Returns (datetime_at DAY_2300_01_01 11 59 59)
    /\ truncate_seconds (wall (datetime_at DAY_2300_01_01 12 0 0))
       = wall (datetime_at DAY_2300_01_01 12 0 0)
    /\ td_mul_int (dt_sub (late_now 3) (real_base (old_base_session 0)))
         (speed (old_base_session 0)) = Returns 9000000000000009
    /\ scaled_elapsed (dt_sub (late_now 3) (real_base (old_base_session 0)))
         (speed (old_base_session 0)) = Returns 9000000000000008.
Proof.
  eexists. split; [vm_compute; reflexivity|].
  repeat split; vm_compute; reflexivity.
Qed.

(** C9 (amended).  For every timestamp not earlier than
    0001-01-01T20:00:00, [get_default_real_base] returns a timestamp whose
    time of day is exactly 20:00:00, which is not later than now and less
    than a day before it (today's 20:00, or yesterday's when now is earlier
    than today's 20:00); [get_default_virt_base] of the result has the same
    date and the time of day exactly 09:00:00. *)
Theorem default_bases (now : datetime) :
  valid_datetime now -> hms_us REAL_BASE_HMS <= wall now ->
  exists base,
    get_default_real_base now = Returns base
    /\ time_of_day base = hms_us REAL_BASE_HMS
    /\ wall base <= wall now < wall base + US_PER_DAY
    /\ date_of base
       = (if time_of_day now <? hms_us REAL_BASE_HMS then date_of now - 1 else date_of now)
    /\ date_of (get_default_virt_base base) = date_of base
    /\ time_of_day (get_default_virt_base base) = hms_us VIRT_BASE_HMS.
Proof.
  intros [V0 V1] H20.
  unfold get_default_real_base, get_default_virt_base, replace_hms, dt_ltb, date_of,
    time_of_day, dt_sub_td, dt_add.
  cbn [wall fold].
  change (hms_us REAL_BASE_HMS) with 72000000000 in *.
  change (hms_us VIRT_BASE_HMS) with 32400000000.
  change (td_days 1) with (Returns US_PER_DAY).
  unfold MAX_WALL, MAXORDINAL in *.
  change US_PER_DAY with 86400000000 in *.
  pose proof (Z.div_mod (wall now) 86400000000 ltac:(lia)) as E.
  pose proof (Z.mod_pos_bound (wall now) 86400000000 ltac:(lia)) as B.
  set (D := wall now / 86400000000) in *.
  set (r := wall now mod 86400000000) in *.
  assert (Q : forall d t, 0 <= t < 86400000000 ->
                (d * 86400000000 + t) / 86400000000 = d
                /\ (d * 86400000000 + t) mod 86400000000 = t).
  { intros d t Ht. split.
    - symmetry. apply Z.div_unique with (r := t); lia.
    - symmetry. apply Z.mod_unique with (q := d); lia. }
  destruct (Z.ltb_spec (wall now) (D * 86400000000 + 72000000000)) as [L|L].
  - cbn [bind].
    rewrite wall_in_range_true by (unfold MAX_WALL, MAXORDINAL, US_PER_DAY, US_PER_SECOND; lia).
    eexists. split; [reflexivity|]. cbn [wall fold].
    replace (D * 86400000000 + 72000000000 + Z.opp 86400000000)
      with ((D - 1) * 86400000000 + 72000000000) by ring.
    destruct (Q (D - 1) 72000000000 ltac:(lia)) as [Q1 Q2].
    rewrite Q1, Q2.
    destruct (Q (D - 1) 32400000000 ltac:(lia)) as [Q3 Q4].
    rewrite Q3, Q4.
    destruct (Z.ltb_spec r 72000000000); repeat split; lia.
  - eexists. split; [reflexivity|]. cbn [wall fold].
    destruct (Q D 72000000000 ltac:(lia)) as [Q1 Q2].
    rewrite Q1, Q2.
    destruct (Q D 32400000000 ltac:(lia)) as [Q3 Q4].
    rewrite Q3, Q4.
    destruct (Z.ltb_spec r 72000000000); repeat split; lia.
Qed.

Lemma default_bases_witness :
  exists base,
    get_default_real_base (datetime_at DAY_2025_01_01 8 15 0) = Returns base
    /\ time_of_day base = hms_us REAL_BASE_HMS
    /\ wall base <= wall (datetime_at DAY_2025_01_01 8 15 0) < wall base + US_PER_DAY
    /\ date_of base
       = (if time_of_day (datetime_at DAY_2025_01_01 8 15 0) <? hms_us REAL_BASE_HMS
          then date_of (datetime_at DAY_2025_01_01 8 15 0) - 1
          else date_of (datetime_at DAY_2025_01_01 8 15 0))
    /\ date_of (get_default_virt_base base) = date_of base
    /\ time_of_day (get_default_virt_base base) = hms_us VIRT_BASE_HMS.
Proof.
  apply (default_bases (datetime_at DAY_2025_01_01 8 15 0));
    vm_compute; repeat split; (reflexivity || discriminate).
Defined.

(** At 10:00 of the first day of the calendar there is no yesterday: the
    subtraction of one day raises. *)
Lemma default_real_base_first_day :
  valid_datetime (datetime_at 0 10 0 0)
  /\ get_default_real_base (datetime_at 0 10 0 0) = Raises OverflowError.
Proof.
  split; [vm_compute; split; [discriminate|reflexivity]|vm_compute; reflexivity].
Qed.

(** ** The shared record *)

Lemma valid_timedelta_bound (td : timedelta) : valid_timedelta td -> Z.abs td <= 2 ^ 70.
Proof.
  unfold valid_timedelta. intros H.
  assert (E : TD_MAX <= 2 ^ 70 /\ - 2 ^ 70 <= TD_MIN) by (vm_compute; split; discriminate).
  lia.
Qed.

Lemma int_of_total_seconds_defined (td : timedelta) :
  valid_timedelta td -> exists n, int_of_float (total_seconds td) = Returns n.
Proof.
  intros H. rewrite total_seconds_finite by (apply valid_timedelta_bound; exact H).
  eexists. reflexivity.
Qed.

Lemma int_of_total_seconds_whole (td : timedelta) :
  valid_timedelta td -> td mod US_PER_SECOND = 0 ->
  int_of_float (total_seconds td) = Returns (td / US_PER_SECOND).
Proof.
  intros V W. pose proof UNIT_pos as PU.
  rewrite total_seconds_finite by (apply valid_timedelta_bound; exact V).
  assert (PS : 0 < US_PER_SECOND) by reflexivity.
  pose proof (Z.div_mod td US_PER_SECOND ltac:(lia)) as E. rewrite W, Z.add_0_r in E.
  set (c := td / US_PER_SECOND) in *.
  replace (td * UNIT) with (US_PER_SECOND * (c * 2 ^ 1074)) by (rewrite E; unfold UNIT; ring).
  assert (B : Z.abs c < 2 ^ 53).
  { unfold valid_timedelta in V.
    assert (TD_MAX < US_PER_SECOND * 2 ^ 53 /\ - (US_PER_SECOND * 2 ^ 53) < TD_MIN)
      by (vm_compute; split; reflexivity).
    nia. }
  rewrite round_ne_exact by lia.
  change (2 ^ 1074) with UNIT. cbn [int_of_float].
  rewrite Z.quot_mul by lia. reflexivity.
Qed.

Lemma from_iso_to_iso (tz : tzinfo) (dt : datetime) :
  valid_datetime dt -> survives_utc tz dt -> from_iso tz (to_iso tz dt) = Returns dt.
Proof.
  intros V [R F]. destruct dt as [w f]. cbn [wall fold] in *.
  unfold from_iso, to_iso, isoformat, fromisoformat. cbn [wall fold].
  rewrite wall_in_range_true by exact V.
  pose proof (utcoffset_range tz w f) as O. apply Z.ltb_lt in O. rewrite O.
  cbn [andb bind snd fst].
  unfold astimezone_from_offset, dt_sub_td.
  rewrite dt_add_ok by (cbn [wall]; lia). cbn [bind].
  unfold zone_fromutc. cbn [wall].
  replace (w + - utcoffset tz w f) with (w - utcoffset tz w f) by ring.
  rewrite F.
  rewrite dt_add_ok by (cbn [wall]; unfold valid_datetime in V; cbn [wall] in V; lia).
  cbn [bind wall]. f_equal. f_equal. ring.
Qed.

Lemma kst_survives_utc (dt : datetime) :
  9 * 3600 * US_PER_SECOND <= wall dt < MAX_WALL -> fold dt = false ->
  survives_utc KST dt.
Proof.
  intros R F. unfold survives_utc, KST. cbn [utcoffset fromutc]. rewrite F.
  unfold US_PER_SECOND in *. split; [lia|reflexivity].
Qed.

(** C6.  [load_remote_state] never raises, and returns None when the
    client is missing or the query raises; [save_remote_state] never
    raises, never changes the configuration fields, and when the write
    fails it leaves the whole session, [last_saved_at] included, as it
    was.  The adjustment is a value of the timedelta type. *)
Theorem store_errors_degrade (SEOUL : tzinfo) (client : bool)
    (resp : outcome (option (list row))) (stamp : string)
    (upsert : row -> outcome unit) (st : session) :
  valid_timedelta (virt_adjust st) ->
  (exists r, load_remote_state client resp = Returns r
             /\ (client = false \/ (exists e, resp = Raises e) -> r = None))
  /\ (exists st', save_remote_state SEOUL client stamp upsert st = Returns st'
                  /\ real_base st' = real_base st /\ virt_base st' = virt_base st
                  /\ virt_adjust st' = virt_adjust st /\ speed st' = speed st
                  /\ ((forall p, save_payload SEOUL st stamp = Returns p ->
                                 exists e, upsert p = Raises e)
                      -> st' = st)).
Proof.
  intros V. split.
  - unfold load_remote_state, try_except.
    destruct client; cbn [negb].
    + destruct resp as [data|e]; cbn [bind].
      * eexists. split; [reflexivity|].
        intros [C|[e C]]; discriminate.
      * exists None. split; [reflexivity|reflexivity].
    + exists None. split; reflexivity.
  - unfold save_remote_state, save_payload.
    destruct (int_of_total_seconds_defined _ V) as [n E]. rewrite E.
    destruct client; cbn [negb bind]; [|exists st; repeat split; reflexivity].
    unfold try_except.
    match goal with |- context [upsert ?p] => set (payload := p) end.
    destruct (upsert payload) as [u|e] eqn:U; cbn [bind].
    + eexists. split; [reflexivity|]. repeat split.
      intros F. destruct (F payload eq_refl) as [e C]. congruence.
    + exists st. repeat split; reflexivity.
Qed.

Lemma assign_base_column (tz : tzinfo) (f : field iso_text)
    (set : datetime -> session -> session) (cur v : datetime) (st : session) :
  column_gives tz f cur v ->
  when (truthy (get f)) (assign set (x <- subscript f ;; from_iso_value tz x)) st
  = (if truthy (get f) then set v st else st, None).
Proof.
  unfold column_gives, when. destruct (truthy (get f)) eqn:T.
  - intros [t [-> E]]. unfold assign. cbn [subscript bind from_iso_value].
    rewrite E. reflexivity.
  - intros _. reflexivity.
Qed.

Lemma apply_remote_state_success (tz : tzinfo) (r : row) (st : session)
    (rb vb : datetime) (n : Z) (adj : timedelta) (sp : Z) :
  column_gives tz (row_real_base_iso r) (real_base st) rb ->
  column_gives tz (row_virt_base_iso r) (virt_base st) vb ->
  get_default (row_virt_adjust_sec r) 0 = Some n ->
  td_seconds_int n = Returns adj ->
  get_default (row_speed r) DEFAULT_SPEED = Some sp ->
  apply_remote_state tz r st
  = {| real_base := rb; virt_base := vb;
       real_base_init := real_base_init st; virt_base_init := virt_base_init st;
       virt_adjust := adj; speed := sp;
       last_loaded_at := get (row_updated_at r); last_saved_at := last_saved_at st |}.
Proof.
  intros C1 C2 A T S.
  unfold apply_remote_state, try_except_pass, apply_remote_state_body, seq.
  rewrite (assign_base_column tz _ set_real_base _ rb st C1).
  set (st1 := if truthy (get (row_real_base_iso r)) then set_real_base rb st else st).
  assert (V1 : virt_base st1 = virt_base st)
    by (unfold st1; destruct (truthy _); reflexivity).
  rewrite <- V1 in C2.
  rewrite (assign_base_column tz _ set_virt_base _ vb st1 C2).
  rewrite A. cbn [py_int bind]. rewrite T. cbn [assign].
  rewrite S. cbn [py_int fst].
  unfold st1, column_gives in *.
  destruct (truthy (get (row_real_base_iso r)));
    destruct (truthy (get (row_virt_base_iso r)));
    subst; destruct st; reflexivity.
Qed.

Lemma td_seconds_int_whole (td : timedelta) :
  valid_timedelta td -> td mod US_PER_SECOND = 0 ->
  td_seconds_int (td / US_PER_SECOND) = Returns td.
Proof.
  intros V W. unfold td_seconds_int.
  assert (PS : 0 < US_PER_SECOND) by reflexivity.
  pose proof (Z.div_mod td US_PER_SECOND ltac:(lia)) as E. rewrite W, Z.add_0_r in E.
  rewrite Z.mul_comm, <- E. apply microseconds_to_delta_ok. exact V.
Qed.

(** C2 (amended).  Saving a configuration and applying the saved record
    (in any session) reproduces real_base, virt_base, virt_adjust and
    speed, provided the adjustment is a whole number of seconds and both
    bases survive the conversion to UTC and back in the zone. *)
Theorem save_then_load_roundtrip (SEOUL : tzinfo) (st other : session) (stamp : string) :
  valid_datetime (real_base st) -> valid_datetime (virt_base st) ->
  valid_timedelta (virt_adjust st) ->
  survives_utc SEOUL (real_base st) -> survives_utc SEOUL (virt_base st) ->
  virt_adjust st mod US_PER_SECOND = 0 ->
  exists payload,
    save_payload SEOUL st stamp = Returns payload
    /\ real_base (apply_remote_state SEOUL payload other) = real_base st
    /\ virt_base (apply_remote_state SEOUL payload other) = virt_base st
    /\ virt_adjust (apply_remote_state SEOUL payload other) = virt_adjust st
    /\ speed (apply_remote_state SEOUL payload other) = speed st.
Proof.
  intros Vr Vv Va Sr Sv W.
  unfold save_payload. rewrite int_of_total_seconds_whole by assumption.
  cbn [bind]. eexists. split; [reflexivity|].
  erewrite apply_remote_state_success.
  - cbn [real_base virt_base virt_adjust speed]. repeat split; reflexivity.
  - unfold column_gives. cbn [row_real_base_iso get truthy to_iso isoformat].
    eexists. split; [reflexivity|]. apply (from_iso_to_iso SEOUL); assumption.
  - unfold column_gives. cbn [row_virt_base_iso get truthy to_iso isoformat].
    eexists. split; [reflexivity|]. apply (from_iso_to_iso SEOUL); assumption.
  - reflexivity.
  - cbn [row_virt_adjust_sec]. apply td_seconds_int_whole; assumption.
  - reflexivity.
Qed.

Lemma save_then_load_roundtrip_witness :
  exists payload,
    save_payload KST (default_session DAY_2025_01_01) "2025-01-01T21:00:00+09:00"
    = Returns payload
    /\ real_base (apply_remote_state KST payload (default_session DAY_2025_01_24))
       = real_base (default_session DAY_2025_01_01)
    /\ virt_base (apply_remote_state KST payload (default_session DAY_2025_01_24))
       = virt_base (default_session DAY_2025_01_01)
    /\ virt_adjust (apply_remote_state KST payload (default_session DAY_2025_01_24))
       = virt_adjust (default_session DAY_2025_01_01)
    /\ speed (apply_remote_state KST payload (default_session DAY_2025_01_24))
       = speed (default_session DAY_2025_01_01).
Proof.
  apply (save_then_load_roundtrip KST (default_session DAY_2025_01_01)
           (default_session DAY_2025_01_24) "2025-01-01T21:00:00+09:00");
    vm_compute; repeat split; (reflexivity || discriminate).
Defined.

(** An adjustment of one and a half seconds is saved as 1 and loaded as
    one second. *)
Lemma save_then_load_drops_fraction :
  exists payload,
    save_payload KST (set_virt_adjust 1500000 (default_session DAY_2025_01_01))
      "2025-01-01T21:00:00+09:00" = Returns payload
    /\ row_virt_adjust_sec payload = Value 1
    /\ virt_adjust
         (apply_remote_state KST payload
            (set_virt_adjust 1500000 (default_session DAY_2025_01_01)))
       = 1000000.
Proof.
  eexists. split; [vm_compute; reflexivity|]. split; vm_compute; reflexivity.
Qed.

(** C5 (amended).  On the pull of a run, a row whose [updated_at] equals
    [last_loaded_at] leaves the session unchanged, whatever its columns
    hold.  A row whose [updated_at] differs is applied: each base is
    overwritten with the converted column when the column holds a
    non-empty text and kept when the column is missing, null or empty; the
    adjustment and the speed are overwritten with the integer columns (0
    and 3 when the key is missing) and [last_loaded_at] becomes the row's
    [updated_at], provided every column present converts.  The load of the
    initialisation applies the row it finds in the same way to the default
    session, without comparing [updated_at]. *)
Theorem remote_pull_overwrites (SEOUL : tzinfo) (env : environment) (r : row)
    (rest : list row) :
  supabase env = true ->
  select_response env = Returns (Some (r :: rest)) ->
  (forall st,
     opt_string_eqb (get (row_updated_at r)) (last_loaded_at st) = true ->
     remote_pull SEOUL env st = Returns st)
  /\ (forall st rb vb n adj sp,
        row_truthy r = true ->
        opt_string_eqb (get (row_updated_at r)) (last_loaded_at st) = false ->
        column_gives SEOUL (row_real_base_iso r) (real_base st) rb ->
        column_gives SEOUL (row_virt_base_iso r) (virt_base st) vb ->
        get_default (row_virt_adjust_sec r) 0 = Some n ->
        td_seconds_int n = Returns adj ->
        get_default (row_speed r) DEFAULT_SPEED = Some sp ->
        remote_pull SEOUL env st
        = Returns {| real_base := rb; virt_base := vb;
                     real_base_init := real_base_init st;
                     virt_base_init := virt_base_init st;
                     virt_adjust := adj; speed := sp;
                     last_loaded_at := get (row_updated_at r);
                     last_saved_at := last_saved_at st |})
  /\ (forall now0 st0 rb vb n adj sp,
        initial_session now0 = Returns st0 ->
        column_gives SEOUL (row_real_base_iso r) (real_base st0) rb ->
        column_gives SEOUL (row_virt_base_iso r) (virt_base st0) vb ->
        get_default (row_virt_adjust_sec r) 0 = Some n ->
        td_seconds_int n = Returns adj ->
        get_default (row_speed r) DEFAULT_SPEED = Some sp ->
        initialize SEOUL env now0
        = Returns {| real_base := rb; virt_base := vb;
                     real_base_init := real_base st0;
                     virt_base_init := virt_base st0;
                     virt_adjust := adj; speed := sp;
                     last_loaded_at := get (row_updated_at r);
                     last_saved_at := None |}).
Proof.
  intros C Q.
  assert (L : load env = Returns (Some r)).
  { unfold load, load_remote_state, try_except. rewrite C, Q. reflexivity. }
  split; [|split].
  - intros st E. unfold remote_pull. rewrite C, L. cbn [bind]. rewrite E.
    cbn [negb]. rewrite Bool.andb_false_r. reflexivity.
  - intros st rb vb n adj sp T E G1 G2 A D S.
    unfold remote_pull. rewrite C, L. cbn [bind]. rewrite T, E. cbn [andb negb].
    rewrite (apply_remote_state_success SEOUL r st rb vb n adj sp); try assumption.
    reflexivity.
  - intros now0 st0 rb vb n adj sp I G1 G2 A D S.
    unfold initialize. rewrite I. cbn [bind]. rewrite L. cbn [bind].
    rewrite (apply_remote_state_success SEOUL r st0 rb vb n adj sp); try assumption.
    unfold initial_session in I.
    destruct (get_default_real_base now0) as [b|e]; cbn [bind] in I; [|discriminate].
    injection I as <-. reflexivity.
Qed.

Lemma remote_pull_overwrites_witness :
  (forall st,
     opt_string_eqb (get (row_updated_at (seed_row "2025-01-01T00:00:00+00:00")))
       (last_loaded_at st) = true ->
     remote_pull KST (serving [seed_row "2025-01-01T00:00:00+00:00"] "") st = Returns st)
  /\ (forall st rb vb n adj sp,
        row_truthy (seed_row "2025-01-01T00:00:00+00:00") = true ->
        opt_string_eqb (get (row_updated_at (seed_row "2025-01-01T00:00:00+00:00")))
          (last_loaded_at st) = false ->
        column_gives KST (row_real_base_iso (seed_row "2025-01-01T00:00:00+00:00"))
          (real_base st) rb ->
        column_gives KST (row_virt_base_iso (seed_row "2025-01-01T00:00:00+00:00"))
          (virt_base st) vb ->
        get_default (row_virt_adjust_sec (seed_row "2025-01-01T00:00:00+00:00")) 0 = Some n ->
        td_seconds_int n = Returns adj ->
        get_default (row_speed (seed_row "2025-01-01T00:00:00+00:00")) DEFAULT_SPEED
        = Some sp ->
        remote_pull KST (serving [seed_row "2025-01-01T00:00:00+00:00"] "") st
        = Returns {| real_base := rb; virt_base := vb;
                     real_base_init := real_base_init st;
                     virt_base_init := virt_base_init st;
                     virt_adjust := adj; speed := sp;
                     last_loaded_at :=
                       get (row_updated_at (seed_row "2025-01-01T00:00:00+00:00"));
                     last_saved_at := last_saved_at st |})
  /\ (forall now0 st0 rb vb n adj sp,
        initial_session now0 = Returns st0 ->
        column_gives KST (row_real_base_iso (seed_row "2025-01-01T00:00:00+00:00"))
          (real_base st0) rb ->
        column_gives KST (row_virt_base_iso (seed_row "2025-01-01T00:00:00+00:00"))
          (virt_base st0) vb ->
        get_default (row_virt_adjust_sec (seed_row "2025-01-01T00:00:00+00:00")) 0 = Some n ->
        td_seconds_int n = Returns adj ->
        get_default (row_speed (seed_row "2025-01-01T00:00:00+00:00")) DEFAULT_SPEED
        = Some sp ->
        initialize KST (serving [seed_row "2025-01-01T00:00:00+00:00"] "") now0
        = Returns {| real_base := rb; virt_base := vb;
                     real_base_init := real_base st0;
                     virt_base_init := virt_base st0;
                     virt_adjust := adj; speed := sp;
                     last_loaded_at :=
                       get (row_updated_at (seed_row "2025-01-01T00:00:00+00:00"));
                     last_saved_at := None |}).
Proof.
  apply (remote_pull_overwrites KST (serving [seed_row "2025-01-01T00:00:00+00:00"] "")
           (seed_row "2025-01-01T00:00:00+00:00") []); reflexivity.
Defined.

(** Three inputs on which the claim as it stands fails.  A row whose
    virtual base is not ISO text: the real base is taken, then the
    conversion raises and the adjustment, the speed and [last_loaded_at]
    keep their local values.  The seed row, whose bases are null: both bases
    keep their local values.  A row with a null [updated_at] met by the
    load of the initialisation: the token of the new session is [None] as
    well, and the row is applied all the same. *)
Lemma remote_pull_keeps_local_fields :
  (exists st',
     remote_pull KST (serving [unreadable_row "2025-01-24T12:00:00+00:00"] "")
       (default_session DAY_2025_01_01) = Returns st'
     /\ real_base st' = datetime_at DAY_2025_01_24 20 0 0
     /\ virt_base st' = datetime_at DAY_2025_01_01 9 0 0
     /\ virt_adjust st' = 0 /\ speed st' = 3 /\ last_loaded_at st' = None)
  /\ (exists st',
        remote_pull KST (serving [seed_row "2025-01-24T12:00:00+00:00"] "")
          (default_session DAY_2025_01_01) = Returns st'
        /\ real_base st' = datetime_at DAY_2025_01_01 20 0 0
        /\ virt_base st' = datetime_at DAY_2025_01_01 9 0 0
        /\ last_loaded_at st' = Some "2025-01-24T12:00:00+00:00"%string)
  /\ (initial_session (datetime_at DAY_2025_01_01 21 0 0)
      = Returns (default_session DAY_2025_01_01)
      /\ opt_string_eqb (get (row_updated_at unstamped_row))
           (last_loaded_at (default_session DAY_2025_01_01)) = true
      /\ exists st',
           initialize KST (serving [unstamped_row] "") (datetime_at DAY_2025_01_01 21 0 0)
           = Returns st'
           /\ virt_adjust st' = 60 * US_PER_SECOND /\ speed st' = 6
           /\ st' <> default_session DAY_2025_01_01).
Proof.
  split; [|split].
  - eexists. split; [vm_compute; reflexivity|]. repeat split; vm_compute; reflexivity.
  - eexists. split; [vm_compute; reflexivity|]. repeat split; vm_compute; reflexivity.
  - split; [vm_compute; reflexivity|]. split; [reflexivity|].
    eexists. split; [vm_compute; reflexivity|].
    split; [vm_compute; reflexivity|]. split; [reflexivity|]. discriminate.
Qed.

Lemma store_errors_degrade_witness :
  (exists r, load_remote_state true (Raises APIError) = Returns r
             /\ (true = false \/ (exists e, @Raises (option (list row)) APIError = Raises e)
                 -> r = None))
  /\ (exists st',
        save_remote_state KST true "2025-01-01T21:00:00+09:00" (fun _ => Raises APIError)
          (default_session DAY_2025_01_01) = Returns st'
        /\ real_base st' = real_base (default_session DAY_2025_01_01)
        /\ virt_base st' = virt_base (default_session DAY_2025_01_01)
        /\ virt_adjust st' = virt_adjust (default_session DAY_2025_01_01)
        /\ speed st' = speed (default_session DAY_2025_01_01)
        /\ ((forall p, save_payload KST (default_session DAY_2025_01_01)
                         "2025-01-01T21:00:00+09:00" = Returns p ->
                       exists e, (fun _ : row => @Raises unit APIError) p = Raises e)
            -> st' = default_session DAY_2025_01_01)).
Proof.
  apply (store_errors_degrade KST true (Raises APIError) "2025-01-01T21:00:00+09:00"
           (fun _ => Raises APIError) (default_session DAY_2025_01_01)).
  vm_compute. split; discriminate.
Defined.

(** ** The speed invariant *)

Lemma assign_keeps_speed {A : Type} (set : A -> session -> session) (e : outcome A)
    (st : session) :
  (forall v, speed (set v st) = speed st) -> speed_ok st -> speed_ok (fst (assign set e st)).
Proof.
  intros K H. unfold assign, speed_ok. destruct e; cbn [fst]; [rewrite K|]; exact H.
Qed.

Lemma seq_keeps (P : session -> Prop) (a b : stmt) (st : session) :
  (forall x, P x -> P (fst (a x))) -> (forall x, P x -> P (fst (b x))) ->
  P st -> P (fst (seq a b st)).
Proof.
  intros Ha Hb H. unfold seq. specialize (Ha st H).
  destruct (a st) as [st1 [e|]]; cbn [fst] in *; [exact Ha|apply Hb; exact Ha].
Qed.

Lemma apply_remote_state_keeps_speed (tz : tzinfo) (r : row) (st : session) :
  row_speed_ok r -> speed_ok st -> speed_ok (apply_remote_state tz r st).
Proof.
  intros R H. unfold apply_remote_state, try_except_pass, apply_remote_state_body.
  assert (W : forall f set x,
             (forall v y, speed (set v y) = speed y) -> speed_ok x ->
             speed_ok (fst (when (truthy (get f))
                              (assign set (v <- subscript f ;; from_iso_value tz v)) x))).
  { intros f set x K Hx. unfold when. destruct (truthy _); [|exact Hx].
    apply assign_keeps_speed; [intros v; apply K|exact Hx]. }
  apply seq_keeps; [intros x Hx; apply W; [reflexivity|exact Hx]| |exact H].
  intros x1 H1. apply seq_keeps; [intros x Hx; apply W; [reflexivity|exact Hx]| |exact H1].
  intros x2 H2. apply seq_keeps;
    [intros x Hx; apply assign_keeps_speed; [reflexivity|exact Hx]| |exact H2].
  intros x3 H3. apply seq_keeps;
    [|intros x Hx; apply assign_keeps_speed; [reflexivity|exact Hx]|exact H3].
  intros x Hx. unfold assign, speed_ok, row_speed_ok in *.
  destruct (row_speed r); cbn [get_default py_int fst set_speed speed];
    [unfold DEFAULT_SPEED; lia|exact Hx|exact R].
Qed.

Lemma save_keeps_speed (tz : tzinfo) (env : environment) (st st' : session) :
  save tz env st = Returns st' -> speed st' = speed st.
Proof.
  unfold save, save_remote_state, try_except.
  destruct (supabase env); cbn [negb]; [|intros E; injection E as <-; reflexivity].
  destruct (save_payload tz st (now_iso env)) as [p|e]; cbn [bind]; [|discriminate].
  destruct (upsert_response env p); cbn [bind]; intros E; injection E as <-; reflexivity.
Qed.

Lemma load_serves (t : option row) (env : environment) (r : row) :
  serves t env -> load env = Returns (Some r) -> t = Some r.
Proof.
  unfold serves, load, load_remote_state, try_except.
  destruct (supabase env); cbn [negb]; [|discriminate].
  intros [[e E]|E]; rewrite E; cbn [bind]; [discriminate|].
  destruct t as [r'|]; cbn [rows_of]; [|discriminate].
  intros H. injection H as <-. reflexivity.
Qed.

Lemma initialize_speed_ok (tz : tzinfo) (t : option row) (env : environment)
    (now0 : datetime) (st : session) :
  table_ok t -> serves t env -> initialize tz env now0 = Returns st -> speed_ok st.
Proof.
  intros T S. unfold initialize, initial_session.
  destruct (get_default_real_base now0) as [rb|e]; cbn [bind]; [|discriminate].
  set (st0 := {| real_base := rb |}).
  assert (H0 : speed_ok st0) by (unfold speed_ok, st0, DEFAULT_SPEED; cbn [speed]; lia).
  destruct (load env) as [[r|]|e] eqn:L; cbn [bind]; [| |discriminate].
  - intros E. injection E as <-.
    apply apply_remote_state_keeps_speed; [|exact H0].
    apply (load_serves t) in L; [|exact S]. subst t. exact T.
  - destruct (supabase env) eqn:C.
    + intros E. fold (save tz env st0) in E. apply save_keeps_speed in E.
      unfold speed_ok in *. rewrite E. exact H0.
    + intros E. injection E as <-. exact H0.
Qed.

Lemma remote_pull_speed_ok (tz : tzinfo) (t : option row) (env : environment)
    (st st' : session) :
  table_ok t -> serves t env -> speed_ok st ->
  remote_pull tz env st = Returns st' -> speed_ok st'.
Proof.
  intros T S H. unfold remote_pull.
  destruct (supabase env); [|intros E; injection E as <-; exact H].
  destruct (load env) as [[r|]|e] eqn:L; cbn [bind];
    [| intros E; injection E as <-; exact H | discriminate].
  apply (load_serves t) in L; [|exact S]. subst t.
  destruct (row_truthy r && negb _); intros E; injection E as <-; [|exact H].
  apply apply_remote_state_keeps_speed; assumption.
Qed.

Lemma then_save_speed (tz : tzinfo) (env : environment) (r : outcome session)
    (st : session) :
  speed_ok st -> (forall st1, r = Returns st1 -> speed_ok st1) ->
  speed_ok (fst (then_save tz env r st)).
Proof.
  intros H K. unfold then_save. destruct r as [st1|e]; cbn [fst]; [|exact H].
  specialize (K st1 eq_refl).
  destruct (save tz env st1) as [st2|e] eqn:E; cbn [fst]; [|exact K].
  apply save_keeps_speed in E. unfold speed_ok in *. rewrite E. exact K.
Qed.

Lemma bind_returns {A B : Type} (c : outcome A) (k : A -> outcome B) (b : B) :
  bind c k = Returns b -> exists a, c = Returns a /\ k a = Returns b.
Proof. destruct c; cbn [bind]; [eauto|discriminate]. Qed.

Lemma handle_click_speed_ok (tz : tzinfo) (env : environment) (nowx : datetime)
    (c : click) (st : session) :
  speed_ok st -> speed_ok (fst (handle_click tz env nowx c st)).
Proof.
  intros H. destruct c; cbn [handle_click].
  - apply then_save_speed; [exact H|]. intros st1 E.
    apply bind_returns in E as [v [_ E]]. injection E as <-. exact H.
  - apply then_save_speed; [exact H|]. intros st1 E.
    apply bind_returns in E as [v [_ E]]. injection E as <-. exact H.
  - destruct (nth_error btns i); [|exact H].
    apply then_save_speed; [exact H|]. intros st1 E. unfold adjust_button in E.
    apply bind_returns in E as [v [_ E]]. injection E as <-. exact H.
  - apply then_save_speed; [exact H|]. intros st1 E. unfold set_to_target in E.
    apply bind_returns in E as [v [_ E]].
    apply bind_returns in E as [w [_ E]]. injection E as <-. exact H.
  - apply then_save_speed; [exact H|]. intros st1 E. injection E as <-. exact H.
  - destruct (nth_error speed_choices i) as [sp|] eqn:N; [|exact H].
    apply then_save_speed; [exact H|]. intros st1 E. injection E as <-.
    unfold speed_ok, speed_button. cbn [speed set_speed].
    apply nth_error_In in N. unfold speed_choices in N. cbn [In] in N.
    intuition lia.
  - unfold reset_all, seq, assign.
    destruct (get_default_real_base nowx) as [rb|e]; cbn [fst]; [|exact H].
    match goal with |- context [save tz env ?x] => set (st1 := x) end.
    assert (H1 : speed_ok st1) by (unfold speed_ok, st1, DEFAULT_SPEED; cbn [speed]; lia).
    destruct (save tz env st1) as [st2|e] eqn:E; cbn [fst]; [|exact H1].
    apply save_keeps_speed in E. unfold speed_ok in *. rewrite E. exact H1.
Qed.

Lemma may_write_ok (tz : tzinfo) (env : environment) (st' : session) (t t' : option row) :
  table_ok t -> speed_ok st' -> may_write tz env st' t t' -> table_ok t'.
Proof.
  intros T H [->|[_ [p [stamp [E ->]]]]]; [exact T|].
  unfold save_payload in E. apply bind_returns in E as [sec [_ E]]. injection E as <-.
  exact H.
Qed.

Lemma replace_nth_Forall {A : Type} (P : A -> Prop) (i : nat) (x : A) (l : list A) :
  Forall P l -> P x -> Forall P (replace_nth i x l).
Proof.
  intros F Hx. revert i. induction F as [|y l Hy F IH]; intros i.
  - destruct i; constructor.
  - destruct i; cbn [replace_nth]; constructor; auto.
Qed.

Lemma nth_error_Forall {A : Type} (P : A -> Prop) (i : nat) (x : A) (l : list A) :
  Forall P l -> nth_error l i = Some x -> P x.
Proof.
  intros F N. apply nth_error_In in N. rewrite Forall_forall in F. auto.
Qed.

(** C4 (amended).  In every state reachable from a table that is empty or
    holds a row whose speed is missing, null or at least 1, by
    initialisations, pulls and button presses of any number of clients,
    every client has speed >= 1 and the table row keeps such a speed; and
    [apply_remote_state] preserves speed >= 1 for every row whose speed is
    missing, null or at least 1. *)
Theorem speed_invariant (SEOUL : tzinfo) (sys : system) :
  reachable SEOUL sys ->
  table_ok (table sys)
  /\ Forall (fun st => 1 <= speed st) (clients sys)
  /\ (forall r st, In st (clients sys) -> row_speed_ok r ->
                   1 <= speed (apply_remote_state SEOUL r st)).
Proof.
  intros R.
  assert (I : table_ok (table sys) /\ Forall speed_ok (clients sys)).
  { induction R as [t T|sys sys' R [IT IC] S].
    - split; [exact T|constructor].
    - destruct S as [sys env now0 st t' Sv I W|sys env i st st' N Sv P
                    |sys env nowx c i st t' N W]; cbn [table clients].
      + pose proof (initialize_speed_ok SEOUL _ env now0 st IT Sv I) as H.
        split; [apply (may_write_ok SEOUL env st (table sys)); assumption|].
        constructor; assumption.
      + split; [exact IT|]. apply replace_nth_Forall; [exact IC|].
        apply (remote_pull_speed_ok SEOUL (table sys) env st); try assumption.
        apply (nth_error_Forall _ i st _ IC N).
      + pose proof (nth_error_Forall _ i st _ IC N) as H.
        pose proof (handle_click_speed_ok SEOUL env nowx c st H) as H'.
        split; [apply (may_write_ok SEOUL env (fst (handle_click SEOUL env nowx c st))
                         (table sys)); assumption|].
        apply replace_nth_Forall; assumption. }
  destruct I as [IT IC]. split; [exact IT|]. split; [exact IC|].
  intros r st Hin Hr. rewrite Forall_forall in IC.
  apply apply_remote_state_keeps_speed; [exact Hr|apply IC; exact Hin].
Qed.

Lemma speed_invariant_witness :
  table_ok (table seeded_system)
  /\ Forall (fun st => 1 <= speed st) (clients seeded_system)
  /\ (forall r st, In st (clients seeded_system) -> row_speed_ok r ->
                   1 <= speed (apply_remote_state KST r st)).
Proof.
  apply (speed_invariant KST seeded_system).
  apply (reach_step KST {| table := Some (seed_row "2025-01-01T00:00:00+00:00");
                           clients := [] |}).
  - apply reach_start. vm_compute. discriminate.
  - apply (step_open KST
             {| table := Some (seed_row "2025-01-01T00:00:00+00:00"); clients := [] |}
             (serving [seed_row "2025-01-01T00:00:00+00:00"] "2025-01-01T21:00:00+09:00")
             (datetime_at DAY_2025_01_01 21 0 0)).
    + right. reflexivity.
    + vm_compute. reflexivity.
    + left. reflexivity.
Defined.

(** A row with speed 0 is applied as it is, by [apply_remote_state] and by
    the initialisation that loads it. *)
Lemma stopped_row_breaks_speed :
  1 <= speed (default_session DAY_2025_01_01)
  /\ speed (apply_remote_state KST (stopped_row "2025-01-24T12:00:00+00:00")
              (default_session DAY_2025_01_01)) = 0
  /\ exists st,
       initialize KST (serving [stopped_row "2025-01-24T12:00:00+00:00"] "")
         (datetime_at DAY_2025_01_01 21 0 0) = Returns st
       /\ speed st = 0.
Proof.
  split; [vm_compute; discriminate|]. split; [vm_compute; reflexivity|].
  eexists. split; vm_compute; reflexivity.
Qed.

(** * Further properties *)

(** ** Further properties of the mapper *)

Lemma dt_add_returns (dt v : datetime) (td : Z) :
  dt_add dt td = Returns v ->
  wall v = wall dt + td /\ fold v = false /\ 0 <= wall dt + td < MAX_WALL.
Proof.
  unfold dt_add. destruct (wall_in_range (wall dt + td)) eqn:E; [|discriminate].
  intros H. injection H as <-. apply wall_in_range_inv in E. auto.
Qed.

Lemma compute_virtual_steps (st : session) (now v : datetime) :
  compute_virtual st now = Returns v ->
  exists d v1 vn,
    scaled_elapsed (dt_sub now (real_base st)) (speed st) = Returns d
    /\ dt_add (virt_base st) d = Returns v1
    /\ dt_add v1 (virt_adjust st) = Returns vn
    /\ v = replace_microsecond0 vn.
Proof.
  unfold compute_virtual. intros H.
  apply bind_returns in H as [d [E1 H]].
  apply bind_returns in H as [v1 [E2 H]].
  apply bind_returns in H as [vn [E3 H]].
  injection H as <-. eauto 8.
Qed.

Lemma truncate_shift (w k : Z) :
  truncate_seconds (w + k * US_PER_SECOND) = truncate_seconds w + k * US_PER_SECOND.
Proof.
  unfold truncate_seconds. rewrite Z.mod_add by (unfold US_PER_SECOND; lia). ring.
Qed.

Lemma truncate_bounds (w : Z) :
  truncate_seconds w <= w < truncate_seconds w + US_PER_SECOND
  /\ truncate_seconds w mod US_PER_SECOND = 0.
Proof.
  unfold truncate_seconds.
  assert (PS : 0 < US_PER_SECOND) by reflexivity.
  pose proof (Z.mod_pos_bound w US_PER_SECOND PS) as B.
  pose proof (Z.div_mod w US_PER_SECOND ltac:(lia)) as E.
  split; [lia|].
  replace (w - w mod US_PER_SECOND) with (w / US_PER_SECOND * US_PER_SECOND) by lia.
  apply Z.mod_mul. lia.
Qed.

(** X1.  Whatever compute_virtual returns is a datetime of the type, on a
    whole second, with fold 0. *)
Theorem compute_virtual_whole_second (st : session) (now v : datetime) :
  compute_virtual st now = Returns v ->
  valid_datetime v /\ wall v mod US_PER_SECOND = 0 /\ fold v = false.
Proof.
  intros H. apply compute_virtual_steps in H as [d [v1 [vn [_ [_ [E ->]]]]]].
  apply dt_add_returns in E as [W [F R]].
  unfold replace_microsecond0, valid_datetime. cbn [wall fold].
  pose proof (truncate_bounds (wall vn)) as [B M]. unfold truncate_seconds in *.
  rewrite <- W in R.
  assert (PS : 0 < US_PER_SECOND) by reflexivity.
  pose proof (Z.mod_le (wall vn) US_PER_SECOND ltac:(lia) PS).
  repeat split; try lia; assumption.
Qed.

Lemma compute_virtual_whole_second_witness :
  valid_datetime (datetime_at DAY_2285_03_13 16 0 1)
  /\ wall (datetime_at DAY_2285_03_13 16 0 1) mod US_PER_SECOND = 0
  /\ fold (datetime_at DAY_2285_03_13 16 0 1) = false.
Proof.
  apply (compute_virtual_whole_second (old_base_session 0) (late_now 333333)).
  vm_compute. reflexivity.
Defined.

Lemma exact_range_returns (st : session) (now : datetime) :
  exact_range st now ->
  compute_virtual st now
  = Returns {| wall := truncate_seconds (spec_virtual_now st now); fold := false |}.
Proof.
  intros (A & B & C & D & E & F). apply compute_virtual_exact; assumption.
Qed.

(** X2.  Where the float arithmetic of the mapper is exact, k whole seconds
    of real time move the displayed time by k * speed seconds. *)
Theorem compute_virtual_tick (st : session) (now1 now2 : datetime) (k : Z) :
  wall now2 = wall now1 + k * US_PER_SECOND ->
  exact_range st now1 -> exact_range st now2 ->
  exists v1 v2,
    compute_virtual st now1 = Returns v1 /\ compute_virtual st now2 = Returns v2
    /\ wall v2 = wall v1 + k * speed st * US_PER_SECOND.
Proof.
  intros W R1 R2.
  rewrite (exact_range_returns st now1 R1), (exact_range_returns st now2 R2).
  eexists. eexists. split; [reflexivity|]. split; [reflexivity|]. cbn [wall].
  rewrite <- truncate_shift. f_equal. unfold spec_virtual_now. rewrite W. ring.
Qed.

Lemma compute_virtual_tick_witness :
  exists v1 v2,
    compute_virtual (default_session DAY_2025_01_01) (datetime_at DAY_2025_01_01 20 10 0)
    = Returns v1
    /\ compute_virtual (default_session DAY_2025_01_01) (datetime_at DAY_2025_01_01 20 10 7)
       = Returns v2
    /\ wall v2 = wall v1 + 7 * speed (default_session DAY_2025_01_01) * US_PER_SECOND.
Proof.
  apply (compute_virtual_tick (default_session DAY_2025_01_01)
           (datetime_at DAY_2025_01_01 20 10 0) (datetime_at DAY_2025_01_01 20 10 7) 7);
    vm_compute; repeat split; (reflexivity || discriminate).
Defined.

(** ** The panels *)

Lemma btns_whole_seconds (delta : timedelta) :
  In delta btns -> exists c, delta = c * US_PER_SECOND.
Proof.
  unfold btns, US_PER_DAY. cbn [In].
  intros [<-|[<-|[<-|[<-|[<-|[<-|[<-|[]]]]]]]];
    [exists 86400|exists (-86400)|exists 3600|exists (-3600)|exists 600|exists 60
    |exists (-60)]; unfold US_PER_SECOND; reflexivity.
Qed.

(** X3.  An adjustment button moves the displayed time at every instant by
    exactly its delta, as long as the moved display stays in the years
    1..9999. *)
Theorem adjust_button_shifts_display (st st' : session) (delta : timedelta)
    (now v : datetime) :
  In delta btns ->
  adjust_button delta st = Returns st' ->
  compute_virtual st now = Returns v ->
  0 <= wall v + delta < MAX_WALL ->
  compute_virtual st' now = Returns {| wall := wall v + delta; fold := false |}.
Proof.
  intros Hin Ha Hc R.
  destruct (btns_whole_seconds delta Hin) as [c ->].
  unfold adjust_button in Ha. apply bind_returns in Ha as [a [Ea Ha]].
  injection Ha as <-.
  unfold td_add, microseconds_to_delta in Ea.
  destruct (td_in_range _); [|discriminate]. injection Ea as <-.
  apply compute_virtual_steps in Hc as [d [v1 [vn [E1 [E2 [E3 ->]]]]]].
  unfold compute_virtual. cbn [real_base virt_base speed virt_adjust set_virt_adjust].
  rewrite E1. cbn [bind]. rewrite E2. cbn [bind].
  apply dt_add_returns in E3 as [W [F R3]].
  unfold replace_microsecond0 in R. cbn [wall] in R.
  pose proof (truncate_bounds (wall vn)) as [B M]. unfold truncate_seconds in B, M.
  assert (MW : MAX_WALL = 315537897600 * US_PER_SECOND) by reflexivity.
  pose proof (Z.div_mod (wall vn) US_PER_SECOND ltac:(unfold US_PER_SECOND; lia)) as DM.
  assert (RG : 0 <= wall v1 + (virt_adjust st + c * US_PER_SECOND) < MAX_WALL).
  { rewrite MW in *. unfold US_PER_SECOND in *. lia. }
  rewrite dt_add_ok by exact RG.
  cbn [bind]. unfold replace_microsecond0. cbn [wall fold].
  f_equal. f_equal.
  replace (wall v1 + (virt_adjust st + c * US_PER_SECOND))
    with (wall vn + c * US_PER_SECOND) by lia.
  change (truncate_seconds (wall vn + c * US_PER_SECOND)
          = truncate_seconds (wall vn) + c * US_PER_SECOND).
  apply truncate_shift.
Qed.

Lemma adjust_button_shifts_display_witness :
  compute_virtual (set_virt_adjust 600000000 (default_session DAY_2025_01_01))
    (datetime_at DAY_2025_01_01 20 10 0)
  = Returns {| wall := wall (datetime_at DAY_2025_01_01 9 30 0) + 600000000;
               fold := false |}.
Proof.
  apply (adjust_button_shifts_display (default_session DAY_2025_01_01)
           (set_virt_adjust 600000000 (default_session DAY_2025_01_01)) 600000000
           (datetime_at DAY_2025_01_01 20 10 0) (datetime_at DAY_2025_01_01 9 30 0)).
  - vm_compute. tauto.
  - vm_compute. reflexivity.
  - vm_compute. reflexivity.
  - vm_compute. split; [discriminate|reflexivity].
Defined.

Lemma base_button_moves (b : base_button) (cur init c1 : datetime) :
  b <> ResetBase ->
  base_button_apply b cur init = Returns c1 ->
  wall c1 = wall cur + button_seconds b * US_PER_SECOND /\ fold c1 = false
  /\ valid_datetime c1.
Proof.
  intros N H.
  destruct b; try congruence; cbn [base_button_apply button_seconds] in *;
    apply bind_returns in H as [d [Ed H]];
    vm_compute in Ed; injection Ed as <-; unfold dt_sub_td in H;
    apply dt_add_returns in H as [W [F R]]; unfold valid_datetime;
    rewrite W; unfold US_PER_SECOND; repeat split; try lia; assumption.
Qed.

(** X4.  A button of the virtual-base panel moves the displayed time by its
    amount. *)
Theorem virt_base_button_shifts_display (st : session) (b : base_button)
    (vb' now : datetime) :
  b <> ResetBase ->
  base_button_apply b (virt_base st) (virt_base_init st) = Returns vb' ->
  exact_range st now -> exact_range (set_virt_base vb' st) now ->
  exists v v',
    compute_virtual st now = Returns v
    /\ compute_virtual (set_virt_base vb' st) now = Returns v'
    /\ wall v' = wall v + button_seconds b * US_PER_SECOND.
Proof.
  intros N H R1 R2. apply base_button_moves in H as [W _]; [|exact N].
  rewrite (exact_range_returns _ _ R1), (exact_range_returns _ _ R2).
  eexists. eexists. split; [reflexivity|]. split; [reflexivity|]. cbn [wall].
  rewrite <- truncate_shift. f_equal. unfold spec_virtual_now.
  cbn [virt_base real_base speed virt_adjust set_virt_base]. rewrite W. ring.
Qed.

Lemma virt_base_button_shifts_display_witness :
  exists v v',
    compute_virtual (default_session DAY_2025_01_01) (datetime_at DAY_2025_01_01 20 10 0)
    = Returns v
    /\ compute_virtual
         (set_virt_base (datetime_at DAY_2025_01_01 10 0 0) (default_session DAY_2025_01_01))
         (datetime_at DAY_2025_01_01 20 10 0) = Returns v'
    /\ wall v' = wall v + button_seconds Plus1Hour * US_PER_SECOND.
Proof.
  apply (virt_base_button_shifts_display (default_session DAY_2025_01_01) Plus1Hour
           (datetime_at DAY_2025_01_01 10 0 0) (datetime_at DAY_2025_01_01 20 10 0)).
  - discriminate.
  - vm_compute. reflexivity.
  - vm_compute. repeat split; (reflexivity || discriminate).
  - vm_compute. repeat split; (reflexivity || discriminate).
Defined.

(** X5.  A button of the real-base panel moves the displayed time the other
    way, by its amount times the speed. *)
Theorem real_base_button_shifts_display (st : session) (b : base_button)
    (rb' now : datetime) :
  b <> ResetBase ->
  base_button_apply b (real_base st) (real_base_init st) = Returns rb' ->
  exact_range st now -> exact_range (set_real_base rb' st) now ->
  exists v v',
    compute_virtual st now = Returns v
    /\ compute_virtual (set_real_base rb' st) now = Returns v'
    /\ wall v' = wall v - button_seconds b * speed st * US_PER_SECOND.
Proof.
  intros N H R1 R2. apply base_button_moves in H as [W _]; [|exact N].
  rewrite (exact_range_returns _ _ R1), (exact_range_returns _ _ R2).
  eexists. eexists. split; [reflexivity|]. split; [reflexivity|]. cbn [wall].
  replace (truncate_seconds (spec_virtual_now st now)
           - button_seconds b * speed st * US_PER_SECOND)
    with (truncate_seconds (spec_virtual_now st now)
          + (- (button_seconds b * speed st)) * US_PER_SECOND) by ring.
  rewrite <- truncate_shift. f_equal. unfold spec_virtual_now.
  cbn [virt_base real_base speed virt_adjust set_real_base]. rewrite W. ring.
Qed.

Lemma real_base_button_shifts_display_witness :
  exists v v',
    compute_virtual (default_session DAY_2025_01_01) (datetime_at DAY_2025_01_01 20 10 0)
    = Returns v
    /\ compute_virtual
         (set_real_base (datetime_at DAY_2025_01_01 20 1 0) (default_session DAY_2025_01_01))
         (datetime_at DAY_2025_01_01 20 10 0) = Returns v'
    /\ wall v' = wall v - button_seconds Plus1Min * speed (default_session DAY_2025_01_01)
                          * US_PER_SECOND.
Proof.
  apply (real_base_button_shifts_display (default_session DAY_2025_01_01) Plus1Min
           (datetime_at DAY_2025_01_01 20 1 0) (datetime_at DAY_2025_01_01 20 10 0)).
  - discriminate.
  - vm_compute. reflexivity.
  - vm_compute. repeat split; (reflexivity || discriminate).
  - vm_compute. repeat split; (reflexivity || discriminate).
Defined.

(** X6.  On a base inside the datetime range, when a base button returns
    (the moved base is still in the years 1..9999), its opposite pressed
    next (+1 day and -1 day, +1 hour and -1 hour, +1 minute and -1 minute,
    in either order) does not raise and restores the wall time of the
    base. *)
Theorem opposite_buttons_cancel (b b' : base_button) (cur init c1 : datetime) :
  valid_datetime cur -> opposite b b' = true ->
  base_button_apply b cur init = Returns c1 ->
  base_button_apply b' c1 init = Returns {| wall := wall cur; fold := false |}.
Proof.
  intros V O H.
  assert (N : b <> ResetBase) by (destruct b, b'; cbn in O; congruence).
  apply base_button_moves in H as [W [F V1]]; [|exact N].
  unfold valid_datetime in V.
  destruct b, b'; cbn [opposite] in O; try discriminate;
    cbn [base_button_apply button_seconds] in *;
    [change (td_days 1) with (Returns US_PER_DAY)
    |change (td_days 1) with (Returns US_PER_DAY)
    |change (td_hours 1) with (Returns (3600 * US_PER_SECOND))
    |change (td_hours 1) with (Returns (3600 * US_PER_SECOND))
    |change (td_minutes 1) with (Returns (60 * US_PER_SECOND))
    |change (td_minutes 1) with (Returns (60 * US_PER_SECOND))];
    cbn [bind]; unfold dt_sub_td;
    rewrite dt_add_ok by (rewrite W; unfold US_PER_DAY, US_PER_SECOND; lia);
    f_equal; f_equal; rewrite W; unfold US_PER_DAY, US_PER_SECOND; lia.
Qed.

Lemma opposite_buttons_cancel_witness :
  base_button_apply Minus1Hour (datetime_at DAY_2025_01_01 21 0 0)
    (datetime_at DAY_2025_01_01 20 0 0)
  = Returns {| wall := wall (datetime_at DAY_2025_01_01 20 0 0); fold := false |}.
Proof.
  apply (opposite_buttons_cancel Plus1Hour Minus1Hour (datetime_at DAY_2025_01_01 20 0 0)
           (datetime_at DAY_2025_01_01 20 0 0) (datetime_at DAY_2025_01_01 21 0 0)).
  - vm_compute. split; [discriminate|reflexivity].
  - reflexivity.
  - vm_compute. reflexivity.
Defined.

(** ** Presses and exceptions *)

Lemma save_returns (tz : tzinfo) (env : environment) (st : session) :
  valid_timedelta (virt_adjust st) -> exists st', save tz env st = Returns st'.
Proof.
  intros V. unfold save, save_remote_state, save_payload, try_except.
  destruct (supabase env); cbn [negb]; [|eauto].
  destruct (int_of_total_seconds_defined _ V) as [n E]. rewrite E. cbn [bind].
  destruct (upsert_response env _); cbn [bind]; eauto.
Qed.

Lemma then_save_atomic (tz : tzinfo) (env : environment) (r : outcome session)
    (st : session) (e : exn) :
  (forall st1, r = Returns st1 -> valid_timedelta (virt_adjust st1)) ->
  snd (then_save tz env r st) = Some e -> fst (then_save tz env r st) = st.
Proof.
  intros V. unfold then_save. destruct r as [st1|x]; [|reflexivity].
  destruct (save_returns tz env st1 (V st1 eq_refl)) as [st2 E]. rewrite E.
  cbn [snd]. discriminate.
Qed.

Lemma valid_elapsed (a b : datetime) :
  valid_datetime a -> valid_datetime b -> valid_timedelta (dt_sub a b).
Proof.
  unfold valid_datetime, valid_timedelta, dt_sub. intros Ha Hb.
  assert (E : MAX_WALL <= TD_MAX /\ TD_MIN <= - MAX_WALL) by (vm_compute; split; discriminate).
  lia.
Qed.

(** X7.  When the handler of a press other than an adjustment button ends
    with an exception, it leaves the session as it was: the exception
    comes from the computation of the new value, before any field is
    assigned, and the save that follows an assignment does not raise. *)
Theorem click_raises_unchanged (SEOUL : tzinfo) (env : environment) (nowx : datetime)
    (c : click) (st : session) (e : exn) :
  valid_timedelta (virt_adjust st) -> click_valid c ->
  (forall i, c <> ClickAdjust i) ->
  snd (handle_click SEOUL env nowx c st) = Some e ->
  fst (handle_click SEOUL env nowx c st) = st.
Proof.
  intros V C NA. destruct c; cbn [handle_click click_valid] in *.
  - apply then_save_atomic. intros st1 E.
    apply bind_returns in E as [v [_ E]]. injection E as <-. exact V.
  - apply then_save_atomic. intros st1 E.
    apply bind_returns in E as [v [_ E]]. injection E as <-. exact V.
  - exfalso. apply (NA i). reflexivity.
  - apply then_save_atomic. intros st1 E. unfold set_to_target in E.
    apply bind_returns in E as [el [_ E]].
    apply bind_returns in E as [bn [Eb E]]. injection E as <-.
    cbn [virt_adjust set_virt_adjust].
    apply dt_add_inv in Eb as [_ Vb]. apply valid_elapsed; assumption.
  - apply then_save_atomic. intros st1 E. injection E as <-.
    cbn. vm_compute. split; discriminate.
  - destruct (nth_error speed_choices i); [|discriminate].
    apply then_save_atomic. intros st1 E. injection E as <-. exact V.
  - unfold reset_all, seq, assign.
    destruct (get_default_real_base nowx) as [rb|x]; [|reflexivity].
    match goal with |- context [save SEOUL env ?x] => set (st1 := x) end.
    destruct (save_returns SEOUL env st1) as [st2 E];
      [cbn; vm_compute; split; discriminate|].
    rewrite E. cbn [snd]. discriminate.
Qed.

Lemma click_raises_unchanged_witness :
  fst (handle_click KST (serving [] "2025-01-01T21:00:00+09:00")
         (datetime_at DAY_2025_01_01 21 0 0) (ClickRealBase Plus1Day)
         (set_real_base (datetime_at (MAXORDINAL - 1) 20 0 0) (default_session DAY_2025_01_01)))
  = set_real_base (datetime_at (MAXORDINAL - 1) 20 0 0) (default_session DAY_2025_01_01).
Proof.
  apply (click_raises_unchanged KST (serving [] "2025-01-01T21:00:00+09:00")
           (datetime_at DAY_2025_01_01 21 0 0) (ClickRealBase Plus1Day)
           (set_real_base (datetime_at (MAXORDINAL - 1) 20 0 0)
              (default_session DAY_2025_01_01)) OverflowError).
  - vm_compute. split; discriminate.
  - exact I.
  - discriminate.
  - vm_compute. reflexivity.
Defined.

Lemma adjust_overflow_raises (st st1 : session) (delta : timedelta) (now v : datetime) :
  In delta btns ->
  adjust_button delta st = Returns st1 ->
  compute_virtual st now = Returns v ->
  ~ (0 <= wall v + delta < MAX_WALL) ->
  compute_virtual st1 now = Raises OverflowError.
Proof.
  intros Hin Ha Hc R.
  destruct (btns_whole_seconds delta Hin) as [c ->].
  unfold adjust_button in Ha. apply bind_returns in Ha as [a [Ea Ha]].
  injection Ha as <-.
  unfold td_add, microseconds_to_delta in Ea.
  destruct (td_in_range _); [|discriminate]. injection Ea as <-.
  apply compute_virtual_steps in Hc as [d [v1 [vn [E1 [E2 [E3 ->]]]]]].
  unfold compute_virtual. cbn [real_base virt_base speed virt_adjust set_virt_adjust].
  rewrite E1. cbn [bind]. rewrite E2. cbn [bind].
  apply dt_add_returns in E3 as [W [F R3]].
  unfold replace_microsecond0 in R. cbn [wall] in R.
  pose proof (truncate_bounds (wall vn)) as [B M]. unfold truncate_seconds in B, M.
  assert (MW : MAX_WALL = 315537897600 * US_PER_SECOND) by reflexivity.
  pose proof (Z.div_mod (wall vn) US_PER_SECOND ltac:(unfold US_PER_SECOND; lia)) as DM.
  unfold dt_add.
  destruct (wall_in_range (wall v1 + (virt_adjust st + c * US_PER_SECOND))) eqn:I;
    [|reflexivity].
  exfalso. apply wall_in_range_inv in I. apply R.
  rewrite MW in *. unfold US_PER_SECOND in *. lia.
Qed.

(** X8.  An adjustment button that would move the display out of the years
    1..9999 changes the adjustment, then the display computation raises
    and nothing is saved. *)
Theorem adjust_press_overflow (SEOUL : tzinfo) (env : environment) (st st1 : session)
    (delta : timedelta) (now v : datetime) :
  In delta btns ->
  adjust_button delta st = Returns st1 ->
  compute_virtual st now = Returns v ->
  ~ (0 <= wall v + delta < MAX_WALL) ->
  compute_virtual st1 now = Raises OverflowError
  /\ adjust_press SEOUL env now delta st = (st1, Some OverflowError)
  /\ virt_adjust st1 = virt_adjust st + delta
  /\ last_saved_at st1 = last_saved_at st.
Proof.
  intros Hin Ha Hc R.
  pose proof (adjust_overflow_raises st st1 delta now v Hin Ha Hc R) as C.
  split; [exact C|]. unfold adjust_press. rewrite Ha, C.
  split; [reflexivity|].
  unfold adjust_button in Ha. apply bind_returns in Ha as [a [Ea Ha]].
  injection Ha as <-. unfold td_add, microseconds_to_delta in Ea.
  destruct (td_in_range _); [|discriminate]. injection Ea as <-.
  split; reflexivity.
Qed.

Lemma adjust_press_overflow_witness :
  compute_virtual
    (set_virt_adjust US_PER_DAY
       (set_virt_base (datetime_at (MAXORDINAL - 1) 9 0 0) (default_session DAY_2025_01_01)))
    (datetime_at DAY_2025_01_01 20 10 0) = Raises OverflowError
  /\ adjust_press KST (serving [] "2025-01-01T21:00:00+09:00")
       (datetime_at DAY_2025_01_01 20 10 0) US_PER_DAY
       (set_virt_base (datetime_at (MAXORDINAL - 1) 9 0 0) (default_session DAY_2025_01_01))
     = (set_virt_adjust US_PER_DAY
          (set_virt_base (datetime_at (MAXORDINAL - 1) 9 0 0)
             (default_session DAY_2025_01_01)), Some OverflowError)
  /\ virt_adjust
       (set_virt_adjust US_PER_DAY
          (set_virt_base (datetime_at (MAXORDINAL - 1) 9 0 0)
             (default_session DAY_2025_01_01)))
     = virt_adjust
         (set_virt_base (datetime_at (MAXORDINAL - 1) 9 0 0) (default_session DAY_2025_01_01))
       + US_PER_DAY
  /\ last_saved_at
       (set_virt_adjust US_PER_DAY
          (set_virt_base (datetime_at (MAXORDINAL - 1) 9 0 0)
             (default_session DAY_2025_01_01)))
     = last_saved_at
         (set_virt_base (datetime_at (MAXORDINAL - 1) 9 0 0) (default_session DAY_2025_01_01)).
Proof.
  apply (adjust_press_overflow KST (serving [] "2025-01-01T21:00:00+09:00")
           (set_virt_base (datetime_at (MAXORDINAL - 1) 9 0 0) (default_session DAY_2025_01_01))
           (set_virt_adjust US_PER_DAY
              (set_virt_base (datetime_at (MAXORDINAL - 1) 9 0 0)
                 (default_session DAY_2025_01_01)))
           US_PER_DAY (datetime_at DAY_2025_01_01 20 10 0)
           (datetime_at (MAXORDINAL - 1) 9 30 0)).
  - vm_compute. tauto.
  - vm_compute. reflexivity.
  - vm_compute. reflexivity.
  - vm_compute. intros [_ H]. discriminate.
Defined.

Lemma scaled_elapsed_raises (elapsed : timedelta) (sp : Z) (e : exn) :
  scaled_elapsed elapsed sp = Raises e -> e = OverflowError.
Proof.
  unfold scaled_elapsed, float_mul_int, float_of_int, int_true_div.
  destruct (to_float (round_ne (sp * UNIT) 1)); cbn [bind];
    [|intros H; injection H as <-; reflexivity].
  unfold td_seconds_float.
  destruct (float_mul _ _); [|intros H; injection H as <-; reflexivity].
  destruct (accum_seconds _) as [x l]. unfold microseconds_to_delta.
  destruct (td_in_range _); [discriminate|].
  intros H. injection H as <-. reflexivity.
Qed.

Lemma dt_add_raises (dt : datetime) (td : timedelta) (e : exn) :
  dt_add dt td = Raises e -> e = OverflowError.
Proof.
  unfold dt_add. destruct (wall_in_range _); [discriminate|].
  intros H. injection H as <-. reflexivity.
Qed.

Lemma compute_virtual_raises_only (st : session) (now : datetime) (e : exn) :
  compute_virtual st now = Raises e -> e = OverflowError.
Proof.
  unfold compute_virtual.
  destruct (scaled_elapsed _ _) as [d|x] eqn:E1; cbn [bind];
    [|intros H; injection H as <-; exact (scaled_elapsed_raises _ _ _ E1)].
  destruct (dt_add (virt_base st) d) as [v1|x] eqn:E2; cbn [bind];
    [|intros H; injection H as <-; exact (dt_add_raises _ _ _ E2)].
  destruct (dt_add v1 (virt_adjust st)) as [vn|x] eqn:E3; cbn [bind];
    [discriminate|].
  intros H; injection H as <-; exact (dt_add_raises _ _ _ E3).
Qed.

(** X9.  The display computation returns a datetime or raises OverflowError,
    nothing else, whatever the session holds. *)
Theorem compute_virtual_raises_overflow (st : session) (now : datetime) :
  (exists v, compute_virtual st now = Returns v)
  \/ compute_virtual st now = Raises OverflowError.
Proof.
  destruct (compute_virtual st now) as [v|x] eqn:C; [left; eauto|right].
  f_equal. exact (compute_virtual_raises_only st now x C).
Qed.

Lemma late_overflow_persists (st : session) (now now' : datetime) (d : timedelta) :
  0 < speed st -> wall now <= wall now' ->
  scaled_elapsed (dt_sub now (real_base st)) (speed st) = Returns d ->
  MAX_WALL <= wall (virt_base st) + d + virt_adjust st ->
  compute_virtual st now' = Raises OverflowError.
Proof.
  intros Hs Hn E1 Hi.
  destruct (compute_virtual st now') as [v'|x] eqn:C.
  - exfalso. apply compute_virtual_steps in C as [d' [v1 [vn [F1 [F2 [F3 _]]]]]].
    assert (D : d <= d').
    { apply (scaled_elapsed_mono (dt_sub now (real_base st)) (dt_sub now' (real_base st))
               (speed st) d d' Hs); [unfold dt_sub; lia|exact E1|exact F1]. }
    apply dt_add_returns in F2 as [W2 _]. apply dt_add_returns in F3 as [_ [_ R3]].
    lia.
  - f_equal. exact (compute_virtual_raises_only st now' x C).
Qed.

(** X10.  Once an adjustment button has pushed the display past the year
    9999, waiting does not bring it back: with a positive speed the display
    computation on the changed session raises OverflowError at the instant
    of the press and at every later instant. *)
Theorem adjustment_overflow_persists (st st1 : session) (delta : timedelta)
    (now v now' : datetime) :
  In delta btns ->
  adjust_button delta st = Returns st1 ->
  compute_virtual st now = Returns v ->
  MAX_WALL <= wall v + delta ->
  0 < speed st -> wall now <= wall now' ->
  compute_virtual st1 now' = Raises OverflowError.
Proof.
  intros Hin Ha Hc R Hs Hn.
  destruct (btns_whole_seconds delta Hin) as [c ->].
  unfold adjust_button in Ha. apply bind_returns in Ha as [a [Ea Ha]].
  injection Ha as <-.
  unfold td_add, microseconds_to_delta in Ea.
  destruct (td_in_range _); [|discriminate]. injection Ea as <-.
  apply compute_virtual_steps in Hc as [d [v1 [vn [E1 [E2 [E3 ->]]]]]].
  apply (late_overflow_persists _ now now' d).
  - exact Hs.
  - exact Hn.
  - exact E1.
  - cbn [real_base virt_base speed virt_adjust set_virt_adjust].
    apply dt_add_returns in E2 as [W2 _]. apply dt_add_returns in E3 as [W3 _].
    unfold replace_microsecond0 in R. cbn [wall] in R.
    pose proof (truncate_bounds (wall vn)) as [B M]. unfold truncate_seconds in B.
    lia.
Qed.

Lemma adjustment_overflow_persists_witness :
  compute_virtual
    (set_virt_adjust US_PER_DAY
       (set_virt_base (datetime_at (MAXORDINAL - 1) 9 0 0) (default_session DAY_2025_01_01)))
    (datetime_at DAY_2025_01_24 8 0 0)
  = Raises OverflowError.
Proof.
  apply (adjustment_overflow_persists
           (set_virt_base (datetime_at (MAXORDINAL - 1) 9 0 0) (default_session DAY_2025_01_01))
           (set_virt_adjust US_PER_DAY
              (set_virt_base (datetime_at (MAXORDINAL - 1) 9 0 0)
                 (default_session DAY_2025_01_01)))
           US_PER_DAY (datetime_at DAY_2025_01_01 20 10 0)
           (datetime_at (MAXORDINAL - 1) 9 30 0) (datetime_at DAY_2025_01_24 8 0 0)).
  - vm_compute. tauto.
  - vm_compute. reflexivity.
  - vm_compute. reflexivity.
  - vm_compute. discriminate.
  - reflexivity.
  - vm_compute. discriminate.
Defined.

(** ** Further properties of the shared record *)

Lemma total_seconds_trunc_nonneg (td : Z) :
  0 <= td < 2 ^ 53 ->
  Z.quot (round_ne (td * UNIT) US_PER_SECOND) UNIT = td / US_PER_SECOND.
Proof.
  intros [L H]. pose proof UNIT_pos as PU.
  assert (PS : 0 < US_PER_SECOND) by reflexivity.
  pose proof (Z.div_mod td US_PER_SECOND ltac:(lia)) as E.
  pose proof (Z.mod_pos_bound td US_PER_SECOND PS) as B.
  set (k := td / US_PER_SECOND) in *. set (r := td mod US_PER_SECOND) in *.
  assert (K : 0 <= k) by (apply Z.div_pos; lia).
  set (f := round_ne (td * UNIT) US_PER_SECOND).
  assert (Lo : k * UNIT <= f).
  { assert (X : round_ne (US_PER_SECOND * (k * 2 ^ 1074)) US_PER_SECOND = k * 2 ^ 1074).
    { apply round_ne_exact; [exact PS| |lia].
      unfold US_PER_SECOND in *. change (2 ^ 53) with 9007199254740992 in *. lia. }
    change (2 ^ 1074) with UNIT in X. rewrite <- X.
    apply round_ne_mono; [exact PS|]. nia. }
  assert (Hi : f < (k + 1) * UNIT).
  { destruct (Z.eq_dec td 0) as [Z0|NZ].
    - unfold f. rewrite Z0, Z.mul_0_l, round_ne_0.
      assert (k = 0) by (unfold US_PER_SECOND in *; lia). subst k. lia.
    - pose proof (round_ne_error (td * UNIT) US_PER_SECOND PS) as Er.
      rewrite Z.abs_mul, (Z.abs_eq UNIT), (Z.abs_eq td) in Er by lia.
      assert (E52 : 2 ^ 52 * US_PER_SECOND <= UNIT) by (vm_compute; discriminate).
      specialize (Er ltac:(nia)). fold f in Er.
      change (2 ^ 53) with 9007199254740992 in *.
      unfold US_PER_SECOND in *.
      assert (A : (f * 1000000 - td * UNIT) * 9007199254740992 <= td * UNIT) by lia.
      assert (T : td * UNIT * 9007199254740993
                  < (td - r + 1000000) * UNIT * 9007199254740992) by nia.
      nia. }
  rewrite Z.quot_div_nonneg by lia.
  symmetry. apply Z.div_unique with (r := f - k * UNIT); lia.
Qed.

Lemma int_of_total_seconds_trunc (td : timedelta) :
  Z.abs td < 2 ^ 53 ->
  int_of_float (total_seconds td) = Returns (Z.quot td US_PER_SECOND).
Proof.
  intros H. rewrite total_seconds_finite by (change (2 ^ 53) with 9007199254740992 in H;
    change (2 ^ 70) with 1180591620717411303424; lia).
  cbn [int_of_float]. f_equal.
  assert (PS : 0 < US_PER_SECOND) by reflexivity.
  destruct (Z.le_ge_cases 0 td) as [S|S].
  - rewrite total_seconds_trunc_nonneg by lia.
    symmetry. apply Z.quot_div_nonneg; lia.
  - replace (td * UNIT) with (- (- td * UNIT)) by ring.
    rewrite round_ne_opp, Z.quot_opp_l by (pose proof UNIT_pos; lia).
    rewrite total_seconds_trunc_nonneg by lia.
    rewrite <- Z.quot_div_nonneg by lia.
    rewrite Z.quot_opp_l by lia. ring.
Qed.

Lemma apply_saved_payload (tz : tzinfo) (st other : session) (stamp : string)
    (f : field string) :
  valid_datetime (real_base st) -> valid_datetime (virt_base st) ->
  survives_utc tz (real_base st) -> survives_utc tz (virt_base st) ->
  Z.abs (virt_adjust st) < 2 ^ 53 ->
  exists p,
    save_payload tz st stamp = Returns p
    /\ row_virt_adjust_sec p = Value (Z.quot (virt_adjust st) US_PER_SECOND)
    /\ apply_remote_state tz (restamp f p) other
       = {| real_base := real_base st; virt_base := virt_base st;
            real_base_init := real_base_init other;
            virt_base_init := virt_base_init other;
            virt_adjust := Z.quot (virt_adjust st) US_PER_SECOND * US_PER_SECOND;
            speed := speed st;
            last_loaded_at := get f; last_saved_at := last_saved_at other |}.
Proof.
  intros Vr Vv Sr Sv B.
  unfold save_payload. rewrite int_of_total_seconds_trunc by exact B. cbn [bind].
  eexists. split; [reflexivity|]. split; [reflexivity|].
  apply apply_remote_state_success
    with (n := Z.quot (virt_adjust st) US_PER_SECOND).
  - unfold column_gives. cbn [restamp row_real_base_iso get truthy to_iso isoformat].
    eexists. split; [reflexivity|]. apply (from_iso_to_iso tz); assumption.
  - unfold column_gives. cbn [restamp row_virt_base_iso get truthy to_iso isoformat].
    eexists. split; [reflexivity|]. apply (from_iso_to_iso tz); assumption.
  - reflexivity.
  - unfold td_seconds_int. apply microseconds_to_delta_ok.
    assert (PS : 0 < US_PER_SECOND) by reflexivity.
    pose proof (Z.quot_rem' (virt_adjust st) US_PER_SECOND) as Q.
    pose proof (Z.rem_bound_abs (virt_adjust st) US_PER_SECOND ltac:(lia)) as R.
    assert (Z.abs (Z.quot (virt_adjust st) US_PER_SECOND * US_PER_SECOND)
            <= Z.abs (virt_adjust st)).
    { pose proof (Z.rem_sign_mul (virt_adjust st) US_PER_SECOND ltac:(lia)) as S.
      pose proof (Z.quot_rem' (virt_adjust st) US_PER_SECOND).
      destruct (Z.le_ge_cases 0 (virt_adjust st)).
      - pose proof (Z.rem_nonneg (virt_adjust st) US_PER_SECOND ltac:(lia) ltac:(lia)).
        pose proof (Z.quot_pos (virt_adjust st) US_PER_SECOND ltac:(lia) PS). nia.
      - pose proof (Z.rem_nonpos (virt_adjust st) US_PER_SECOND ltac:(lia) ltac:(lia)).
        assert (Z.quot (virt_adjust st) US_PER_SECOND <= 0).
        { rewrite <- (Z.opp_involutive (virt_adjust st)), Z.quot_opp_l by lia.
          pose proof (Z.quot_pos (- virt_adjust st) US_PER_SECOND ltac:(lia) PS). lia. }
        nia. }
    assert (E : 2 ^ 53 <= TD_MAX /\ TD_MIN <= - 2 ^ 53) by (vm_compute; split; discriminate).
    lia.
  - reflexivity.
Qed.

(** X11.  For a saver whose bases are datetimes of the type that survive
    the conversion to UTC and back in SEOUL and whose adjustment is below
    2^53 microseconds in magnitude: the saved record holds the adjustment
    truncated toward zero to whole seconds, and a session that applies the
    record gets the saver's bases and speed and the truncated adjustment,
    less than a second away from the saver's. *)
Theorem save_truncates_adjustment (SEOUL : tzinfo) (st other : session) (stamp : string) :
  valid_datetime (real_base st) -> valid_datetime (virt_base st) ->
  survives_utc SEOUL (real_base st) -> survives_utc SEOUL (virt_base st) ->
  Z.abs (virt_adjust st) < 2 ^ 53 ->
  exists p,
    save_payload SEOUL st stamp = Returns p
    /\ row_virt_adjust_sec p = Value (Z.quot (virt_adjust st) US_PER_SECOND)
    /\ real_base (apply_remote_state SEOUL p other) = real_base st
    /\ virt_base (apply_remote_state SEOUL p other) = virt_base st
    /\ speed (apply_remote_state SEOUL p other) = speed st
    /\ virt_adjust (apply_remote_state SEOUL p other)
       = Z.quot (virt_adjust st) US_PER_SECOND * US_PER_SECOND
    /\ Z.abs (virt_adjust st - virt_adjust (apply_remote_state SEOUL p other))
       < US_PER_SECOND.
Proof.
  intros Vr Vv Sr Sv B.
  destruct (apply_saved_payload SEOUL st other stamp (Value stamp) Vr Vv Sr Sv B)
    as [p [E [A H]]].
  exists p. split; [exact E|]. split; [exact A|].
  assert (P : restamp (Value stamp) p = p).
  { unfold save_payload in E. apply bind_returns in E as [n [_ E]].
    injection E as <-. reflexivity. }
  rewrite P in H. rewrite H. cbn [real_base virt_base speed virt_adjust].
  repeat split.
  pose proof (Z.quot_rem' (virt_adjust st) US_PER_SECOND) as Q.
  pose proof (Z.rem_bound_abs (virt_adjust st) US_PER_SECOND
                ltac:(unfold US_PER_SECOND; lia)) as R.
  replace (virt_adjust st - Z.quot (virt_adjust st) US_PER_SECOND * US_PER_SECOND)
    with (Z.rem (virt_adjust st) US_PER_SECOND) by lia.
  unfold US_PER_SECOND in *. lia.
Qed.

Lemma save_truncates_adjustment_witness :
  exists p,
    save_payload KST (set_virt_adjust (-1500000) (default_session DAY_2025_01_01))
      "2025-01-01T21:00:00+09:00" = Returns p
    /\ row_virt_adjust_sec p = Value (Z.quot (-1500000) US_PER_SECOND)
    /\ real_base (apply_remote_state KST p (default_session DAY_2025_01_24))
       = real_base (set_virt_adjust (-1500000) (default_session DAY_2025_01_01))
    /\ virt_base (apply_remote_state KST p (default_session DAY_2025_01_24))
       = virt_base (set_virt_adjust (-1500000) (default_session DAY_2025_01_01))
    /\ speed (apply_remote_state KST p (default_session DAY_2025_01_24))
       = speed (set_virt_adjust (-1500000) (default_session DAY_2025_01_01))
    /\ virt_adjust (apply_remote_state KST p (default_session DAY_2025_01_24))
       = Z.quot (-1500000) US_PER_SECOND * US_PER_SECOND
    /\ Z.abs (virt_adjust (set_virt_adjust (-1500000) (default_session DAY_2025_01_01))
              - virt_adjust (apply_remote_state KST p (default_session DAY_2025_01_24)))
       < US_PER_SECOND.
Proof.
  apply (save_truncates_adjustment KST
           (set_virt_adjust (-1500000) (default_session DAY_2025_01_01))
           (default_session DAY_2025_01_24) "2025-01-01T21:00:00+09:00");
    vm_compute; repeat split; (reflexivity || discriminate).
Defined.

(** X12.  For a saver whose bases are datetimes of the type that survive
    the conversion to UTC and back in SEOUL and whose adjustment is below
    2^53 microseconds in magnitude: what a session saves after applying the
    saver's record is that record again, with a new [updated_at].  One
    round through the table can lose the sub-second part of the
    adjustment, a second round loses nothing. *)
Theorem saved_record_is_fixed_point (SEOUL : tzinfo) (st other : session)
    (stamp stamp' : string) :
  valid_datetime (real_base st) -> valid_datetime (virt_base st) ->
  survives_utc SEOUL (real_base st) -> survives_utc SEOUL (virt_base st) ->
  Z.abs (virt_adjust st) < 2 ^ 53 ->
  exists p,
    save_payload SEOUL st stamp = Returns p
    /\ save_payload SEOUL (apply_remote_state SEOUL p other) stamp'
       = Returns (restamp (Value stamp') p).
Proof.
  intros Vr Vv Sr Sv B.
  destruct (apply_saved_payload SEOUL st other stamp (Value stamp) Vr Vv Sr Sv B)
    as [p [E [A H]]].
  exists p. split; [exact E|].
  assert (P : restamp (Value stamp) p = p).
  { unfold save_payload in E. apply bind_returns in E as [n [_ E]].
    injection E as <-. reflexivity. }
  rewrite P in H. rewrite H.
  unfold save_payload in *. cbn [real_base virt_base speed virt_adjust].
  assert (PS : 0 < US_PER_SECOND) by reflexivity.
  rewrite int_of_total_seconds_trunc.
  - rewrite Z.quot_mul by lia. cbn [bind].
    rewrite int_of_total_seconds_trunc in E by exact B. cbn [bind] in E.
    injection E as <-. reflexivity.
  - pose proof (Z.quot_rem' (virt_adjust st) US_PER_SECOND) as Q.
    pose proof (Z.rem_bound_abs (virt_adjust st) US_PER_SECOND ltac:(lia)) as R.
    destruct (Z.le_ge_cases 0 (virt_adjust st)).
    + pose proof (Z.rem_nonneg (virt_adjust st) US_PER_SECOND ltac:(lia) ltac:(lia)).
      pose proof (Z.quot_pos (virt_adjust st) US_PER_SECOND ltac:(lia) PS). nia.
    + pose proof (Z.rem_nonpos (virt_adjust st) US_PER_SECOND ltac:(lia) ltac:(lia)).
      assert (Z.quot (virt_adjust st) US_PER_SECOND <= 0).
      { rewrite <- (Z.opp_involutive (virt_adjust st)), Z.quot_opp_l by lia.
        pose proof (Z.quot_pos (- virt_adjust st) US_PER_SECOND ltac:(lia) PS). lia. }
      nia.
Qed.

Lemma saved_record_is_fixed_point_witness :
  exists p,
    save_payload KST (set_virt_adjust 1500000 (default_session DAY_2025_01_01))
      "2025-01-01T21:00:00+09:00" = Returns p
    /\ save_payload KST (apply_remote_state KST p (default_session DAY_2025_01_24))
         "2025-01-01T21:00:05+09:00"
       = Returns (restamp (Value "2025-01-01T21:00:05+09:00"%string) p).
Proof.
  apply (saved_record_is_fixed_point KST
           (set_virt_adjust 1500000 (default_session DAY_2025_01_01))
           (default_session DAY_2025_01_24) "2025-01-01T21:00:00+09:00"
           "2025-01-01T21:00:05+09:00");
    vm_compute; repeat split; (reflexivity || discriminate).
Defined.

(** The body of [apply_remote_state] with the row's conversions named. *)
Lemma apply_remote_state_unfold (tz : tzinfo) (r : row) (st : session) :
  apply_remote_state tz r st
  = fst ((when (truthy (get (row_real_base_iso r)))
            (assign set_real_base
               (v <- subscript (row_real_base_iso r) ;; from_iso_value tz v)) ;;;
          when (truthy (get (row_virt_base_iso r)))
            (assign set_virt_base
               (v <- subscript (row_virt_base_iso r) ;; from_iso_value tz v)) ;;;
          assign set_virt_adjust
            (n <- py_int (get_default (row_virt_adjust_sec r) 0) ;; td_seconds_int n) ;;;
          assign set_speed (py_int (get_default (row_speed r) DEFAULT_SPEED)) ;;;
          assign set_last_loaded_at (Returns (get (row_updated_at r)))) st).
Proof. reflexivity. Qed.

Lemma real_base_step (tz : tzinfo) (f : field iso_text) (st : session) :
  (exists v, column_gives tz f (real_base st) v
             /\ when (truthy (get f))
                  (assign set_real_base (x <- subscript f ;; from_iso_value tz x)) st
                = (set_real_base v st, None))
  \/ (exists e, when (truthy (get f))
                  (assign set_real_base (x <- subscript f ;; from_iso_value tz x)) st
                = (st, Some e)).
Proof.
  unfold when, column_gives. destruct (truthy (get f)) eqn:T.
  - destruct f as [| |t]; try discriminate.
    unfold assign. cbn [subscript bind from_iso_value].
    destruct (from_iso tz t) as [v|e] eqn:E; [left|right; eauto].
    exists v. split; [eauto|reflexivity].
  - left. exists (real_base st). split; [reflexivity|]. destruct st; reflexivity.
Qed.

Lemma virt_base_step (tz : tzinfo) (f : field iso_text) (st : session) :
  (exists v, column_gives tz f (virt_base st) v
             /\ when (truthy (get f))
                  (assign set_virt_base (x <- subscript f ;; from_iso_value tz x)) st
                = (set_virt_base v st, None))
  \/ (exists e, when (truthy (get f))
                  (assign set_virt_base (x <- subscript f ;; from_iso_value tz x)) st
                = (st, Some e)).
Proof.
  unfold when, column_gives. destruct (truthy (get f)) eqn:T.
  - destruct f as [| |t]; try discriminate.
    unfold assign. cbn [subscript bind from_iso_value].
    destruct (from_iso tz t) as [v|e] eqn:E; [left|right; eauto].
    exists v. split; [eauto|reflexivity].
  - left. exists (virt_base st). split; [reflexivity|]. destruct st; reflexivity.
Qed.

(** X13.  [apply_remote_state] either applies the whole row, or stops at the
    first column that does not convert and then leaves the speed and
    [last_loaded_at] alone; it never touches the initial bases or
    [last_saved_at]. *)
Theorem apply_remote_state_all_or_token_kept (SEOUL : tzinfo) (r : row) (st : session) :
  real_base_init (apply_remote_state SEOUL r st) = real_base_init st
  /\ virt_base_init (apply_remote_state SEOUL r st) = virt_base_init st
  /\ last_saved_at (apply_remote_state SEOUL r st) = last_saved_at st
  /\ ((exists rb vb n adj sp,
         column_gives SEOUL (row_real_base_iso r) (real_base st) rb
         /\ column_gives SEOUL (row_virt_base_iso r) (virt_base st) vb
         /\ get_default (row_virt_adjust_sec r) 0 = Some n
         /\ td_seconds_int n = Returns adj
         /\ get_default (row_speed r) DEFAULT_SPEED = Some sp
         /\ apply_remote_state SEOUL r st
            = {| real_base := rb; virt_base := vb;
                 real_base_init := real_base_init st;
                 virt_base_init := virt_base_init st;
                 virt_adjust := adj; speed := sp;
                 last_loaded_at := get (row_updated_at r);
                 last_saved_at := last_saved_at st |})
      \/ (last_loaded_at (apply_remote_state SEOUL r st) = last_loaded_at st
          /\ speed (apply_remote_state SEOUL r st) = speed st)).
Proof.
  rewrite apply_remote_state_unfold. unfold seq.
  destruct (real_base_step SEOUL (row_real_base_iso r) st) as [[rb [G1 E1]]|[e1 E1]];
    rewrite E1; [|cbn [fst]; repeat split; right; split; reflexivity].
  destruct (virt_base_step SEOUL (row_virt_base_iso r) (set_real_base rb st))
    as [[vb [G2 E2]]|[e2 E2]];
    rewrite E2; [|cbn [fst]; repeat split; right; split; reflexivity].
  unfold assign.
  destruct (get_default (row_virt_adjust_sec r) 0) as [n|] eqn:A; cbn [py_int bind];
    [|cbn [fst]; repeat split; right; split; reflexivity].
  destruct (td_seconds_int n) as [adj|e] eqn:D;
    [|cbn [fst]; repeat split; right; split; reflexivity].
  destruct (get_default (row_speed r) DEFAULT_SPEED) as [sp|] eqn:S; cbn [py_int];
    [|cbn [fst]; repeat split; right; split; reflexivity].
  cbn [fst]. repeat split. left.
  exists rb, vb, n, adj, sp. repeat split; assumption || reflexivity.
Qed.

Lemma body_twice (c1 c2 : bool) (o1 o2 : outcome datetime) (o3 : outcome timedelta)
    (o4 : outcome Z) (o5 : outcome (option string)) (st : session) :
  let body :=
    when c1 (assign set_real_base o1) ;;; when c2 (assign set_virt_base o2) ;;;
    assign set_virt_adjust o3 ;;; assign set_speed o4 ;;; assign set_last_loaded_at o5 in
  fst (body (fst (body st))) = fst (body st).
Proof.
  destruct c1, c2, o1, o2, o3, o4, o5, st; reflexivity.
Qed.

Lemma apply_remote_state_twice (tz : tzinfo) (r : row) (st : session) :
  apply_remote_state tz r (apply_remote_state tz r st) = apply_remote_state tz r st.
Proof. rewrite !apply_remote_state_unfold. apply body_twice. Qed.

Lemma load_total (env : environment) : exists r, load env = Returns r.
Proof.
  unfold load, load_remote_state, try_except.
  destruct (supabase env); cbn [negb]; [|eauto].
  destruct (select_response env) as [d|e]; cbn [bind]; eauto.
Qed.

(** X14.  A pull never raises, and changes nothing when there is no client,
    when the query raises or when it returns no row. *)
Theorem remote_pull_degrades (SEOUL : tzinfo) (env : environment) (st : session) :
  exists st',
    remote_pull SEOUL env st = Returns st'
    /\ (supabase env = false
        \/ (exists e, select_response env = Raises e)
        \/ select_response env = Returns None
        \/ select_response env = Returns (Some [])
        -> st' = st).
Proof.
  unfold remote_pull, load, load_remote_state, try_except.
  destruct (supabase env) eqn:C; cbn [negb].
  - destruct (select_response env) as [[[|r rows]|]|e] eqn:Q; cbn [bind].
    + exists st. split; reflexivity.
    + destruct (row_truthy r && negb _); eexists; (split; [reflexivity|]);
        intros [H|[[e H]|[H|H]]]; discriminate.
    + exists st. split; reflexivity.
    + exists st. split; reflexivity.
  - exists st. split; reflexivity.
Qed.

Lemma opt_string_eqb_refl (a : option string) : opt_string_eqb a a = true.
Proof. destruct a; cbn; [apply String.eqb_refl|reflexivity]. Qed.

(** X15.  Pulling again with the same answer from the table changes nothing
    more. *)
Theorem remote_pull_twice (SEOUL : tzinfo) (env : environment) (st st1 : session) :
  remote_pull SEOUL env st = Returns st1 ->
  remote_pull SEOUL env st1 = Returns st1.
Proof.
  unfold remote_pull.
  destruct (supabase env); [|intros H; injection H as <-; reflexivity].
  destruct (load env) as [[r|]|e]; cbn [bind];
    [| intros H; injection H as <-; reflexivity | discriminate].
  destruct (row_truthy r) eqn:T; cbn [andb];
    [|intros H; injection H as <-; reflexivity].
  destruct (opt_string_eqb (get (row_updated_at r)) (last_loaded_at st)) eqn:E;
    cbn [negb]; intros H; injection H as <-.
  - rewrite E. reflexivity.
  - destruct (negb _); [|reflexivity].
    rewrite apply_remote_state_twice. reflexivity.
Qed.

Lemma remote_pull_twice_witness :
  remote_pull KST (serving [unreadable_row "2025-01-24T12:00:00+00:00"] "")
    (set_real_base (datetime_at DAY_2025_01_24 20 0 0) (default_session DAY_2025_01_01))
  = Returns (set_real_base (datetime_at DAY_2025_01_24 20 0 0)
               (default_session DAY_2025_01_01)).
Proof.
  apply (remote_pull_twice KST (serving [unreadable_row "2025-01-24T12:00:00+00:00"] "")
           (default_session DAY_2025_01_01)).
  vm_compute. reflexivity.
Defined.

Lemma compute_virtual_same_config (a b : session) (now : datetime) :
  real_base a = real_base b -> virt_base a = virt_base b ->
  virt_adjust a = virt_adjust b -> speed a = speed b ->
  compute_virtual a now = compute_virtual b now.
Proof.
  intros R V A S. unfold compute_virtual. rewrite R, V, A, S. reflexivity.
Qed.

(** X16.  Two sessions that have applied the same row, whose two base columns
    hold text, show the same virtual time at every instant. *)
Theorem applied_sessions_agree (SEOUL : tzinfo) (r : row) (a b : session) :
  truthy (get (row_real_base_iso r)) = true ->
  truthy (get (row_virt_base_iso r)) = true ->
  last_loaded_at (apply_remote_state SEOUL r a) <> last_loaded_at a ->
  last_loaded_at (apply_remote_state SEOUL r b) <> last_loaded_at b ->
  forall now,
    compute_virtual (apply_remote_state SEOUL r a) now
    = compute_virtual (apply_remote_state SEOUL r b) now.
Proof.
  intros T1 T2 Na Nb now.
  assert (F : forall x, last_loaded_at (apply_remote_state SEOUL r x) <> last_loaded_at x ->
            exists rb vb adj sp,
              (exists t, row_real_base_iso r = Value t /\ from_iso SEOUL t = Returns rb)
              /\ (exists t, row_virt_base_iso r = Value t /\ from_iso SEOUL t = Returns vb)
              /\ (exists n, get_default (row_virt_adjust_sec r) 0 = Some n
                            /\ td_seconds_int n = Returns adj)
              /\ get_default (row_speed r) DEFAULT_SPEED = Some sp
              /\ real_base (apply_remote_state SEOUL r x) = rb
              /\ virt_base (apply_remote_state SEOUL r x) = vb
              /\ virt_adjust (apply_remote_state SEOUL r x) = adj
              /\ speed (apply_remote_state SEOUL r x) = sp).
  { intros x Nx. rewrite apply_remote_state_unfold in *. unfold seq in *.
    destruct (real_base_step SEOUL (row_real_base_iso r) x) as [[rb [G1 E1]]|[e1 E1]];
      rewrite E1 in *; [|exfalso; apply Nx; reflexivity].
    destruct (virt_base_step SEOUL (row_virt_base_iso r) (set_real_base rb x))
      as [[vb [G2 E2]]|[e2 E2]];
      rewrite E2 in *; [|exfalso; apply Nx; reflexivity].
    unfold assign in *.
    destruct (get_default (row_virt_adjust_sec r) 0) as [n|] eqn:A; cbn [py_int bind] in *;
      [|exfalso; apply Nx; reflexivity].
    destruct (td_seconds_int n) as [adj|e] eqn:D; [|exfalso; apply Nx; reflexivity].
    destruct (get_default (row_speed r) DEFAULT_SPEED) as [sp|] eqn:S; cbn [py_int] in *;
      [|exfalso; apply Nx; reflexivity].
    unfold column_gives in G1, G2. rewrite T1 in G1. rewrite T2 in G2.
    exists rb, vb, adj, sp. cbn [fst]. repeat split; eauto. }
  destruct (F a Na) as (rb & vb & adj & sp & [t1 [C1 I1]] & [t2 [C2 I2]] & [n [A D]] & S
                        & Ra & Va & Aa & Sa).
  destruct (F b Nb) as (rb' & vb' & adj' & sp' & [t1' [C1' I1']] & [t2' [C2' I2']]
                        & [n' [A' D']] & S' & Rb & Vb & Ab & Sb).
  apply compute_virtual_same_config; congruence.
Qed.

Lemma applied_sessions_agree_witness :
  compute_virtual
    (apply_remote_state KST (written_row "2025-01-24T12:00:00+00:00")
       (default_session DAY_2025_01_01)) (datetime_at DAY_2025_01_24 21 0 0)
  = compute_virtual
      (apply_remote_state KST (written_row "2025-01-24T12:00:00+00:00")
         (old_base_session 7000000)) (datetime_at DAY_2025_01_24 21 0 0).
Proof.
  apply (applied_sessions_agree KST (written_row "2025-01-24T12:00:00+00:00")
           (default_session DAY_2025_01_01) (old_base_session 7000000)).
  - reflexivity.
  - reflexivity.
  - vm_compute. discriminate.
  - vm_compute. discriminate.
Defined.

(** ** Initialisation and conversion *)

(** X17.  [from_iso] depends on the instant only: two texts with different
    offsets that denote the same instant load as the same datetime. *)
Theorem from_iso_same_instant (SEOUL : tzinfo) (w1 off1 w2 off2 : Z) :
  0 <= w1 < MAX_WALL -> 0 <= w2 < MAX_WALL ->
  Z.abs off1 < US_PER_DAY -> Z.abs off2 < US_PER_DAY ->
  w1 - off1 = w2 - off2 ->
  from_iso SEOUL (IsoAware w1 off1) = from_iso SEOUL (IsoAware w2 off2).
Proof.
  intros R1 R2 O1 O2 E.
  unfold from_iso, fromisoformat.
  rewrite !wall_in_range_true by assumption.
  apply Z.ltb_lt in O1, O2. rewrite O1, O2. cbn [andb bind snd fst].
  unfold astimezone_from_offset, dt_sub_td, dt_add. cbn [wall].
  replace (w1 + - off1) with (w1 - off1) by ring.
  replace (w2 + - off2) with (w2 - off2) by ring.
  rewrite E. reflexivity.
Qed.

Lemma from_iso_same_instant_witness :
  from_iso KST (IsoAware (wall (datetime_at DAY_2025_01_24 11 0 0)) 0)
  = from_iso KST (IsoAware (wall (datetime_at DAY_2025_01_24 20 0 0))
                    (9 * 3600 * US_PER_SECOND)).
Proof.
  apply (from_iso_same_instant KST (wall (datetime_at DAY_2025_01_24 11 0 0)) 0
           (wall (datetime_at DAY_2025_01_24 20 0 0)) (9 * 3600 * US_PER_SECOND));
    vm_compute; repeat split; (reflexivity || discriminate).
Defined.

(** X18.  When the first load gives no row (the query raised or the table is
    empty) and the client exists, the initialisation writes its defaults:
    speed 3, adjustment 0 and the default bases; the session is the default
    one, with [last_saved_at] set when the write was accepted. *)
Theorem initialize_writes_defaults (SEOUL : tzinfo) (env : environment)
    (now0 : datetime) (st0 : session) :
  initial_session now0 = Returns st0 ->
  supabase env = true ->
  (exists e, select_response env = Raises e)
  \/ select_response env = Returns None
  \/ select_response env = Returns (Some []) ->
  exists p,
    save_payload SEOUL st0 (now_iso env) = Returns p
    /\ row_speed p = Value DEFAULT_SPEED
    /\ row_virt_adjust_sec p = Value 0
    /\ row_real_base_iso p = Value (to_iso SEOUL (real_base st0))
    /\ row_virt_base_iso p = Value (to_iso SEOUL (get_default_virt_base (real_base st0)))
    /\ initialize SEOUL env now0
       = Returns (match upsert_response env p with
                  | Returns _ => set_last_saved_at (Some (now_iso env)) st0
                  | Raises _ => st0
                  end).
Proof.
  intros I C Q. unfold initialize. rewrite I. cbn [bind].
  assert (L : load env = Returns None).
  { unfold load, load_remote_state, try_except. rewrite C. cbn [negb].
    destruct Q as [[e Q]|[Q|Q]]; rewrite Q; reflexivity. }
  rewrite L, C. cbn [bind].
  unfold initial_session in I. apply bind_returns in I as [rb [_ I]].
  injection I as <-.
  unfold save, save_remote_state, save_payload, try_except. rewrite C.
  cbn [negb virt_adjust real_base virt_base speed].
  assert (Z0 : int_of_float (total_seconds 0) = Returns 0) by (vm_compute; reflexivity).
  rewrite Z0. cbn [bind].
  eexists. split; [reflexivity|]. repeat split.
  destruct (upsert_response env _); reflexivity.
Qed.

Lemma initialize_writes_defaults_witness :
  exists p,
    save_payload KST (default_session DAY_2025_01_01) "2025-01-01T21:00:00+09:00"
    = Returns p
    /\ row_speed p = Value DEFAULT_SPEED
    /\ row_virt_adjust_sec p = Value 0
    /\ row_real_base_iso p = Value (to_iso KST (real_base (default_session DAY_2025_01_01)))
    /\ row_virt_base_iso p
       = Value (to_iso KST
                  (get_default_virt_base (real_base (default_session DAY_2025_01_01))))
    /\ initialize KST
         {| supabase := true; select_response := Raises APIError;
            upsert_response := fun _ => Returns tt;
            now_iso := "2025-01-01T21:00:00+09:00" |}
         (datetime_at DAY_2025_01_01 21 0 0)
       = Returns (match (fun _ : row => @Returns unit tt) p with
                  | Returns _ =>
                      set_last_saved_at (Some "2025-01-01T21:00:00+09:00"%string)
                        (default_session DAY_2025_01_01)
                  | Raises _ => default_session DAY_2025_01_01
                  end).
Proof.
  apply (initialize_writes_defaults KST
           {| supabase := true; select_response := Raises APIError;
              upsert_response := fun _ => Returns tt;
              now_iso := "2025-01-01T21:00:00+09:00" |}
           (datetime_at DAY_2025_01_01 21 0 0) (default_session DAY_2025_01_01)).
  - vm_compute. reflexivity.
  - reflexivity.
  - left. exists APIError. reflexivity.
Defined.

Lemma default_base_shape (now base : datetime) :
  get_default_real_base now = Returns base ->
  exists d, wall base = d * US_PER_DAY + hms_us REAL_BASE_HMS.
Proof.
  intros H. unfold get_default_real_base in H.
  destruct (dt_ltb now (replace_hms now REAL_BASE_HMS)).
  - apply bind_returns in H as [d [Ed H]]. vm_compute in Ed. injection Ed as <-.
    unfold dt_sub_td in H. apply dt_add_returns in H as [W _].
    exists (date_of now - 1). rewrite W. unfold replace_hms. cbn [wall].
    unfold US_PER_DAY, US_PER_SECOND. lia.
  - injection H as <-. exists (date_of now). reflexivity.
Qed.

(** X19.  The default real base is its own default, and the default virtual
    base lies exactly eleven hours before it. *)
Theorem default_bases_stable (now base : datetime) :
  get_default_real_base now = Returns base ->
  get_default_real_base base = Returns base
  /\ wall (get_default_virt_base base) = wall base - 11 * 3600 * US_PER_SECOND.
Proof.
  intros H.
  pose proof (default_base_shape now base H) as T.
  destruct T as [d W].
  change (hms_us REAL_BASE_HMS) with 72000000000 in W.
  assert (Q : wall base / US_PER_DAY = d).
  { symmetry. apply Z.div_unique with (r := 72000000000);
      [unfold US_PER_DAY, US_PER_SECOND; lia|rewrite W; ring]. }
  unfold get_default_real_base, get_default_virt_base, replace_hms, dt_ltb, date_of.
  cbn [wall fold]. rewrite Q.
  change (hms_us REAL_BASE_HMS) with 72000000000.
  change (hms_us VIRT_BASE_HMS) with 32400000000.
  rewrite <- W. rewrite Z.ltb_irrefl. split.
  - destruct base; reflexivity.
  - rewrite W. unfold US_PER_SECOND. lia.
Qed.

Lemma default_bases_stable_witness :
  get_default_real_base (datetime_at DAY_2025_01_01 20 0 0)
  = Returns (datetime_at DAY_2025_01_01 20 0 0)
  /\ wall (get_default_virt_base (datetime_at DAY_2025_01_01 20 0 0))
     = wall (datetime_at DAY_2025_01_01 20 0 0) - 11 * 3600 * US_PER_SECOND.
Proof.
  apply (default_bases_stable (datetime_at DAY_2025_01_01 23 30 0)
           (datetime_at DAY_2025_01_01 20 0 0)).
  vm_compute. reflexivity.
Defined.

(** ** Formatting *)

Lemma below_100 (P : Z -> bool) :
  forallb (fun k => P (Z.of_nat k)) (List.seq 0 100) = true ->
  forall n, 0 <= n < 100 -> P n = true.
Proof.
  intros F n H. rewrite forallb_forall in F.
  specialize (F (Z.to_nat n)). rewrite Z2Nat.id in F by lia.
  apply F. apply List.in_seq. lia.
Qed.

Lemma pad_two_digits (n : Z) : 0 <= n < 100 -> pad n = two_digits n.
Proof.
  intros H. apply String.eqb_eq.
  apply (below_100 (fun n => String.eqb (pad n) (two_digits n))); [|exact H].
  vm_compute. reflexivity.
Qed.

Lemma two_digits_inj (a b : Z) :
  0 <= a < 100 -> 0 <= b < 100 -> two_digits a = two_digits b -> a = b.
Proof.
  intros Ha Hb E.
  assert (D : forall x y, 0 <= x < 10 -> 0 <= y < 10 -> digit x = digit y -> x = y).
  { intros x y Hx Hy Ed. unfold digit in Ed.
    apply (f_equal nat_of_ascii) in Ed.
    rewrite !nat_ascii_embedding in Ed by lia. lia. }
  unfold two_digits in E. injection E as E1 E2.
  pose proof (Z.div_mod a 10 ltac:(lia)). pose proof (Z.div_mod b 10 ltac:(lia)).
  pose proof (Z.mod_pos_bound a 10 ltac:(lia)). pose proof (Z.mod_pos_bound b 10 ltac:(lia)).
  apply D in E1; [|lia|lia]. apply D in E2; [|lia|lia]. lia.
Qed.

Lemma clock_fields (dt : datetime) :
  0 <= second_of_day dt < 86400
  /\ hour dt = second_of_day dt / 3600
  /\ minute dt = second_of_day dt / 60 mod 60
  /\ second dt = second_of_day dt mod 60.
Proof.
  unfold hour, minute, second, second_of_day, time_of_day.
  assert (B : 0 <= wall dt mod US_PER_DAY < US_PER_DAY)
    by (apply Z.mod_pos_bound; reflexivity).
  set (t := wall dt mod US_PER_DAY) in *.
  unfold US_PER_DAY, US_PER_SECOND in *.
  split; [split; [apply Z.div_pos; lia|apply Z.div_lt_upper_bound; lia]|].
  split; [rewrite Z.div_div by lia; reflexivity|].
  split; [rewrite Z.div_div by lia; reflexivity|reflexivity].
Qed.

(** X20.  [fmt_hms] prints eight characters, and two datetimes print the same
    text exactly when they show the same second of the day. *)
Theorem fmt_hms_faithful (dt1 dt2 : datetime) :
  String.length (fmt_hms dt1) = 8%nat
  /\ (fmt_hms dt1 = fmt_hms dt2 <-> second_of_day dt1 = second_of_day dt2).
Proof.
  destruct (clock_fields dt1) as (B1 & H1 & M1 & S1).
  destruct (clock_fields dt2) as (B2 & H2 & M2 & S2).
  assert (R : forall s, 0 <= s < 86400 ->
                0 <= s / 3600 < 100 /\ 0 <= s / 60 mod 60 < 100 /\ 0 <= s mod 60 < 100).
  { intros s Hs. repeat split; try (apply Z.div_pos; lia);
      try (apply Z.div_lt_upper_bound; lia);
      pose proof (Z.mod_pos_bound (s / 60) 60 ltac:(lia));
      pose proof (Z.mod_pos_bound s 60 ltac:(lia)); lia. }
  destruct (R _ B1) as (A1 & A2 & A3). destruct (R _ B2) as (C1 & C2 & C3).
  unfold fmt_hms. rewrite H1, M1, S1, H2, M2, S2.
  rewrite !pad_two_digits by assumption.
  split; [reflexivity|]. split.
  - intros E. unfold two_digits in E. cbn [String.append] in E.
    injection E as E1 E2 E3 E4 E5 E6.
    assert (Eh : two_digits (second_of_day dt1 / 3600) = two_digits (second_of_day dt2 / 3600))
      by (unfold two_digits; congruence).
    assert (Em : two_digits (second_of_day dt1 / 60 mod 60)
                 = two_digits (second_of_day dt2 / 60 mod 60))
      by (unfold two_digits; congruence).
    assert (Es : two_digits (second_of_day dt1 mod 60) = two_digits (second_of_day dt2 mod 60))
      by (unfold two_digits; congruence).
    apply two_digits_inj in Eh; [|assumption|assumption].
    apply two_digits_inj in Em; [|assumption|assumption].
    apply two_digits_inj in Es; [|assumption|assumption].
    pose proof (Z.div_mod (second_of_day dt1) 60 ltac:(lia)).
    pose proof (Z.div_mod (second_of_day dt2) 60 ltac:(lia)).
    pose proof (Z.div_mod (second_of_day dt1 / 60) 60 ltac:(lia)).
    pose proof (Z.div_mod (second_of_day dt2 / 60) 60 ltac:(lia)).
    assert (Q1 : second_of_day dt1 / 3600 = second_of_day dt1 / 60 / 60)
      by (rewrite Z.div_div by lia; reflexivity).
    assert (Q2 : second_of_day dt2 / 3600 = second_of_day dt2 / 60 / 60)
      by (rewrite Z.div_div by lia; reflexivity).
    lia.
  - intros E. rewrite E. reflexivity.
Qed.

(** X21.  [fmt_adj] never raises on an adjustment below 2^53 microseconds; it
    prints the adjustment truncated toward zero to whole seconds, split
    into days, hours below 24, minutes and seconds below 60, and the sign
    is "-" only from one whole second below zero on. *)
Theorem fmt_adj_parts_sound (td : timedelta) :
  Z.abs td < 2 ^ 53 ->
  exists p text,
    fmt_adj_parts td = Returns p
    /\ fmt_adj td = Returns text
    /\ String.get 0 text = Some (if - US_PER_SECOND <? td then "+"%char else "-"%char)
    /\ adj_plus p = (- US_PER_SECOND <? td)
    /\ 0 <= adj_d p /\ 0 <= adj_h p < 24 /\ 0 <= adj_m p < 60 /\ 0 <= adj_s p < 60
    /\ ((adj_d p * 24 + adj_h p) * 60 + adj_m p) * 60 + adj_s p
       = Z.abs (Z.quot td US_PER_SECOND).
Proof.
  intros B. unfold fmt_adj, fmt_adj_parts.
  rewrite int_of_total_seconds_trunc by exact B. cbn [bind].
  set (q := Z.quot td US_PER_SECOND).
  assert (PS : 0 < US_PER_SECOND) by reflexivity.
  assert (SG : (0 <=? q) = (- US_PER_SECOND <? td)).
  { unfold q. pose proof (Z.quot_rem' td US_PER_SECOND) as Q.
    pose proof (Z.rem_bound_abs td US_PER_SECOND ltac:(lia)) as R.
    destruct (Z.le_ge_cases 0 td) as [S|S].
    - pose proof (Z.quot_pos td US_PER_SECOND S PS).
      destruct (Z.leb_spec 0 (Z.quot td US_PER_SECOND));
        destruct (Z.ltb_spec (- US_PER_SECOND) td); lia.
    - pose proof (Z.rem_nonpos td US_PER_SECOND ltac:(lia) S).
      destruct (Z.leb_spec 0 (Z.quot td US_PER_SECOND));
        destruct (Z.ltb_spec (- US_PER_SECOND) td); try reflexivity;
        unfold US_PER_SECOND in *; nia. }
  eexists. eexists. split; [reflexivity|]. split; [reflexivity|].
  cbn [adj_plus adj_d adj_h adj_m adj_s]. rewrite SG.
  split; [destruct (- US_PER_SECOND <? td); reflexivity|].
  split; [reflexivity|].
  set (a := Z.abs q). assert (A : 0 <= a) by (unfold a; lia).
  pose proof (Z.div_mod a 86400 ltac:(lia)).
  pose proof (Z.mod_pos_bound a 86400 ltac:(lia)).
  pose proof (Z.div_mod (a mod 86400) 3600 ltac:(lia)).
  pose proof (Z.mod_pos_bound (a mod 86400) 3600 ltac:(lia)).
  pose proof (Z.div_mod (a mod 86400 mod 3600) 60 ltac:(lia)).
  pose proof (Z.mod_pos_bound (a mod 86400 mod 3600) 60 ltac:(lia)).
  assert (0 <= a / 86400) by (apply Z.div_pos; lia).
  assert (0 <= a mod 86400 / 3600 < 24)
    by (split; [apply Z.div_pos; lia|apply Z.div_lt_upper_bound; lia]).
  assert (0 <= a mod 86400 mod 3600 / 60 < 60)
    by (split; [apply Z.div_pos; lia|apply Z.div_lt_upper_bound; lia]).
  repeat split; lia.
Qed.

Lemma fmt_adj_parts_sound_witness :
  exists p text,
    fmt_adj_parts (-500000) = Returns p
    /\ fmt_adj (-500000) = Returns text
    /\ String.get 0 text
       = Some (if - US_PER_SECOND <? -500000 then "+"%char else "-"%char)
    /\ adj_plus p = (- US_PER_SECOND <? -500000)
    /\ 0 <= adj_d p /\ 0 <= adj_h p < 24 /\ 0 <= adj_m p < 60 /\ 0 <= adj_s p < 60
    /\ ((adj_d p * 24 + adj_h p) * 60 + adj_m p) * 60 + adj_s p
       = Z.abs (Z.quot (-500000) US_PER_SECOND).
Proof.
  apply (fmt_adj_parts_sound (-500000)). vm_compute. reflexivity.
Defined.

(** ** Independence from the table service *)

Lemma save_same_config (tz : tzinfo) (env : environment) (st st' : session) :
  save tz env st = Returns st' -> same_config st' st.
Proof.
  unfold save, save_remote_state, try_except, same_config.
  destruct (supabase env); cbn [negb]; [|intros E; injection E as <-; auto].
  destruct (save_payload tz st (now_iso env)) as [p|e]; cbn [bind]; [|discriminate].
  destruct (upsert_response env p); cbn [bind]; intros E; injection E as <-; auto.
Qed.

Lemma then_save_config (tz : tzinfo) (env env' : environment) (r : outcome session)
    (st : session) :
  same_config (fst (then_save tz env r st)) (fst (then_save tz env' r st)).
Proof.
  unfold then_save. destruct r as [st1|e]; [|cbn [fst]; unfold same_config; auto].
  assert (A : forall v, same_config
                (fst match save tz v st1 with
                     | Returns st2 => (st2, None)
                     | Raises e => (st1, Some e)
                     end) st1).
  { intros v. destruct (save tz v st1) as [st2|e] eqn:E; cbn [fst].
    - apply (save_same_config tz v). exact E.
    - unfold same_config. auto. }
  pose proof (A env) as (A1 & A2 & A3 & A4). pose proof (A env') as (B1 & B2 & B3 & B4).
  unfold same_config. repeat split; congruence.
Qed.

(** X22.  What a press does to the configuration does not depend on the table
    service: with a failing store the same local change is made.  This holds
    for the handlers of the base panels, set-to-target, the resets and the
    speed buttons, and for an adjustment button together with the display
    computation that follows it. *)
Theorem press_ignores_store (SEOUL : tzinfo) (env env' : environment) (nowx : datetime)
    (c : click) (st : session) :
  (forall i, c <> ClickAdjust i) ->
  same_config (fst (handle_click SEOUL env nowx c st))
    (fst (handle_click SEOUL env' nowx c st))
  /\ (forall now_live delta,
        same_config (fst (adjust_press SEOUL env now_live delta st))
          (fst (adjust_press SEOUL env' now_live delta st))).
Proof.
  intros NA. split.
  - destruct c; cbn [handle_click]; try apply then_save_config.
    + exfalso. apply (NA i). reflexivity.
    + destruct (nth_error speed_choices i); [apply then_save_config|].
      unfold same_config. auto.
    + unfold reset_all, seq, assign.
      destruct (get_default_real_base nowx) as [rb|x]; cbn [fst];
        [|unfold same_config; auto].
      match goal with |- context [save SEOUL env ?x] => set (st1 := x) end.
      assert (A : forall v, same_config
                    (fst match save SEOUL v st1 with
                         | Returns st2 => (st2, None)
                         | Raises e => (st1, Some e)
                         end) st1).
      { intros v. destruct (save SEOUL v st1) as [st2|e] eqn:E; cbn [fst].
        - apply (save_same_config SEOUL v). exact E.
        - unfold same_config. auto. }
      pose proof (A env) as (A1 & A2 & A3 & A4). pose proof (A env') as (B1 & B2 & B3 & B4).
      unfold same_config. repeat split; congruence.
  - intros now_live delta. unfold adjust_press.
    destruct (adjust_button delta st) as [st1|e]; [|cbn [fst]; unfold same_config; auto].
    destruct (compute_virtual st1 now_live); [|cbn [fst]; unfold same_config; auto].
    apply then_save_config.
Qed.

Lemma press_ignores_store_witness :
  same_config
    (fst (handle_click KST (serving [] "2025-01-01T21:00:00+09:00")
            (datetime_at DAY_2025_01_01 21 0 0) (ClickSpeed 5)
            (default_session DAY_2025_01_01)))
    (fst (handle_click KST
            {| supabase := true; select_response := Raises APIError;
               upsert_response := fun _ => Raises APIError;
               now_iso := "2025-01-01T21:00:00+09:00" |}
            (datetime_at DAY_2025_01_01 21 0 0) (ClickSpeed 5)
            (default_session DAY_2025_01_01)))
  /\ (forall now_live delta,
        same_config
          (fst (adjust_press KST (serving [] "2025-01-01T21:00:00+09:00") now_live delta
                  (default_session DAY_2025_01_01)))
          (fst (adjust_press KST
                  {| supabase := true; select_response := Raises APIError;
                     upsert_response := fun _ => Raises APIError;
                     now_iso := "2025-01-01T21:00:00+09:00" |}
                  now_live delta (default_session DAY_2025_01_01)))).
Proof.
  apply (press_ignores_store KST (serving [] "2025-01-01T21:00:00+09:00")
           {| supabase := true; select_response := Raises APIError;
              upsert_response := fun _ => Raises APIError;
              now_iso := "2025-01-01T21:00:00+09:00" |}
           (datetime_at DAY_2025_01_01 21 0 0) (ClickSpeed 5)
           (default_session DAY_2025_01_01)).
  discriminate.
Defined.

Lemma body_keeps_init (c1 c2 : bool) (o1 o2 : outcome datetime) (o3 : outcome timedelta)
    (o4 : outcome Z) (o5 : outcome (option string)) (st : session) :
  let body :=
    when c1 (assign set_real_base o1) ;;; when c2 (assign set_virt_base o2) ;;;
    assign set_virt_adjust o3 ;;; assign set_speed o4 ;;; assign set_last_loaded_at o5 in
  real_base_init (fst (body st)) = real_base_init st
  /\ virt_base_init (fst (body st)) = virt_base_init st.
Proof.
  destruct c1, c2, o1, o2, o3, o4, o5, st; split; reflexivity.
Qed.

Lemma apply_remote_state_keeps_init (tz : tzinfo) (r : row) (st : session) :
  real_base_init (apply_remote_state tz r st) = real_base_init st
  /\ virt_base_init (apply_remote_state tz r st) = virt_base_init st.
Proof. rewrite apply_remote_state_unfold. apply body_keeps_init. Qed.

(** X23.  From 0001-01-01T20:00:00 on, the initialisation never raises,
    whatever the table service does, and the bases it keeps for the reset
    buttons are the local defaults (20:00:00, and 09:00:00 of the same
    day), also when a row of the table was applied. *)
Theorem initialize_returns (SEOUL : tzinfo) (env : environment) (now0 : datetime) :
  valid_datetime now0 -> hms_us REAL_BASE_HMS <= wall now0 ->
  exists st,
    initialize SEOUL env now0 = Returns st
    /\ time_of_day (real_base_init st) = hms_us REAL_BASE_HMS
    /\ wall (virt_base_init st) = wall (real_base_init st) - 11 * 3600 * US_PER_SECOND.
Proof.
  intros [V0 V1] H20.
  assert (G : exists base, get_default_real_base now0 = Returns base).
  { unfold get_default_real_base, dt_sub_td, dt_add, replace_hms, dt_ltb, date_of.
    cbn [wall fold]. change (td_days 1) with (Returns US_PER_DAY).
    change (hms_us REAL_BASE_HMS) with 72000000000 in *.
    unfold MAX_WALL, MAXORDINAL in *. change US_PER_DAY with 86400000000 in *.
    pose proof (Z.div_mod (wall now0) 86400000000 ltac:(lia)) as E.
    pose proof (Z.mod_pos_bound (wall now0) 86400000000 ltac:(lia)) as B.
    destruct (Z.ltb_spec (wall now0) (wall now0 / 86400000000 * 86400000000 + 72000000000));
      [|eauto].
    cbn [bind]. rewrite wall_in_range_true; [eauto|].
    unfold MAX_WALL, MAXORDINAL, US_PER_DAY, US_PER_SECOND. lia. }
  destruct G as [base G].
  destruct (default_base_shape now0 base G) as [d W].
  change (hms_us REAL_BASE_HMS) with 72000000000 in *.
  assert (Q : wall base / US_PER_DAY = d /\ wall base mod US_PER_DAY = 72000000000).
  { split; symmetry.
    - apply Z.div_unique with (r := 72000000000);
        [unfold US_PER_DAY, US_PER_SECOND; lia|rewrite W; ring].
    - apply Z.mod_unique with (q := d);
        [unfold US_PER_DAY, US_PER_SECOND; lia|rewrite W; ring]. }
  destruct Q as [Q1 Q2].
  unfold initialize, initial_session. rewrite G. cbn [bind].
  set (st0 := {| real_base := base |}).
  assert (I0 : time_of_day (real_base_init st0) = 72000000000
               /\ wall (virt_base_init st0)
                  = wall (real_base_init st0) - 11 * 3600 * US_PER_SECOND).
  { unfold st0, time_of_day, get_default_virt_base, replace_hms, date_of.
    cbn [real_base_init virt_base_init wall]. rewrite Q1, Q2.
    change (hms_us VIRT_BASE_HMS) with 32400000000.
    split; [reflexivity|]. rewrite W. unfold US_PER_SECOND. lia. }
  destruct (load_total env) as [[r|] L]; rewrite L; cbn [bind].
  - eexists. split; [reflexivity|].
    destruct (apply_remote_state_keeps_init SEOUL r st0) as [K1 K2].
    rewrite K1, K2. exact I0.
  - destruct (supabase env); [|eexists; split; [reflexivity|exact I0]].
    destruct (save_returns SEOUL env st0) as [st2 E];
      [unfold st0; cbn [virt_adjust]; vm_compute; split; discriminate|].
    fold (save SEOUL env st0). rewrite E. exists st2. split; [reflexivity|].
    unfold save, save_remote_state, try_except in E.
    destruct (supabase env); cbn [negb] in E; [|injection E as <-; exact I0].
    destruct (save_payload SEOUL st0 (now_iso env)) as [p|e]; cbn [bind] in E;
      [|discriminate].
    destruct (upsert_response env p); cbn [bind] in E; injection E as <-; exact I0.
Qed.

Lemma initialize_returns_witness :
  exists st,
    initialize KST (serving [written_row "2025-01-24T12:00:00+00:00"] "")
      (datetime_at DAY_2025_01_01 21 0 0) = Returns st
    /\ time_of_day (real_base_init st) = hms_us REAL_BASE_HMS
    /\ wall (virt_base_init st) = wall (real_base_init st) - 11 * 3600 * US_PER_SECOND.
Proof.
  apply (initialize_returns KST (serving [written_row "2025-01-24T12:00:00+00:00"] "")
           (datetime_at DAY_2025_01_01 21 0 0));
    vm_compute; repeat split; (reflexivity || discriminate).
Defined.
